(** * git_activity_dashboard: classifier, commit-log parser and aggregator

    A shallow embedding of [classifier.py] and [analyzer.py].

    Conventions of the embedding:
    - a Python [str] is a [string]; its characters are the code points
      0..255, on which [lower], [strip] and the regular expression of the
      parser are written out;
    - a Python [int] is a [Z];
    - a [dict] is a [gmap]; a [defaultdict(int)] is a [gmap] read with
      default [0];
    - a statement that can raise is a value of [outcome]. *)

From Stdlib Require Import ZArith Ascii String List Bool Lia QArith Qround Qabs Qpower Lqa SpecFloat.
From stdpp Require Import base option list gmap strings fin_maps sorting.

Local Open Scope Z_scope.

(* ===================================================================== *)
(** * Exceptions *)
(* ===================================================================== *)

(** The exceptions the program can raise and does not catch; a constructor
    stands for the class and its subclasses ([PermissionError] is an
    [OSError], [UnicodeDecodeError] a [ValueError]). *)
Inductive exn := TypeError | ZeroDivisionError | OverflowError | ValueError | OSError.

Inductive outcome (A : Type) :=
  | Ok (a : A)
  | Raise (e : exn).

Arguments Ok {A} a.
Arguments Raise {A} e.

Global Instance outcome_ret : MRet outcome := fun A a => Ok a.

Global Instance outcome_bind : MBind outcome := fun A B k m =>
  match m with
  | Ok a => k a
  | Raise e => Raise e
  end.

(** A loop body run over a list, stopping at the first exception. *)
Fixpoint foldM {A S} (body : S -> A -> outcome S) (l : list A) (s : S) : outcome S :=
  match l with
  | [] => Ok s
  | a :: l' => s' ← body s a; foldM body l' s'
  end.

(* ===================================================================== *)
(** * Python strings *)
(* ===================================================================== *)

Module PyStr.

Definition code (c : ascii) : Z := Z.of_nat (nat_of_ascii c).

Definition chr (n : Z) : ascii := ascii_of_nat (Z.to_nat n).

Definition TAB : ascii := "009"%char.
Definition NL : ascii := "010"%char.

(** [str.lower] on one character: A-Z, and the upper-case letters of the
    Latin-1 block (all of 192..222 but the multiplication sign 215). *)
Definition lower_char (c : ascii) : ascii :=
  let n := code c in
  if ((65 <=? n) && (n <=? 90)) || ((192 <=? n) && (n <=? 222) && negb (n =? 215))
  then chr (n + 32) else c.

Fixpoint lower (s : string) : string :=
  match s with
  | EmptyString => EmptyString
  | String c s' => String (lower_char c) (lower s')
  end.

(** [c.isspace()]: the characters [str.strip()] removes. *)
Definition isspace (c : ascii) : bool :=
  let n := code c in
  ((9 <=? n) && (n <=? 13)) || ((28 <=? n) && (n <=? 32)) || (n =? 133) || (n =? 160).

Fixpoint lstrip (s : string) : string :=
  match s with
  | EmptyString => EmptyString
  | String c s' => if isspace c then lstrip s' else s
  end.

(** [rstrip] drops a character when it is a space and everything after it
    has been dropped. *)
Fixpoint rstrip (s : string) : string :=
  match s with
  | EmptyString => EmptyString
  | String c s' =>
      match rstrip s' with
      | EmptyString => if isspace c then EmptyString else String c EmptyString
      | r => String c r
      end
  end.

Definition strip (s : string) : string := rstrip (lstrip s).

(** [pat in s] *)
Fixpoint contains (pat s : string) : bool :=
  String.prefix pat s ||
  match s with
  | EmptyString => false
  | String _ s' => contains pat s'
  end.

(** [s.count(c)] for a one-character [c] *)
Fixpoint count (c : ascii) (s : string) : Z :=
  match s with
  | EmptyString => 0
  | String a s' => (if Ascii.eqb a c then 1 else 0) + count c s'
  end.

(** The text before and after the first occurrence of [c], if any. *)
Fixpoint cut (c : ascii) (s : string) : option (string * string) :=
  match s with
  | EmptyString => None
  | String a s' =>
      if Ascii.eqb a c then Some (EmptyString, s')
      else match cut c s' with
           | Some (l, r) => Some (String a l, r)
           | None => None
           end
  end.

(** [s.split(c, maxsplit)] *)
Fixpoint split_max (c : ascii) (maxsplit : nat) (s : string) : list string :=
  match maxsplit with
  | O => [s]
  | S n =>
      match cut c s with
      | Some (l, r) => l :: split_max c n r
      | None => [s]
      end
  end.

(** [s.split(c)]: there are at most [length s] separators. *)
Definition split (c : ascii) (s : string) : list string :=
  split_max c (String.length s) s.

(** [s.replace(c, by)] for a one-character [c] *)
Fixpoint replace (c : ascii) (by_ : string) (s : string) : string :=
  match s with
  | EmptyString => EmptyString
  | String a s' =>
      if Ascii.eqb a c then by_ +:+ replace c by_ s'
      else String a (replace c by_ s')
  end.

(** [s.rfind(c)], [-1] when [c] does not occur *)
Fixpoint rfind_from (c : ascii) (s : string) (i : Z) (found : Z) : Z :=
  match s with
  | EmptyString => found
  | String a s' => rfind_from c s' (i + 1) (if Ascii.eqb a c then i else found)
  end.

Definition rfind (c : ascii) (s : string) : Z := rfind_from c s 0 (-1).

(** [s[i:i+1]] and the slices [s[:i]], [s[i:]] for [0 <= i] *)
Definition at_ (s : string) (i : Z) : option ascii := String.get (Z.to_nat i) s.
Definition take (i : Z) (s : string) : string := String.substring 0 (Z.to_nat i) s.
Definition drop (i : Z) (s : string) : string :=
  String.substring (Z.to_nat i) (String.length s - Z.to_nat i) s.

Definition isdigit (c : ascii) : bool :=
  let n := code c in (48 <=? n) && (n <=? 57).

Fixpoint all_digits (s : string) : bool :=
  match s with
  | EmptyString => true
  | String c s' => isdigit c && all_digits s'
  end.

(** The number a string of decimal digits writes *)
Fixpoint int_from (acc : Z) (s : string) : Z :=
  match s with
  | EmptyString => acc
  | String c s' => int_from (10 * acc + (code c - 48)) s'
  end.

(** [sys.int_info.default_max_str_digits] *)
Definition MAX_STR_DIGITS : Z := 4300.

(** [int(s)] on a string of decimal digits: a string of more than
    [MAX_STR_DIGITS] digits, leading zeros included, is refused with
    [ValueError]. *)
Definition int (s : string) : outcome Z :=
  if MAX_STR_DIGITS <? Z.of_nat (String.length s) then Raise ValueError
  else Ok (int_from 0 s).

(** truth value of a string: non-empty *)
Definition truthy (s : string) : bool :=
  match s with EmptyString => false | _ => true end.

End PyStr.

(* ===================================================================== *)
(** * classifier.py *)
(* ===================================================================== *)

Inductive ContributionType :=
  | PRODUCTION_CODE | TESTS | DOCUMENTATION | SPECS_CONFIG
  | INFRASTRUCTURE | STYLING | OTHER.

Global Instance ContributionType_eq_dec : EqDecision ContributionType.
Proof. solve_decision. Defined.

Definition ContributionType_values : list ContributionType :=
  [PRODUCTION_CODE; TESTS; DOCUMENTATION; SPECS_CONFIG; INFRASTRUCTURE; STYLING; OTHER].

Record FileClassification := mkFileClassification {
  file_path : string;
  contribution_type : ContributionType;
  language : option string;
  lines_added : Z;
  lines_removed : Z
}.

(** ** posixpath.splitext *)

(** The [while] loop of [genericpath._splitext]: from [filenameIndex], look
    for a character before [dotIndex] that is not a dot. [n] counts the
    iterations that remain. *)
Fixpoint splitext_loop (p : string) (filenameIndex dotIndex : Z) (n : nat)
  : string * string :=
  match n with
  | O => (p, EmptyString)
  | S n' =>
      if filenameIndex <? dotIndex then
        if negb (bool_decide (PyStr.at_ p filenameIndex = Some "."%char))
        then (PyStr.take dotIndex p, PyStr.drop dotIndex p)
        else splitext_loop p (filenameIndex + 1) dotIndex n'
      else (p, EmptyString)
  end.

Definition splitext (p : string) : string * string :=
  let sepIndex := PyStr.rfind "/"%char p in
  let dotIndex := PyStr.rfind "."%char p in
  if sepIndex <? dotIndex then
    splitext_loop p (sepIndex + 1) dotIndex (S (String.length p))
  else (p, EmptyString).

Module FileClassifier.

Definition TEST_PATTERNS : list string :=
  ["test_"; "_test."; ".test."; "tests/"; "/test/"; "spec_"; "_spec.";
   ".spec."; "specs/"; "/spec/"; "__tests__/"; ".tests."; "testing/";
   "unittest"; "pytest"; "jest"; "mocha"; "cypress/"; "e2e/"].

Definition DOC_PATTERNS : list string :=
  ["readme"; "changelog"; "contributing"; "license"; "authors";
   "docs/"; "/doc/"; "documentation/"; ".md"; ".rst"; ".txt";
   "wiki/"; "guide"; "manual"; "api-docs/"].

Definition DOC_EXTENSIONS : list string :=
  [".md"; ".rst"; ".txt"; ".adoc"; ".wiki"].

Definition SPEC_CONFIG_PATTERNS : list string :=
  ["package.json"; "tsconfig"; "webpack"; "babel"; "eslint"; "prettier";
   ".yaml"; ".yml"; ".json"; ".toml"; ".ini"; ".cfg"; ".conf";
   "openapi"; "swagger"; "schema"; ".env"; "config/"; "/config";
   "settings"; ".editorconfig"; ".gitignore"; ".dockerignore";
   "pyproject.toml"; "setup.py"; "setup.cfg"; "requirements";
   "Gemfile"; "Cargo.toml"; "go.mod"; "pom.xml"; "build.gradle";
   ".github/"; ".gitlab-ci"; "azure-pipelines"; "Jenkinsfile";
   ".travis"; "circle.yml"; "bitbucket-pipelines"].

Definition INFRA_PATTERNS : list string :=
  ["dockerfile"; "docker-compose"; "kubernetes/"; "k8s/"; "helm/";
   "terraform/"; ".tf"; "ansible/"; "puppet/"; "chef/";
   "cloudformation"; "pulumi/"; "vagrant"; "makefile"; "cmake";
   "deploy/"; "deployment/"; "infra/"; "infrastructure/";
   "scripts/deploy"; "scripts/build"; ".sh"; "nginx"; "apache"].

Definition STYLE_PATTERNS : list string :=
  [".css"; ".scss"; ".sass"; ".less"; ".styl"; ".styled.";
   "styles/"; "/style/"; "theme"; ".tailwind"].

Definition LANGUAGE_MAP : list (string * string) :=
  [(".py", "Python"); (".js", "JavaScript"); (".ts", "TypeScript");
   (".tsx", "TypeScript (React)"); (".jsx", "JavaScript (React)");
   (".cs", "C#"); (".java", "Java"); (".go", "Go"); (".rs", "Rust");
   (".rb", "Ruby"); (".php", "PHP"); (".swift", "Swift"); (".kt", "Kotlin");
   (".scala", "Scala"); (".c", "C"); (".cpp", "C++"); (".h", "C/C++ Header");
   (".hpp", "C++ Header"); (".vue", "Vue"); (".svelte", "Svelte");
   (".html", "HTML"); (".sql", "SQL"); (".r", "R");
   (".m", "MATLAB/Objective-C"); (".pl", "Perl"); (".lua", "Lua");
   (".dart", "Dart"); (".elm", "Elm"); (".ex", "Elixir"); (".exs", "Elixir");
   (".erl", "Erlang"); (".hs", "Haskell"); (".clj", "Clojure");
   (".fs", "F#"); (".fsx", "F#")].

(** [LANGUAGE_MAP.get(ext)]; the keys of the literal are distinct. *)
Fixpoint dict_get (d : list (string * string)) (k : string) : option string :=
  match d with
  | [] => None
  | (k', v) :: d' => if String.eqb k' k then Some v else dict_get d' k
  end.

(** [any(pattern in file_lower for pattern in patterns)] *)
Definition any_in (patterns : list string) (file_lower : string) : bool :=
  existsb (fun pattern => PyStr.contains pattern file_lower) patterns.

(** [ext in DOC_EXTENSIONS] *)
Definition mem (x : string) (l : list string) : bool :=
  existsb (String.eqb x) l.

(** truth value of an [Optional[str]] *)
Definition truthy (language : option string) : bool :=
  match language with
  | Some l => PyStr.truthy l
  | None => false
  end.

(** [language or default] *)
Definition or_ (language : option string) (default : string) : option string :=
  if truthy language then language else Some default.

Definition classify (file_path : string) (lines_added lines_removed : Z)
  : FileClassification :=
  let file_lower := PyStr.lower file_path in
  let ext := PyStr.lower (snd (splitext file_path)) in
  let language := dict_get LANGUAGE_MAP ext in
  if any_in TEST_PATTERNS file_lower then
    mkFileClassification file_path TESTS language lines_added lines_removed
  else if mem ext DOC_EXTENSIONS || any_in DOC_PATTERNS file_lower then
    mkFileClassification file_path DOCUMENTATION (Some "Documentation")
      lines_added lines_removed
  else if any_in INFRA_PATTERNS file_lower then
    mkFileClassification file_path INFRASTRUCTURE (or_ language "Infrastructure")
      lines_added lines_removed
  else if any_in SPEC_CONFIG_PATTERNS file_lower then
    mkFileClassification file_path SPECS_CONFIG (Some "Configuration")
      lines_added lines_removed
  else if any_in STYLE_PATTERNS file_lower then
    mkFileClassification file_path STYLING (Some "CSS/Styling")
      lines_added lines_removed
  else if truthy language then
    mkFileClassification file_path PRODUCTION_CODE language
      lines_added lines_removed
  else
    mkFileClassification file_path OTHER None lines_added lines_removed.

End FileClassifier.

(* ===================================================================== *)
(** * Datetimes *)
(* ===================================================================== *)

(** A [datetime]: the wall clock in microseconds since 0001-01-01T00:00:00
    (a Monday), and the UTC offset of its fixed-offset [tzinfo] in
    microseconds, [None] for a naive datetime. Every [tzinfo] the program
    meets is a fixed offset: [fromisoformat] and [astimezone()] build
    [datetime.timezone] objects. *)
Record datetime := mkdatetime { wall : Z; tzinfo : option Z }.

Definition DAY : Z := 86400000000.

(** Ordering of two datetimes: instants are compared when both are aware,
    wall clocks when both are naive; a naive and an aware datetime cannot
    be ordered. *)
Definition dt_key (a b : datetime) : outcome (Z * Z) :=
  match tzinfo a, tzinfo b with
  | None, None => Ok (wall a, wall b)
  | Some oa, Some ob => Ok (wall a - oa, wall b - ob)
  | _, _ => Raise TypeError
  end.

Definition dt_le (a b : datetime) : outcome bool :=
  k ← dt_key a b; Ok (fst k <=? snd k).

Definition dt_lt (a b : datetime) : outcome bool :=
  k ← dt_key a b; Ok (fst k <? snd k).

(** [min(dates)] and [max(dates)] on a non-empty list: the running extremum
    starts at the head and is replaced by an item that is strictly below
    (above) it. *)
Definition dt_min (d : datetime) (dates : list datetime) : outcome datetime :=
  foldM (fun m item => b ← dt_lt item m; Ok (if b : bool then item else m)) dates d.

Definition dt_max (d : datetime) (dates : list datetime) : outcome datetime :=
  foldM (fun m item => b ← dt_lt m item; Ok (if b : bool then item else m)) dates d.

(** [d.replace(tzinfo=tz)] *)
Definition replace_tzinfo (d : datetime) (tz : option Z) : datetime :=
  mkdatetime (wall d) tz.

(** [d.replace(hour=0, minute=0, second=0, microsecond=0)] *)
Definition midnight (d : datetime) : datetime :=
  mkdatetime (wall d - wall d mod DAY) (tzinfo d).

(** [d.replace(hour=23, minute=59, second=59, microsecond=999999)] *)
Definition last_microsecond (d : datetime) : datetime :=
  mkdatetime (wall d - wall d mod DAY + (DAY - 1)) (tzinfo d).

(** The datetime [delta] microseconds after and before [d]: what
    [d + timedelta] and [d - timedelta] give when they return. *)
Definition dt_add (d : datetime) (delta : Z) : datetime :=
  mkdatetime (wall d + delta) (tzinfo d).

Definition dt_sub (d : datetime) (delta : Z) : datetime :=
  mkdatetime (wall d - delta) (tzinfo d).

(** The range of [datetime]: the wall clock of 0001-01-01T00:00:00 is [0],
    and 9999-12-31, the last day, is day 3652058. *)
Definition MAXWALL : Z := 3652059 * DAY.

Definition in_range (w : Z) : bool := (0 <=? w) && (w <? MAXWALL).

(** [timedelta(days=n)] in microseconds: a timedelta holds at most
    999999999 days. *)
Definition timedelta_days (n : Z) : outcome Z :=
  if (-999999999 <=? n) && (n <=? 999999999) then Ok (n * DAY)
  else Raise OverflowError.

(** [d + timedelta] and [d - timedelta]: [OverflowError] when the result
    leaves the years 1 to 9999. *)
Definition dt_plus (d : datetime) (delta : Z) : outcome datetime :=
  if in_range (wall d + delta) then Ok (dt_add d delta) else Raise OverflowError.

Definition dt_minus (d : datetime) (delta : Z) : outcome datetime :=
  if in_range (wall d - delta) then Ok (dt_sub d delta) else Raise OverflowError.

(** [d.weekday()], Monday is 0 *)
Definition weekday (d : datetime) : Z := (wall d / DAY) mod 7.

(* ===================================================================== *)
(** * analyzer.py: the records *)
(* ===================================================================== *)

Global Instance ContributionType_countable : Countable ContributionType.
Proof.
  refine (inj_countable'
    (fun c => match c with
              | PRODUCTION_CODE => 0%nat | TESTS => 1%nat | DOCUMENTATION => 2%nat
              | SPECS_CONFIG => 3%nat | INFRASTRUCTURE => 4%nat | STYLING => 5%nat
              | OTHER => 6%nat
              end)
    (fun n => match n with
              | 0%nat => PRODUCTION_CODE | 1%nat => TESTS | 2%nat => DOCUMENTATION
              | 3%nat => SPECS_CONFIG | 4%nat => INFRASTRUCTURE | 5%nat => STYLING
              | _ => OTHER
              end) _).
  intros []; reflexivity.
Defined.

Module CommitInfo.
Record t := mk {
  hash : string;
  author : string;
  email : string;
  date : datetime;
  message : string;
  files_changed : Z;
  lines_added : Z;
  lines_removed : Z;
  file_classifications : list FileClassification
}.
End CommitInfo.

Module RepoStats.
Record t := mk {
  name : string;
  path : string;
  total_commits : Z;
  total_lines_added : Z;
  total_lines_removed : Z;
  total_files_changed : Z;
  first_commit_date : option datetime;
  last_commit_date : option datetime;
  languages : gmap string Z;
  contribution_types : gmap ContributionType Z;
  commits : list CommitInfo.t;
  technologies : list string;
  description : string
}.
End RepoStats.

Module ActivitySummary.
Record t := mk {
  period_start : datetime;
  period_end : datetime;
  period_label : string;
  commits : Z;
  lines_added : Z;
  lines_removed : Z;
  files_changed : Z;
  repos_active : Z;
  contribution_breakdown : gmap ContributionType Z;
  language_breakdown : gmap string Z
}.
End ActivitySummary.

(** [d[k] += v] on a [defaultdict(int)] *)
Definition dict_add `{Countable K} (k : K) (v : Z) (d : gmap K Z) : gmap K Z :=
  <[k := default 0 (d !! k) + v]> d.

(** [sum(d.values())] *)
Definition dict_sum `{Countable K} (d : gmap K Z) : Z :=
  map_fold (fun _ v acc => v + acc) 0 d.

(* ===================================================================== *)
(** * analyzer.py: GitAnalyzer.analyze_repo *)
(* ===================================================================== *)

(** What [subprocess.run(..., timeout=60)] does: it completes with a return
    code and the captured standard output, raises one of the two exceptions
    [_run_git_command] catches ([str_e] is [str(e)]), or raises another
    exception, such as [PermissionError] for an executable that may not be
    run or [UnicodeDecodeError] for output that is no text. *)
Inductive subprocess_result :=
  | CompletedProcess (returncode : Z) (stdout : string)
  | TimeoutExpired (str_e : string)
  | FileNotFoundError (str_e : string)
  | OtherException (e : exn).

(** The environment of one call of [analyze_repo]: the file system, the
    external command, the ISO-8601 parser of the standard library
    ([None] is [ValueError]) and the clock ([clock n] is the wall clock
    read by the [n]-th call of [datetime.now()]). The two helpers that read
    the readme and look for marker files are taken as functions of the
    path: what they return is stored in the statistics and read nowhere
    else. The first one swallows its exceptions; the second one lists the
    repository folder, and [None] is the [OSError] of a folder that cannot
    be listed. *)
Record World := mkWorld {
  isdir : string -> bool;
  basename_abspath : string -> string;
  _get_repo_description : string -> string;
  _detect_technologies : string -> option (list string);
  subprocess_run : list string -> string -> subprocess_result;
  fromisoformat : string -> option datetime;
  clock : nat -> Z
}.

Module GitAnalyzer.
Record t := mk {
  author_email : option string;
  author_name : option string;
  _repos : list RepoStats.t
}.
End GitAnalyzer.

(** [os.path.join(a, b)] on POSIX *)
Definition path_join (a b : string) : string :=
  if String.prefix "/" b then b
  else if negb (PyStr.truthy a) || String.prefix "/" (String.rev a) then a +:+ b
  else a +:+ "/" +:+ b.

(** The loop state of the parser: [stats.commits], [current_commit], the two
    [defaultdict]s, and the number of [datetime.now()] calls made so far. *)
Record parse_state := mk_parse_state {
  ps_commits : list CommitInfo.t;
  ps_current : option CommitInfo.t;
  ps_languages : gmap string Z;
  ps_contribution_types : gmap ContributionType Z;
  ps_clock : nat
}.

Definition parse_init : parse_state := mk_parse_state [] None ∅ ∅ 0%nat.

(** One alternative [(\d+|-)] of the numstat pattern *)
Definition digits_or_dash (g : string) : bool :=
  (PyStr.truthy g && PyStr.all_digits g) || String.eqb g "-".

(** [$] also matches just before a final newline. *)
Definition before_final_newline (s : string) : string :=
  match String.rev s with
  | String c r => if Ascii.eqb c PyStr.NL then String.rev r else s
  | EmptyString => s
  end.

(** [re.match(r'^(\d+|-)\t(\d+|-)\t(.+)$', line)]: the three groups. Neither
    of the first two groups can hold a tab, so they end at the first and at
    the second tab; [.] matches everything but a newline. *)
Definition numstat_match (line : string) : option (string * string * string) :=
  '(g1, rest) ← PyStr.cut PyStr.TAB line;
  '(g2, tail) ← PyStr.cut PyStr.TAB rest;
  let g3 := before_final_newline tail in
  if digits_or_dash g1 && digits_or_dash g2 && PyStr.truthy g3
     && negb (PyStr.contains (String PyStr.NL EmptyString) g3)
  then Some (g1, g2, g3) else None.

(** The count a group stands for *)
Definition numstat_count (g : string) : Z :=
  if String.eqb g "-" then 0 else PyStr.int_from 0 g.

(** [0 if g == '-' else int(g)] *)
Definition numstat_int (g : string) : outcome Z :=
  if String.eqb g "-" then Ok 0 else PyStr.int g.

Section Parser.

Variable W : World.

(** The body of [if len(parts) == 5:] *)
Definition open_commit (st : parse_state) (p0 p1 p2 p3 p4 : string) : parse_state :=
  let commits :=
    match ps_current st with
    | Some current_commit => ps_commits st ++ [current_commit]
    | None => ps_commits st
    end in
  let '(commit_date, n) :=
    match fromisoformat W (PyStr.replace "Z"%char "+00:00" p3) with
    | Some d => (d, ps_clock st)
    | None => (mkdatetime (clock W (ps_clock st)) None, S (ps_clock st))
    end in
  mk_parse_state commits
    (Some (CommitInfo.mk p0 p1 p2 commit_date p4 0 0 0 []))
    (ps_languages st) (ps_contribution_types st) n.

(** The commit-line test; [None] when control falls through to the numstat
    test. *)
Definition commit_line (st : parse_state) (line : string) : option parse_state :=
  if PyStr.contains "|" line && (4 <=? PyStr.count "|"%char line) then
    match PyStr.split_max "|"%char 4 line with
    | [p0; p1; p2; p3; p4] => Some (open_commit st p0 p1 p2 p3 p4)
    | _ => None
    end
  else None.

(** The numstat test and its body, for counts that [int] converts *)
Definition numstat_line (st : parse_state) (line : string) : parse_state :=
  match numstat_match line, ps_current st with
  | Some (g1, g2, filepath), Some current_commit =>
      let added := numstat_count g1 in
      let removed := numstat_count g2 in
      let classification := FileClassifier.classify filepath added removed in
      let current_commit' :=
        CommitInfo.mk
          (CommitInfo.hash current_commit) (CommitInfo.author current_commit)
          (CommitInfo.email current_commit) (CommitInfo.date current_commit)
          (CommitInfo.message current_commit)
          (CommitInfo.files_changed current_commit + 1)
          (CommitInfo.lines_added current_commit + added)
          (CommitInfo.lines_removed current_commit + removed)
          (CommitInfo.file_classifications current_commit ++ [classification]) in
      let languages :=
        match language classification with
        | Some l =>
            if PyStr.truthy l then dict_add l (added + removed) (ps_languages st)
            else ps_languages st
        | None => ps_languages st
        end in
      mk_parse_state (ps_commits st) (Some current_commit') languages
        (dict_add (contribution_type classification) (added + removed)
           (ps_contribution_types st))
        (ps_clock st)
  | _, _ => st
  end.

(** The body of [for line in output.split('\n')], for counts that [int]
    converts *)
Definition parse_line (st : parse_state) (line : string) : parse_state :=
  let line := PyStr.strip line in
  if negb (PyStr.truthy line) then st
  else match commit_line st line with
       | Some st' => st'
       | None => numstat_line st line
       end.

Definition parse_lines (lines : list string) (st : parse_state) : parse_state :=
  fold_left parse_line lines st.

(** [if current_commit: stats.commits.append(current_commit)] after the
    loop *)
Definition all_parsed (st : parse_state) : list CommitInfo.t :=
  match ps_current st with
  | Some current_commit => ps_commits st ++ [current_commit]
  | None => ps_commits st
  end.

(** The commits of the log: the parser's list, closed by the open commit. *)
Definition parsed_commits (output : string) : list CommitInfo.t :=
  let st := parse_lines (PyStr.split PyStr.NL output) parse_init in
  match ps_current st with
  | Some current_commit => ps_commits st ++ [current_commit]
  | None => ps_commits st
  end.

(** The numstat test and its body: the two conversions come first, and
    the [ValueError] of one of them ends the loop. *)
Definition numstat_step (st : parse_state) (line : string) : outcome parse_state :=
  match numstat_match line, ps_current st with
  | Some (g1, g2, filepath), Some current_commit =>
      added ← numstat_int g1;
      removed ← numstat_int g2;
      Ok (numstat_line st line)
  | _, _ => Ok st
  end.

(** The body of [for line in output.split('\n')] *)
Definition parse_step (st : parse_state) (line : string) : outcome parse_state :=
  let line := PyStr.strip line in
  if negb (PyStr.truthy line) then Ok st
  else match commit_line st line with
       | Some st' => Ok st'
       | None => numstat_step st line
       end.

(** The loop over the lines of the log *)
Definition parse_log (output : string) : outcome parse_state :=
  foldM parse_step (PyStr.split PyStr.NL output) parse_init.

(** An exception that is not caught leaves [_run_git_command]. *)
Definition _run_git_command (repo_path : string) (args : list string)
  : outcome (bool * string) :=
  match subprocess_run W ("git" :: args) repo_path with
  | CompletedProcess returncode stdout => Ok (returncode =? 0, stdout)
  | TimeoutExpired str_e => Ok (false, str_e)
  | FileNotFoundError str_e => Ok (false, str_e)
  | OtherException e => Raise e
  end.

(** [min(dates)], [max(dates)] under [if stats.commits:] *)
Definition commit_dates (commits : list CommitInfo.t)
  : outcome (option datetime * option datetime) :=
  match map CommitInfo.date commits with
  | [] => Ok (None, None)
  | d :: dates =>
      first ← dt_min d dates;
      last ← dt_max d dates;
      Ok (Some first, Some last)
  end.

(** [author_filter]: the e-mail address wins over the name. *)
Definition author_filter (self : GitAnalyzer.t) : list string :=
  if FileClassifier.truthy (GitAnalyzer.author_email self)
  then ["--author"; default "" (GitAnalyzer.author_email self)]
  else if FileClassifier.truthy (GitAnalyzer.author_name self)
  then ["--author"; default "" (GitAnalyzer.author_name self)]
  else [].

Definition log_format : string := "%H|%an|%ae|%aI|%s".

(** The arguments of the log command *)
Definition log_args (self : GitAnalyzer.t) : list string :=
  ["log"; "--format=" +:+ log_format; "--numstat"] ++ author_filter self.

(** [analyze_repo] returns [None] or the statistics, or raises; with it
    comes the analyzer after the call. *)
Definition analyze_repo (self : GitAnalyzer.t) (repo_path : string)
  : outcome (option RepoStats.t) * GitAnalyzer.t :=
  if negb (isdir W (path_join repo_path ".git")) then (Ok None, self)
  else
    let repo_name := basename_abspath W repo_path in
    let description := _get_repo_description W repo_path in
    match _detect_technologies W repo_path with
    | None => (Raise OSError, self)
    | Some technologies =>
        match _run_git_command repo_path (log_args self) with
        | Raise e => (Raise e, self)
        | Ok (success, output) =>
            if negb success then (Ok None, self)
            else
              match parse_log output with
              | Raise e => (Raise e, self)
              | Ok st =>
                  let commits := all_parsed st in
                  let total_lines_added :=
                    fold_left (fun acc commit => acc + CommitInfo.lines_added commit)
                      commits 0 in
                  let total_lines_removed :=
                    fold_left (fun acc commit => acc + CommitInfo.lines_removed commit)
                      commits 0 in
                  let total_files_changed :=
                    fold_left (fun acc commit => acc + CommitInfo.files_changed commit)
                      commits 0 in
                  match commit_dates commits with
                  | Raise e => (Raise e, self)
                  | Ok (first_commit_date, last_commit_date) =>
                      let stats :=
                        RepoStats.mk repo_name repo_path (Z.of_nat (length commits))
                          total_lines_added total_lines_removed total_files_changed
                          first_commit_date last_commit_date
                          (ps_languages st) (ps_contribution_types st)
                          commits technologies description in
                      (Ok (Some stats),
                       GitAnalyzer.mk (GitAnalyzer.author_email self)
                         (GitAnalyzer.author_name self)
                         (GitAnalyzer._repos self ++ [stats]))
                  end
              end
        end
    end.

End Parser.

(* ===================================================================== *)
(** * analyzer.py: activity periods *)
(* ===================================================================== *)

(** [range(n)] *)
Definition range (n : Z) : list Z := map Z.of_nat (seq 0 (Z.to_nat n)).

(** The commit date, with the period's tzinfo put on a naive one:
    [if commit_date.tzinfo is None: commit_date = commit_date.replace(tzinfo=tz)] *)
Definition with_period_tz (commit_date : datetime) (tz : option Z) : datetime :=
  match tzinfo commit_date with
  | None => replace_tzinfo commit_date tz
  | Some _ => commit_date
  end.

(** [start <= commit_date <= end]: the second comparison is made only when
    the first one holds. *)
Definition between (start commit_date end_ : datetime) : outcome bool :=
  b ← dt_le start commit_date;
  if b : bool then dt_le commit_date end_ else Ok false.

(** [for repo in self._repos: for commit in repo.commits: body] *)
Definition for_each_commit {S} (repos : list RepoStats.t)
    (body : S -> RepoStats.t -> CommitInfo.t -> outcome S) (s : S) : outcome S :=
  foldM (fun s repo => foldM (fun s commit => body s repo commit) (RepoStats.commits repo) s)
    repos s.

(** [for classification in commit.file_classifications] of
    [get_activity_summary] *)
Definition add_classification (acc : gmap ContributionType Z * gmap string Z)
    (classification : FileClassification) : gmap ContributionType Z * gmap string Z :=
  let n := lines_added classification + lines_removed classification in
  (dict_add (contribution_type classification) n (fst acc),
   match language classification with
   | Some l => if PyStr.truthy l then dict_add l n (snd acc) else snd acc
   | None => snd acc
   end).

(** The local variables of the counting loops: the summary's counters, the
    set [active_repos] and the two [defaultdict]s. *)
Record counters := mk_counters {
  n_commits : Z;
  n_lines_added : Z;
  n_lines_removed : Z;
  n_files_changed : Z;
  active_repos : gset string;
  breakdowns : gmap ContributionType Z * gmap string Z
}.

Definition counters_init : counters := mk_counters 0 0 0 0 ∅ (∅, ∅).

Section Aggregator.

(** [d.strftime(format)] and [d.replace(day=1, hour=0, minute=0, second=0,
    microsecond=0)] are the calendar of the standard library. *)
Variable strftime : datetime -> string -> string.
Variable first_of_month : datetime -> datetime.

Definition summary_body (start end_ : datetime) (c : counters)
    (repo : RepoStats.t) (commit : CommitInfo.t) : outcome counters :=
  let commit_date := with_period_tz (CommitInfo.date commit) (tzinfo start) in
  b ← between start commit_date end_;
  if b : bool then
    Ok (mk_counters (n_commits c + 1)
          (n_lines_added c + CommitInfo.lines_added commit)
          (n_lines_removed c + CommitInfo.lines_removed commit)
          (n_files_changed c + CommitInfo.files_changed commit)
          ({[RepoStats.name repo]} ∪ active_repos c)
          (fold_left add_classification (CommitInfo.file_classifications commit)
             (breakdowns c)))
  else Ok c.

(** The period of [get_activity_summary]: start, end and label. [now] is the
    reading of the clock, more than seven days after 0001-01-01, so the
    subtractions of at most seven days return. *)
Definition period_of (now : datetime) (period : string)
    (custom_start custom_end : option datetime) : datetime * datetime * string :=
  if String.eqb period "day" then (midnight now, now, "Today")
  else if String.eqb period "week" then
    (midnight (dt_sub now (weekday now * DAY)), now, "This Week")
  else if String.eqb period "month" then (first_of_month now, now, "This Month")
  else
    match String.eqb period "custom", custom_start, custom_end with
    | true, Some start, Some end_ =>
        (start, end_, strftime start "%Y-%m-%d" +:+ " to " +:+ strftime end_ "%Y-%m-%d")
    | _, _, _ => (dt_sub now (7 * DAY), now, "Last 7 Days")
    end.

(** [now] is [datetime.now().astimezone()]. *)
Definition get_activity_summary (self : GitAnalyzer.t) (now : datetime)
    (period : string) (custom_start custom_end : option datetime)
  : outcome ActivitySummary.t :=
  let '(start, end_, label) := period_of now period custom_start custom_end in
  c ← for_each_commit (GitAnalyzer._repos self) (summary_body start end_) counters_init;
  Ok (ActivitySummary.mk start end_ label
        (n_commits c) (n_lines_added c) (n_lines_removed c) (n_files_changed c)
        (Z.of_nat (size (active_repos c)))
        (fst (breakdowns c)) (snd (breakdowns c))).

(** The loop body of [get_daily_activity]: three counters are updated. *)
Definition daily_body (start end_ : datetime) (c : counters)
    (repo : RepoStats.t) (commit : CommitInfo.t) : outcome counters :=
  let commit_date := with_period_tz (CommitInfo.date commit) (tzinfo start) in
  b ← between start commit_date end_;
  if b : bool then
    Ok (mk_counters (n_commits c + 1)
          (n_lines_added c + CommitInfo.lines_added commit)
          (n_lines_removed c + CommitInfo.lines_removed commit)
          (n_files_changed c) (active_repos c) (breakdowns c))
  else Ok c.

Definition daily_summary (self : GitAnalyzer.t) (now : datetime) (i : Z)
  : outcome ActivitySummary.t :=
  delta ← timedelta_days i;
  day ← dt_minus now delta;
  let start := midnight day in
  let end_ := last_microsecond day in
  c ← for_each_commit (GitAnalyzer._repos self) (daily_body start end_) counters_init;
  Ok (ActivitySummary.mk start end_ (strftime day "%A, %b %d")
        (n_commits c) (n_lines_added c) (n_lines_removed c)
        0 0 ∅ ∅).

Definition get_daily_activity (self : GitAnalyzer.t) (now : datetime) (days : Z)
  : outcome (list ActivitySummary.t) :=
  foldM (fun summaries i => summary ← daily_summary self now i; Ok (summaries ++ [summary]))
    (range days) [].

(** The loop body of [get_weekly_activity] *)
Definition weekly_body (week_start week_end : datetime) (c : counters)
    (repo : RepoStats.t) (commit : CommitInfo.t) : outcome counters :=
  let commit_date := with_period_tz (CommitInfo.date commit) (tzinfo week_start) in
  b ← between week_start commit_date week_end;
  if b : bool then
    Ok (mk_counters (n_commits c + 1)
          (n_lines_added c + CommitInfo.lines_added commit)
          (n_lines_removed c + CommitInfo.lines_removed commit)
          (n_files_changed c + CommitInfo.files_changed commit)
          ({[RepoStats.name repo]} ∪ active_repos c) (breakdowns c))
  else Ok c.

(** [timedelta(days=6, hours=23, minutes=59, seconds=59)] *)
Definition WEEK_SPAN : Z := 6 * DAY + 23 * 3600000000 + 59 * 60000000 + 59 * 1000000.

Definition weekly_summary (self : GitAnalyzer.t) (now : datetime) (i : Z)
  : outcome ActivitySummary.t :=
  delta ← timedelta_days (weekday now + i * 7);
  monday ← dt_minus now delta;
  let week_start := midnight monday in
  week_end ← dt_plus week_start WEEK_SPAN;
  c ← for_each_commit (GitAnalyzer._repos self) (weekly_body week_start week_end) counters_init;
  Ok (ActivitySummary.mk week_start week_end ("Week of " +:+ strftime week_start "%b %d")
        (n_commits c) (n_lines_added c) (n_lines_removed c) (n_files_changed c)
        (Z.of_nat (size (active_repos c))) ∅ ∅).

Definition get_weekly_activity (self : GitAnalyzer.t) (now : datetime) (weeks : Z)
  : outcome (list ActivitySummary.t) :=
  foldM (fun summaries i => summary ← weekly_summary self now i; Ok (summaries ++ [summary]))
    (range weeks) [].

End Aggregator.

(* ===================================================================== *)
(** * Python floats *)
(* ===================================================================== *)

(** A [float] is an IEEE 754 binary64 number. A finite one is kept as the
    rational it denotes; the two zeros are not told apart. Every operation
    computes the exact rational result and rounds it once to the nearest
    binary64 number, ties to even. *)
Module PyFloat.

Inductive t :=
  | Finite (q : Q)
  | Inf (negative : bool)
  | NaN.

(** The nearest integer, a tie going to the even one *)
Definition round_half_even (q : Q) : Z :=
  let f := Qfloor q in
  match Qcompare (q - inject_Z f) (1 # 2) with
  | Lt => f
  | Gt => f + 1
  | Eq => if Z.even f then f else f + 1
  end.

(** [floor(log2 q)] for [q > 0]: the logarithms of numerator and denominator
    give it up to one. *)
Definition ilog2 (q : Q) : Z :=
  let k := Z.log2 (Qnum q) - Z.log2 (Zpos (Qden q)) in
  if Qle_bool (Qpower 2 k) q then k else k - 1.

(** Rounding to binary64: 53 significant bits, the exponent of the last bit
    at least -1074 (gradual underflow), infinity from 2^1024 on. *)
Definition round64 (q : Q) : t :=
  if Qeq_bool q 0 then Finite 0
  else
    let e := Z.max (ilog2 (Qabs q) - 52) (-1074) in
    let v := (inject_Z (round_half_even (q / Qpower 2 e)) * Qpower 2 e)%Q in
    if Qle_bool (Qpower 2 1024) (Qabs v) then Inf (negb (Qle_bool 0 q))
    else Finite (Qred v).

Definition is_zero (q : Q) : bool := Qeq_bool q 0.
Definition is_negative (q : Q) : bool := negb (Qle_bool 0 q).

(** [a / b] on two [int]s: the exact quotient, rounded once *)
Definition truediv (a b : Z) : outcome t :=
  if b =? 0 then Raise ZeroDivisionError
  else match round64 (inject_Z a / inject_Z b) with
       | Finite q => Ok (Finite q)
       | _ => Raise OverflowError
       end.

(** [x * y] *)
Definition mul (x y : t) : t :=
  match x, y with
  | NaN, _ | _, NaN => NaN
  | Finite p, Finite q => round64 (p * q)
  | Inf s, Inf s' => Inf (xorb s s')
  | Inf s, Finite q | Finite q, Inf s =>
      if is_zero q then NaN else Inf (xorb s (is_negative q))
  end.

(** [round(x, 1)]: the decimal with one digit after the point that is
    nearest to [x] (ties to even), then the binary64 number nearest to that
    decimal. *)
Definition round1 (x : t) : t :=
  match x with
  | Finite q => round64 (inject_Z (round_half_even (q * 10)) / 10)
  | _ => x
  end.

(** The value of a float as a rational, for finite floats *)
Definition value (x : t) : Q :=
  match x with
  | Finite q => q
  | _ => 0
  end.

End PyFloat.

(* ===================================================================== *)
(** * analyzer.py: GitAnalyzer.get_total_stats *)
(* ===================================================================== *)

Module TotalStats.
Record t := mk {
  total_repos : Z;
  total_commits : Z;
  total_lines_added : Z;
  total_lines_removed : Z;
  total_lines_changed : Z;
  total_files_changed : Z;
  languages : gmap string Z;
  contribution_types : gmap ContributionType Z;
  contribution_percentages : gmap ContributionType PyFloat.t
}.
End TotalStats.

(** [sum(f(r) for r in repos)] *)
Definition sum_over {A} (f : A -> Z) (l : list A) : Z :=
  fold_left (fun acc r => acc + f r) l 0.

(** [for repo in repos: for k, count in d(repo).items(): all[k] += count] *)
Definition merge_dicts `{Countable K} {A} (d : A -> gmap K Z) (l : list A) : gmap K Z :=
  fold_left (fun all repo => map_fold (fun k count all => dict_add k count all) all (d repo))
    l ∅.

(** [round((count / total_lines) * 100, 1)] *)
Definition percentage (count total_lines : Z) : outcome PyFloat.t :=
  q ← PyFloat.truediv count total_lines;
  Ok (PyFloat.round1 (PyFloat.mul q (PyFloat.Finite 100))).

Definition contribution_percentages_of (all_contribution_types : gmap ContributionType Z)
  : outcome (gmap ContributionType PyFloat.t) :=
  let total_lines := dict_sum all_contribution_types in
  if 0 <? total_lines then
    foldM (fun d item =>
             p ← percentage (snd item) total_lines;
             Ok (<[fst item := p]> d))
      (map_to_list all_contribution_types) ∅
  else Ok ∅.

Definition get_total_stats (self : GitAnalyzer.t) : outcome TotalStats.t :=
  let repos := GitAnalyzer._repos self in
  let total_commits := sum_over RepoStats.total_commits repos in
  let total_lines_added := sum_over RepoStats.total_lines_added repos in
  let total_lines_removed := sum_over RepoStats.total_lines_removed repos in
  let total_files_changed := sum_over RepoStats.total_files_changed repos in
  let all_languages := merge_dicts RepoStats.languages repos in
  let all_contribution_types := merge_dicts RepoStats.contribution_types repos in
  contribution_percentages ← contribution_percentages_of all_contribution_types;
  Ok (TotalStats.mk (Z.of_nat (length repos)) total_commits
        total_lines_added total_lines_removed
        (total_lines_added + total_lines_removed) total_files_changed
        all_languages all_contribution_types contribution_percentages).

(** The sum of the percentages, an absent category counting for nothing *)
Definition percentages_total (d : gmap ContributionType PyFloat.t) : Q :=
  fold_right Qplus 0%Q
    (map (fun k => match d !! k with Some x => PyFloat.value x | None => 0%Q end)
       ContributionType_values).

(* ===================================================================== *)
(** * More of the standard library *)
(* ===================================================================== *)

(** [sep.join(parts)] *)
Fixpoint str_join (sep : string) (parts : list string) : string :=
  match parts with
  | [] => EmptyString
  | [p] => p
  | p :: rest => p +:+ sep +:+ str_join sep rest
  end.

(* ===================================================================== *)
(** * analyzer.py: GitAnalyzer.analyze_multiple_repos *)
(* ===================================================================== *)

(** The loop of [analyze_multiple_repos]. Each path comes with the
    environment its analysis runs in; [results] is the list built so far.
    A [RepoStats] object is always true, so [if stats:] tests for [None];
    an exception of [analyze_repo] ends the loop. *)
Fixpoint analyze_multiple_loop (self : GitAnalyzer.t) (calls : list (World * string))
    (results : list RepoStats.t) : outcome (list RepoStats.t) * GitAnalyzer.t :=
  match calls with
  | [] => (Ok results, self)
  | (W, path) :: calls' =>
      match analyze_repo W self path with
      | (Ok (Some stats), self') => analyze_multiple_loop self' calls' (results ++ [stats])
      | (Ok None, self') => analyze_multiple_loop self' calls' results
      | (Raise e, self') => (Raise e, self')
      end
  end.

Definition analyze_multiple_repos (self : GitAnalyzer.t) (calls : list (World * string))
  : outcome (list RepoStats.t) * GitAnalyzer.t :=
  analyze_multiple_loop self calls [].

(* ===================================================================== *)
(** * analyzer.py: GitAnalyzer.find_git_repos *)
(* ===================================================================== *)

(** What [os.listdir(path)] does: it returns the names in the directory,
    raises [PermissionError], or raises another [OSError]. *)
Inductive listdir_result :=
  | Listing (items : list string)
  | PermissionError
  | OtherOSError.

(** The file system as the scan and the two helpers of [analyze_repo] see
    it: [os.path.isdir], [os.path.exists], [os.listdir], and the first
    characters of a text file ([None]: opening or reading raises). *)
Record FileSystem := mkFileSystem {
  fs_isdir : string -> bool;
  fs_exists : string -> bool;
  fs_listdir : string -> listdir_result;
  fs_read : string -> nat -> option string
}.

(** A loop body run over a list, [None] being an exception that nothing
    catches. *)
Fixpoint fold_some {A S} (body : S -> A -> option S) (l : list A) (s : S) : option S :=
  match l with
  | [] => Some s
  | a :: l' => match body s a with
               | Some s' => fold_some body l' s'
               | None => None
               end
  end.

(** [item.startswith('.')] *)
Definition hidden (item : string) : bool := String.prefix "." item.

(** The inner function [search(path, depth)]. The recursion goes down on
    [levels], the number [max_depth + 1 - depth] of levels still open, so
    that [depth > max_depth] reads [levels = 0]. [repos] is the shared list;
    [PermissionError] is caught, any other exception ends the scan. *)
Fixpoint search (fs : FileSystem) (levels : nat) (path : string) (repos : list string)
  : option (list string) :=
  match levels with
  | O => Some repos
  | S levels' =>
      if fs_isdir fs (path_join path ".git") then Some (repos ++ [path])
      else
        match fs_listdir fs path with
        | Listing items =>
            fold_some
              (fun repos item =>
                 let item_path := path_join path item in
                 if fs_isdir fs item_path && negb (hidden item)
                 then search fs levels' item_path repos
                 else Some repos)
              items repos
        | PermissionError => Some repos
        | OtherOSError => None
        end
  end.

Definition find_git_repos (fs : FileSystem) (base_path : string) (max_depth : Z)
  : option (list string) :=
  search fs (Z.to_nat (max_depth + 1)) base_path [].


(* ===================================================================== *)
(** * analyzer.py: the two helpers of analyze_repo, on the file system *)
(* ===================================================================== *)

Module OnDisk.

(** ** GitAnalyzer._get_repo_description *)

Definition readme_files : list string := ["README.md"; "README.rst"; "README.txt"; "README"].

(** [for line in lines:] with its [break]; [desc_lines] is the list built
    so far. *)
Fixpoint desc_lines_loop (lines : list string) (desc_lines : list string) : list string :=
  match lines with
  | [] => desc_lines
  | line :: lines' =>
      let line := PyStr.strip line in
      if PyStr.truthy line && negb (String.prefix "#" line) && negb (String.prefix "!" line)
      then
        let desc_lines := desc_lines ++ [line] in
        if 150 <? Z.of_nat (String.length (str_join " " desc_lines)) then desc_lines
        else desc_lines_loop lines' desc_lines
      else desc_lines_loop lines' desc_lines
  end.

(** The body of the [with] block: [None] when it returns nothing. *)
Definition readme_description (content : string) : option string :=
  match desc_lines_loop (PyStr.split PyStr.NL content) [] with
  | [] => None
  | desc_lines => Some (PyStr.take 200 (str_join " " desc_lines))
  end.

(** [for readme in readme_files:]; an exception of [open] or [read] is
    swallowed and the next file is tried. *)
Fixpoint description_loop (fs : FileSystem) (repo_path : string) (readmes : list string)
  : string :=
  match readmes with
  | [] => EmptyString
  | readme :: readmes' =>
      let readme_path := path_join repo_path readme in
      if fs_exists fs readme_path then
        match fs_read fs readme_path 500 with
        | Some content =>
            match readme_description content with
            | Some description => description
            | None => description_loop fs repo_path readmes'
            end
        | None => description_loop fs repo_path readmes'
        end
      else description_loop fs repo_path readmes'
  end.

Definition _get_repo_description (fs : FileSystem) (repo_path : string) : string :=
  description_loop fs repo_path readme_files.

(** ** GitAnalyzer._detect_technologies *)

(** The dictionary [tech_indicators], in its order *)
Definition tech_indicators : list (string * list string) :=
  [("package.json", ["Node.js"; "JavaScript"]);
   ("tsconfig.json", ["TypeScript"]);
   ("requirements.txt", ["Python"]);
   ("pyproject.toml", ["Python"]);
   ("Pipfile", ["Python"]);
   ("Gemfile", ["Ruby"]);
   ("Cargo.toml", ["Rust"]);
   ("go.mod", ["Go"]);
   ("pom.xml", ["Java"; "Maven"]);
   ("build.gradle", ["Java"; "Gradle"]);
   ("*.csproj", ["C#"; ".NET"]);
   ("*.sln", ["C#"; ".NET"]);
   ("Dockerfile", ["Docker"]);
   ("docker-compose.yml", ["Docker"]);
   ("kubernetes/", ["Kubernetes"]);
   ("terraform/", ["Terraform"]);
   (".github/workflows/", ["GitHub Actions"]);
   ("angular.json", ["Angular"]);
   ("next.config.js", ["Next.js"]);
   ("nuxt.config.js", ["Nuxt.js"]);
   ("vue.config.js", ["Vue.js"]);
   ("tailwind.config.js", ["Tailwind CSS"]);
   ("webpack.config.js", ["Webpack"]);
   (".eslintrc", ["ESLint"]);
   ("jest.config", ["Jest"]);
   ("pytest.ini", ["Pytest"]);
   ("setup.py", ["Python"])].

(** [s.endswith('/')] *)
Definition ends_with_slash (s : string) : bool := String.prefix "/" (String.rev s).

(** [s.rstrip('/')] *)
Fixpoint rstrip_slash (s : string) : string :=
  match s with
  | EmptyString => EmptyString
  | String c s' =>
      match rstrip_slash s' with
      | EmptyString => if Ascii.eqb c "/" then EmptyString else String c EmptyString
      | r => String c r
      end
  end.

(** The test of one indicator: a name with a star is looked for, without
    the star, inside the names of the directory listing; a name ending in a
    slash must be a directory; any other name must exist. [None]: the
    listing raises. *)
Definition indicator_found (fs : FileSystem) (repo_path indicator : string) : option bool :=
  if PyStr.contains "*" indicator then
    let pattern := PyStr.replace "*" "" indicator in
    match fs_listdir fs repo_path with
    | Listing items => Some (existsb (fun item => PyStr.contains pattern item) items)
    | _ => None
    end
  else if ends_with_slash indicator then
    Some (fs_isdir fs (path_join repo_path (rstrip_slash indicator)))
  else Some (fs_exists fs (path_join repo_path indicator)).

(** [for indicator, techs in tech_indicators.items():] over the set
    [technologies] *)
Definition detect_loop (fs : FileSystem) (repo_path : string)
    (indicators : list (string * list string)) (technologies : gset string)
  : option (gset string) :=
  fold_some
    (fun technologies '(indicator, techs) =>
       match indicator_found fs repo_path indicator with
       | Some true => Some (technologies ∪ list_to_set techs)
       | Some false => Some technologies
       | None => None
       end)
    indicators technologies.

(** [sorted(list(technologies))]: strings are ordered by code points. *)
Definition sorted (technologies : gset string) : list string :=
  merge_sort String.le (elements technologies).

Definition _detect_technologies (fs : FileSystem) (repo_path : string)
  : option (list string) :=
  match detect_loop fs repo_path tech_indicators ∅ with
  | Some technologies => Some (sorted technologies)
  | None => None
  end.

End OnDisk.

(* ===================================================================== *)
(** * The language tables of cli.py and exporters.py *)
(* ===================================================================== *)

(** [sorted(items, key=lambda x: x[1], reverse=True)]: descending by count,
    items with equal counts staying in their order. *)
Fixpoint insert_by_count (x : string * Z) (l : list (string * Z)) : list (string * Z) :=
  match l with
  | [] => [x]
  | y :: l' => if snd x <? snd y then y :: insert_by_count x l' else x :: l
  end.

Definition sorted_by_count (items : list (string * Z)) : list (string * Z) :=
  foldr insert_by_count [] items.

(** [sum(count for _, count in items)] *)
Definition sum_counts (items : list (string * Z)) : Z :=
  fold_left (fun acc item => acc + snd item) items 0.

(** The loop over the first [top] languages: each row is the language and
    what [pct] gives for its count and the total. The text made of a row is
    not modelled. [items] is [stats['languages'].items()], in the order of
    the dictionary; the total is the sum of its counts, which the console
    summary takes before sorting and the portfolio after. *)
Definition language_rows (top : nat) (pct : Z -> Z -> outcome PyFloat.t)
    (items : list (string * Z)) : outcome (list (string * PyFloat.t)) :=
  match items with
  | [] => Ok []
  | _ :: _ =>
      let sorted_langs := sorted_by_count items in
      let total := sum_counts sorted_langs in
      foldM (fun rows item => p ← pct (snd item) total; Ok (rows ++ [(fst item, p)]))
        (take top sorted_langs) []
  end.

Module PortfolioExporter.

(** The section Technical Skills of [export] *)
Definition technical_skills (items : list (string * Z))
  : outcome (list (string * PyFloat.t)) :=
  language_rows 10 percentage items.

(** The line on the duration of a project: months or days *)
Inductive duration_line :=
  | Months (months : Z)
  | Days (duration : Z).

(** [(last - first).days]: the difference of the instants of two aware
    datetimes, or of the wall clocks of two naive ones, in whole days
    rounded down. *)
Definition days_between (first last : datetime) : outcome Z :=
  k ← dt_key last first; Ok ((fst k - snd k) / DAY).

(** [if repo.first_commit_date and repo.last_commit_date:] with its two
    branches; [None] when no line is written. *)
Definition project_duration (repo : RepoStats.t) : outcome (option duration_line) :=
  match RepoStats.first_commit_date repo, RepoStats.last_commit_date repo with
  | Some first, Some last =>
      duration ← days_between first last;
      if 30 <? duration then Ok (Some (Months (duration / 30)))
      else Ok (Some (Days duration))
  | _, _ => Ok None
  end.

End PortfolioExporter.

(* ===================================================================== *)
(** * cli.py *)
(* ===================================================================== *)

Module cli.

(** [pct = (count / total) * 100] of [print_summary] *)
Definition share (count total : Z) : outcome PyFloat.t :=
  q ← PyFloat.truediv count total;
  Ok (PyFloat.mul q (PyFloat.Finite 100)).

(** The section TOP LANGUAGES of [print_summary] *)
Definition top_languages (items : list (string * Z)) : outcome (list (string * PyFloat.t)) :=
  language_rows 8 share items.

(** The options [main] reads before the exports: [-r], [-s], [-d], [-e],
    [-a]. The parser gives [-r] at least one path when it is present. *)
Record Options := mkOptions {
  repos : option (list string);
  scan : option string;
  depth : Z;
  email : option string;
  author : option string
}.

(** How [main] ends: it returns an exit code, or an exception that nothing
    catches ends the program. *)
Inductive ending :=
  | Return (code : Z)
  | Uncaught.

(** [for path in repo_paths: analyzer.analyze_repo(path)]: what the calls
    return is dropped. Each path comes with the environment of its
    analysis. *)
Fixpoint analyze_each (analyzer : GitAnalyzer.t) (calls : list (World * string))
  : outcome unit * GitAnalyzer.t :=
  match calls with
  | [] => (Ok tt, analyzer)
  | (W, path) :: calls' =>
      match analyze_repo W analyzer path with
      | (Ok _, analyzer') => analyze_each analyzer' calls'
      | (Raise e, analyzer') => (Raise e, analyzer')
      end
  end.

Section Main.

(** The file system, [os.path.abspath], [os.getcwd()] (both taken to
    succeed), the environment of the analysis number [i], and what comes
    after the analyses: the console summary and the exports, which complete
    ([true]) or raise. What is printed is not modelled. *)
Variable fs : FileSystem.
Variable abspath : string -> string.
Variable getcwd : string.
Variable world : nat -> World.
Variable report : GitAnalyzer.t -> bool.

(** The first part of [main]: the paths to analyze, or the way [main] ends
    before any analysis. *)
Definition repo_paths_of (opts : Options) : ending + list string :=
  match repos opts with
  | Some (r :: rs) => inr (map abspath (r :: rs))
  | _ =>
      if FileClassifier.truthy (scan opts) then
        let scan_path := abspath (default "" (scan opts)) in
        if negb (fs_isdir fs scan_path) then inl (Return 1)
        else
          match find_git_repos fs scan_path (depth opts) with
          | None => inl Uncaught
          | Some [] => inl (Return 1)
          | Some repo_paths => inr repo_paths
          end
      else
        let cwd := getcwd in
        if fs_isdir fs (path_join cwd ".git") then inr [cwd] else inl (Return 1)
  end.

Definition main (opts : Options) : ending :=
  match repo_paths_of opts with
  | inl e => e
  | inr repo_paths =>
      let analyzer := GitAnalyzer.mk (email opts) (author opts) [] in
      match analyze_each analyzer (imap (fun i path => (world i, path)) repo_paths) with
      | (Raise _, _) => Uncaught
      | (Ok _, analyzer) =>
          match GitAnalyzer._repos analyzer with
          | [] => Return 1
          | _ :: _ => if report analyzer then Return 0 else Uncaught
          end
      end
  end.

End Main.

End cli.
(* ===================================================================== *)
(** * Definitions used by the statements *)
(* ===================================================================== *)

(** The sum of [f] over a list *)
Definition total {A} (f : A -> Z) (l : list A) : Z := foldr (fun x acc => f x + acc) 0 l.

(** ** The classifier *)


(** ** The parser *)

(** The commits the parser holds: the closed ones and the open one *)
Definition all_commits (st : parse_state) : list CommitInfo.t :=
  match ps_current st with
  | Some current_commit => ps_commits st ++ [current_commit]
  | None => ps_commits st
  end.

Definition commit_lines (c : CommitInfo.t) : Z :=
  CommitInfo.lines_added c + CommitInfo.lines_removed c.

(** Every counter of the dictionary is non-negative. *)
Definition nonneg `{Countable K} (d : gmap K Z) : Prop :=
  forall k c, d !! k = Some c -> 0 <= c.

(** What the parser has counted so far: every line delta is in the
    contribution counters, and the language counters hold no more. *)
Definition parse_inv (st : parse_state) : Prop :=
  dict_sum (ps_contribution_types st) = total commit_lines (all_commits st) /\
  dict_sum (ps_languages st) <= total commit_lines (all_commits st).

(** The log command did not succeed, in one of the ways [_run_git_command]
    handles: a non-zero return code, a timeout, or no executable. *)
Definition log_failed (r : subprocess_result) : Prop :=
  match r with
  | CompletedProcess returncode _ => returncode <> 0
  | TimeoutExpired _ => True
  | FileNotFoundError _ => True
  | OtherException _ => False
  end.

(** The analyzers the program builds: a new one has no repository, and
    repositories come in through [analyze_repo] only. *)
Inductive analyzed : GitAnalyzer.t -> Prop :=
  | analyzed_new (author_email author_name : option string) :
      analyzed (GitAnalyzer.mk author_email author_name [])
  | analyzed_repo (W : World) (self : GitAnalyzer.t) (repo_path : string) :
      analyzed self -> analyzed (snd (analyze_repo W self repo_path)).

(** ** Activity periods *)

(** The instant of an aware datetime: its wall clock less its offset *)
Definition instant (d : datetime) : Z := wall d - default 0 (tzinfo d).

Definition aware (d : datetime) : Prop := tzinfo d <> None.

(** The commit's timestamp, made aware with the period's timezone when it
    has none, lies between the two bounds, both included. *)
Definition in_period (start end_ : datetime) (commit : CommitInfo.t) : bool :=
  let timestamp := with_period_tz (CommitInfo.date commit) (tzinfo start) in
  (instant start <=? instant timestamp) && (instant timestamp <=? instant end_).

(** The commits of all analyzed repositories *)
Definition commits_of (self : GitAnalyzer.t) : list CommitInfo.t :=
  concat (map RepoStats.commits (GitAnalyzer._repos self)).

(** The three loop bodies when no comparison raises *)
Definition summary_step (start end_ : datetime) (c : counters)
    (repo : RepoStats.t) (commit : CommitInfo.t) : counters :=
  if in_period start end_ commit then
    mk_counters (n_commits c + 1)
      (n_lines_added c + CommitInfo.lines_added commit)
      (n_lines_removed c + CommitInfo.lines_removed commit)
      (n_files_changed c + CommitInfo.files_changed commit)
      ({[RepoStats.name repo]} ∪ active_repos c)
      (fold_left add_classification (CommitInfo.file_classifications commit) (breakdowns c))
  else c.

Definition daily_step (start end_ : datetime) (c : counters)
    (repo : RepoStats.t) (commit : CommitInfo.t) : counters :=
  if in_period start end_ commit then
    mk_counters (n_commits c + 1)
      (n_lines_added c + CommitInfo.lines_added commit)
      (n_lines_removed c + CommitInfo.lines_removed commit)
      (n_files_changed c) (active_repos c) (breakdowns c)
  else c.

Definition weekly_step (week_start week_end : datetime) (c : counters)
    (repo : RepoStats.t) (commit : CommitInfo.t) : counters :=
  if in_period week_start week_end commit then
    mk_counters (n_commits c + 1)
      (n_lines_added c + CommitInfo.lines_added commit)
      (n_lines_removed c + CommitInfo.lines_removed commit)
      (n_files_changed c + CommitInfo.files_changed commit)
      ({[RepoStats.name repo]} ∪ active_repos c) (breakdowns c)
  else c.

(** The bounds of the daily and of the weekly bucket number [i] *)
Definition day_start (now : datetime) (i : Z) : datetime := midnight (dt_sub now (i * DAY)).
Definition day_end (now : datetime) (i : Z) : datetime := last_microsecond (dt_sub now (i * DAY)).
Definition week_start (now : datetime) (i : Z) : datetime :=
  midnight (dt_sub now ((weekday now + i * 7) * DAY)).
Definition week_end (now : datetime) (i : Z) : datetime := dt_add (week_start now i) WEEK_SPAN.

(** ** Percentages *)

(** Half a unit in the last place of a binary64 number below 128 *)
Definition half_ulp : Q := 1 # 140737488355328.

(** The count of a category, [0] when the category is absent *)
Definition count_of (d : gmap ContributionType Z) (k : ContributionType) : Z :=
  default 0 (d !! k).

(** The percentage of a category as a rational, [0] when it is absent *)
Definition percent_of (d : gmap ContributionType PyFloat.t) (k : ContributionType) : Q :=
  match d !! k with
  | Some x => PyFloat.value x
  | None => 0%Q
  end.

(** The float [percentage] returns, when it does not raise *)
Definition percentage_value (total_lines count : Z) : PyFloat.t :=
  match percentage count total_lines with
  | Ok p => p
  | Raise _ => PyFloat.NaN
  end.

(** The rational a finite [spec_float] of the standard library denotes *)
Definition SF2Q (x : spec_float) : Q :=
  match x with
  | S754_finite s m e => ((if s then -1 else 1) * inject_Z (Zpos m) * Qpower 2 e)%Q
  | _ => 0%Q
  end.

(** The binary64 quotient of two positive integers, by the standard
    library's specification of IEEE 754 division *)
Definition SFdiv64 (a b : positive) : Q :=
  SF2Q (SFdiv 53 1024 (S754_finite false a 0) (S754_finite false b 0)).

(* ===================================================================== *)
(** * A demo repository *)
(* ===================================================================== *)

Definition TABs : string := String PyStr.TAB EmptyString.
Definition NLs : string := String PyStr.NL EmptyString.

Definition noon_2024_01_01 : datetime := mkdatetime (738885 * DAY + 12 * 3600000000) (Some 0).

(** Bounds without a timezone, for the custom period *)
Definition naive_2024_01_01 : datetime := mkdatetime (738885 * DAY) None.
Definition naive_2024_01_02 : datetime := mkdatetime (738886 * DAY) None.

(** One repository at [repo], the log command ending as [log]; the only date
    of the logs below is 2024-01-01T12:00:00+00:00, and the clock starts at
    midnight of that day. *)
Definition demo_world (log : subprocess_result) : World :=
  mkWorld (fun p => String.eqb p "repo/.git") (fun p => p) (fun _ => "") (fun _ => Some [])
    (fun _ _ => log)
    (fun s => if String.eqb s "2024-01-01T12:00:00+00:00" then Some noon_2024_01_01 else None)
    (fun n => 738885 * DAY + Z.of_nat n).

(** The same repository in a folder that cannot be listed *)
Definition unlistable_world (log : subprocess_result) : World :=
  mkWorld (fun p => String.eqb p "repo/.git") (fun p => p) (fun _ => "") (fun _ => None)
    (fun _ _ => log)
    (fun s => if String.eqb s "2024-01-01T12:00:00+00:00" then Some noon_2024_01_01 else None)
    (fun n => 738885 * DAY + Z.of_nat n).

Definition demo_analyzer : GitAnalyzer.t := GitAnalyzer.mk None None [].

(** The log of the end-to-end scenario: two commits, three files *)
Definition demo_log : string :=
  "b2|Ann|ann@example.org|2024-01-01T12:00:00+00:00|add readme" +:+ NLs +:+
  NLs +:+
  "3" +:+ TABs +:+ "0" +:+ TABs +:+ "README.md" +:+ NLs +:+
  "a1|Ann|ann@example.org|2024-01-01T12:00:00+00:00|add app" +:+ NLs +:+
  NLs +:+
  "10" +:+ TABs +:+ "0" +:+ TABs +:+ "src/app.py" +:+ NLs +:+
  "5" +:+ TABs +:+ "0" +:+ TABs +:+ "tests/test_app.py" +:+ NLs.

(** The numstat line of a file whose name holds four bars, and a log with
    it *)
Definition bars_line : string := "3" +:+ TABs +:+ "1" +:+ TABs +:+ "a|b|c|d|e.txt".

Definition bars_log : string :=
  "a1|Ann|ann@example.org|2024-01-01T12:00:00+00:00|add file" +:+ NLs +:+
  NLs +:+ bars_line +:+ NLs.

Definition no_stats : RepoStats.t := RepoStats.mk "" "" 0 0 0 0 None None ∅ ∅ [] [] "".

(** The statistics [analyze_repo] returns for the demo log, and the analyzer
    after the call *)
Definition demo_repo : RepoStats.t :=
  Eval vm_compute in
    match fst (analyze_repo (demo_world (CompletedProcess 0 demo_log)) demo_analyzer "repo") with
    | Ok (Some stats) => stats
    | _ => no_stats
    end.

Definition demo_analyzed : GitAnalyzer.t :=
  Eval vm_compute in
    snd (analyze_repo (demo_world (CompletedProcess 0 demo_log)) demo_analyzer "repo").

(** One hour after the commits of the demo log *)
Definition demo_now : datetime := dt_add noon_2024_01_01 3600000000.
(* ===================================================================== *)
(** * Definitions used by the further statements *)
(* ===================================================================== *)

(** ** The parser *)

(** The hash, author, e-mail address and subject a line gives when it is a
    commit line: at least four bars after stripping. *)
Definition header_of (line : string) : option (string * string * string * string) :=
  if 4 <=? PyStr.count "|"%char (PyStr.strip line) then
    match PyStr.split_max "|"%char 4 (PyStr.strip line) with
    | [p0; p1; p2; p3; p4] => Some (p0, p1, p2, p4)
    | _ => None
    end
  else None.

Definition commit_key (c : CommitInfo.t) : string * string * string * string :=
  (CommitInfo.hash c, CommitInfo.author c, CommitInfo.email c, CommitInfo.message c).

(** The counters of a commit are those of its file classifications. *)
Definition commit_consistent (c : CommitInfo.t) : Prop :=
  CommitInfo.files_changed c = Z.of_nat (length (CommitInfo.file_classifications c)) /\
  CommitInfo.lines_added c = total lines_added (CommitInfo.file_classifications c) /\
  CommitInfo.lines_removed c = total lines_removed (CommitInfo.file_classifications c) /\
  Forall (fun fc => 0 <= lines_added fc /\ 0 <= lines_removed fc)
    (CommitInfo.file_classifications c).

(** The lines a commit changes in files of category [k], and in files of
    language [l] *)
Definition category_lines (k : ContributionType) (c : CommitInfo.t) : Z :=
  total (fun fc => if decide (contribution_type fc = k)
                   then lines_added fc + lines_removed fc else 0)
    (CommitInfo.file_classifications c).

Definition language_lines (l : string) (c : CommitInfo.t) : Z :=
  total (fun fc => if decide (language fc = Some l)
                   then lines_added fc + lines_removed fc else 0)
    (CommitInfo.file_classifications c).

(** The counters say what the classifications say: per category, per
    language, and which categories are present. *)
Definition counters_inv (st : parse_state) : Prop :=
  (forall k, count_of (ps_contribution_types st) k
             = total (category_lines k) (all_commits st)) /\
  (forall k, is_Some (ps_contribution_types st !! k) <->
             exists c fc, c ∈ all_commits st /\
                          fc ∈ CommitInfo.file_classifications c /\
                          contribution_type fc = k) /\
  (forall l, l <> EmptyString ->
             default 0 (ps_languages st !! l) = total (language_lines l) (all_commits st)).

(** A count with more characters than [int] converts *)
Definition too_long (g : string) : bool :=
  PyStr.MAX_STR_DIGITS <? Z.of_nat (String.length g).

(** The log has a line that, stripped, is no commit line and reads as a
    numstat line one of whose counts is too long, below a commit line:
    [before] are the lines above it. *)
Definition digit_limit_hit (W : World) (output : string) : Prop :=
  exists before line after g1 g2 filepath,
    PyStr.split PyStr.NL output = before ++ line :: after /\
    PyStr.truthy (PyStr.strip line) = true /\
    commit_line W (parse_lines W before parse_init) (PyStr.strip line) = None /\
    numstat_match (PyStr.strip line) = Some (g1, g2, filepath) /\
    ps_current (parse_lines W before parse_init) <> None /\
    (too_long g1 = true \/ too_long g2 = true).


(** ** Dates *)

(** Two datetimes can be ordered: both are aware or both are naive. *)
Definition same_kind (a b : datetime) : Prop := tzinfo a = None <-> tzinfo b = None.

(** All dates of the list can be ordered with one another. *)
Definition comparable (dates : list datetime) : Prop :=
  match dates with
  | [] => True
  | d :: rest => Forall (same_kind d) rest
  end.

(** ** Several repositories *)

(** What the analysis of one path returns when it is run on its own *)
Definition analysis_of (self : GitAnalyzer.t) (call : World * string) : option RepoStats.t :=
  match fst (analyze_repo (fst call) self (snd call)) with
  | Ok r => r
  | Raise _ => None
  end.

(** ** The scan *)

(** [found fs levels path p]: the repository root [p] is met when the scan
    starts at [path] with [levels] levels open: [path] is itself a root, or
    it is no root, can be listed, and [p] is met from one of its
    directories whose name does not start with a dot. *)
Inductive found (fs : FileSystem) : nat -> string -> string -> Prop :=
  | found_here (levels : nat) (path : string) :
      fs_isdir fs (path_join path ".git") = true ->
      found fs (S levels) path path
  | found_below (levels : nat) (path : string) (items : list string) (item p : string) :
      fs_isdir fs (path_join path ".git") = false ->
      fs_listdir fs path = Listing items ->
      item ∈ items ->
      fs_isdir fs (path_join path item) = true ->
      hidden item = false ->
      found fs levels (path_join path item) p ->
      found fs (S levels) path p.

(** ** Cross-repository totals *)

(** The counter of key [k] in a dictionary, [0] when the key is absent *)
Definition counter `{Countable K} (d : gmap K Z) (k : K) : Z := default 0 (d !! k).

(** The totals of a repository are the sums over its commits, and its
    commits are consistent. *)
Definition repo_consistent (repo : RepoStats.t) : Prop :=
  RepoStats.total_commits repo = Z.of_nat (length (RepoStats.commits repo)) /\
  RepoStats.total_lines_added repo = total CommitInfo.lines_added (RepoStats.commits repo) /\
  RepoStats.total_lines_removed repo = total CommitInfo.lines_removed (RepoStats.commits repo) /\
  RepoStats.total_files_changed repo = total CommitInfo.files_changed (RepoStats.commits repo) /\
  Forall commit_consistent (RepoStats.commits repo).

(** All file classifications of a list of commits *)
Definition classifications_of (commits : list CommitInfo.t) : list FileClassification :=
  concat (map CommitInfo.file_classifications commits).

(** ** Activity summaries *)

(** The names of the repositories with a counted commit *)
Definition active_names (counted : CommitInfo.t -> bool) (repos : list RepoStats.t)
  : gset string :=
  list_to_set (map RepoStats.name
                 (List.filter (fun repo => existsb counted (RepoStats.commits repo)) repos)).

(** The lines of a list of commits by category and by language *)
Definition lines_by_category (k : ContributionType) (commits : list CommitInfo.t) : Z :=
  total (category_lines k) commits.

Definition lines_by_language (l : string) (commits : list CommitInfo.t) : Z :=
  total (language_lines l) commits.

(** ** Patterns *)

(** [c] is one of [A-Z]. *)
Definition is_upper (c : ascii) : bool := (65 <=? PyStr.code c) && (PyStr.code c <=? 90).

(** Some character of the string satisfies [P]. *)
Fixpoint str_exists (P : ascii -> bool) (s : string) : bool :=
  match s with
  | EmptyString => false
  | String c s' => P c || str_exists P s'
  end.

(** The pattern holds an upper-case letter. *)
Definition has_upper (pattern : string) : bool := str_exists is_upper pattern.

(** The language the extension of the path is mapped to *)
Definition extension_language (path : string) : option string :=
  FileClassifier.dict_get FileClassifier.LANGUAGE_MAP (PyStr.lower (snd (splitext path))).

(** ** The helpers on the file system *)

(** A line the description loop does not take: blank, a heading or an
    image *)
Definition skipped_line (line : string) : Prop :=
  let line := PyStr.strip line in
  line = EmptyString \/ String.prefix "#" line = true \/ String.prefix "!" line = true.

(** A line the description loop takes: no line break, and a first
    character that is no white space, no [#] and no [!] *)
Definition taken (line : string) : Prop :=
  PyStr.count PyStr.NL line = 0 /\
  exists a r, line = String a r /\ PyStr.isspace a = false /\ a <> "#"%char /\ a <> "!"%char.

(** The readme is missing, cannot be read, or has no line to take in what
    is read of it. *)
Definition no_description_in (fs : FileSystem) (repo_path readme : string) : Prop :=
  fs_exists fs (path_join repo_path readme) = false \/
  fs_read fs (path_join repo_path readme) 500 = None \/
  exists content,
    fs_read fs (path_join repo_path readme) 500 = Some content /\
    Forall skipped_line (PyStr.split PyStr.NL content).

(** A small directory tree: a workspace with two repositories, one of them
    two levels down, and a hidden folder with a repository inside. *)
Definition demo_fs : FileSystem :=
  mkFileSystem
    (fun p => existsb (String.eqb p)
                ["ws"; "ws/a"; "ws/a/.git"; "ws/b"; "ws/b/c"; "ws/b/c/.git";
                 "ws/.cache"; "ws/.cache/.git"; "ws/a/kubernetes"])
    (fun p => existsb (String.eqb p)
                ["ws"; "ws/a"; "ws/a/.git"; "ws/b"; "ws/b/c"; "ws/b/c/.git";
                 "ws/.cache"; "ws/.cache/.git"; "ws/a/kubernetes";
                 "ws/a/README.md"; "ws/a/README.rst"; "ws/a/setup.py"; "ws/a/pyproject.toml"])
    (fun p => if String.eqb p "ws" then Listing ["a"; ".cache"; "notes.txt"; "b"]
              else if String.eqb p "ws/a"
              then Listing [".git"; "README.md"; "README.rst"; "setup.py"; "pyproject.toml";
                            "kubernetes"; "app.csproj.user"]
              else if String.eqb p "ws/b" then Listing ["c"]
              else if String.eqb p "ws/b/c" then Listing [".git"]
              else OtherOSError)
    (fun p n => if String.eqb p "ws/a/README.md"
                then Some ("# Title" +:+ String PyStr.NL EmptyString +:+
                           "![badge](b.svg)" +:+ String PyStr.NL EmptyString)
                else if String.eqb p "ws/a/README.rst"
                then Some ("  A small tool." +:+ String PyStr.NL EmptyString +:+
                           "It counts lines." +:+ String PyStr.NL EmptyString)
                else None).

(** ** Exports *)

(** A log with one commit and one numstat line whose first count has [n]
    digits *)
Definition long_count_log (n : nat) : string :=
  "a1|Ann|ann@example.org|2024-01-01T12:00:00+00:00|add app" +:+ NLs +:+
  NLs +:+ string_of_list_ascii (repeat "1"%char n) +:+ TABs +:+ "0" +:+ TABs +:+ "f.py" +:+ NLs.

(** A log with one commit that adds an empty Python file *)
Definition empty_file_log : string :=
  "a1|Ann|ann@example.org|2024-01-01T12:00:00+00:00|add package" +:+ NLs +:+
  NLs +:+ "0" +:+ TABs +:+ "0" +:+ TABs +:+ "pkg/__init__.py" +:+ NLs.

Definition empty_file_analyzed : GitAnalyzer.t :=
  Eval vm_compute in
    snd (analyze_repo (demo_world (CompletedProcess 0 empty_file_log)) demo_analyzer "repo").


(* ===================================================================== *)
(** * The embedding on concrete inputs *)
(* ===================================================================== *)

Example splitext_plain : splitext "src/app.py" = ("src/app", ".py").
Proof. reflexivity. Qed.

Example splitext_dotfile : splitext "conf/.bashrc" = ("conf/.bashrc", "").
Proof. reflexivity. Qed.

Example splitext_dotdir : splitext "a.b/c" = ("a.b/c", "").
Proof. reflexivity. Qed.

Example splitext_leading_dots : splitext "..x.tar.GZ" = ("..x.tar", ".GZ").
Proof. reflexivity. Qed.

Example classify_app :
  FileClassifier.classify "src/app.py" 10 0
  = mkFileClassification "src/app.py" PRODUCTION_CODE (Some "Python") 10 0.
Proof. reflexivity. Qed.

Example classify_test_app :
  FileClassifier.classify "tests/test_app.py" 5 0
  = mkFileClassification "tests/test_app.py" TESTS (Some "Python") 5 0.
Proof. reflexivity. Qed.

Example classify_readme :
  FileClassifier.classify "README.md" 3 0
  = mkFileClassification "README.md" DOCUMENTATION (Some "Documentation") 3 0.
Proof. reflexivity. Qed.

Example strip_both_ends : PyStr.strip "  a b  " = "a b".
Proof. reflexivity. Qed.

Example split_keeps_empty_parts : PyStr.split "/"%char "a//b/" = ["a"; ""; "b"; ""].
Proof. reflexivity. Qed.

(** A binary file: both counts are the placeholder. *)
Example numstat_binary :
  numstat_match ("-" +:+ TABs +:+ "-" +:+ TABs +:+ "logo.png") = Some ("-", "-", "logo.png") /\
  numstat_count "-" = 0.
Proof. split; vm_compute; reflexivity. Qed.

(** A header that follows a header closes a commit without files. *)
Example header_after_header :
  map (fun c => (CommitInfo.hash c, CommitInfo.files_changed c, commit_lines c))
    (parsed_commits (demo_world (CompletedProcess 0 ""))
       ("h1|A|a@x|2024-01-01T12:00:00+00:00|one" +:+ NLs +:+
        "h2|A|a@x|2024-01-01T12:00:00+00:00|two"))
  = [("h1", 0, 0); ("h2", 0, 0)].
Proof. vm_compute. reflexivity. Qed.

(** The end-to-end scenario of the demo log *)
Example demo_analysis :
  analyze_repo (demo_world (CompletedProcess 0 demo_log)) demo_analyzer "repo"
  = (Ok (Some demo_repo), demo_analyzed) /\
  RepoStats.total_commits demo_repo = 2 /\
  RepoStats.total_lines_added demo_repo = 18 /\
  map_to_list (RepoStats.languages demo_repo) = [("Documentation", 3); ("Python", 15)] /\
  map_to_list (RepoStats.contribution_types demo_repo)
  = [(DOCUMENTATION, 3); (TESTS, 5); (PRODUCTION_CODE, 10)].
Proof. do 4 (split; [vm_compute; reflexivity |]). vm_compute. reflexivity. Qed.

(** With the log of [bars_log] the analysis raises: the commit opened on the
    numstat line has the naive date of the clock, the first one an aware
    date, and [min(dates)] cannot order them. *)
Example bars_log_raises :
  analyze_repo (demo_world (CompletedProcess 0 bars_log)) demo_analyzer "repo"
  = (Raise TypeError, demo_analyzer).
Proof. vm_compute. reflexivity. Qed.

(** The three percentages of the demo: 55.6, 27.8 and 16.7 *)
Example demo_percentages :
  percentage 10 18 = Ok (PyFloat.round64 (556 # 10)) /\
  percentage 5 18 = Ok (PyFloat.round64 (278 # 10)) /\
  percentage 3 18 = Ok (PyFloat.round64 (167 # 10)).
Proof. do 2 (split; [vm_compute; reflexivity |]). vm_compute. reflexivity. Qed.

(** The binary product 0.0005 * 100 lies above 0.05, so the percentage of
    1 in 2000 is 0.1. *)
Example percentage_above_tie : percentage 1 2000 = Ok (PyFloat.round64 (1 # 10)).
Proof. vm_compute. reflexivity. Qed.

(** [round64] agrees with the division of the standard library's IEEE 754
    specification, on normal and subnormal quotients and on ties. *)
Example round64_agrees_with_SFdiv :
  forallb (fun ab => Qeq_bool (SFdiv64 (fst ab) (snd ab))
                       (PyFloat.value (PyFloat.round64 (Zpos (fst ab) # snd ab))))
    [(1, 3); (1, 10); (2, 3); (10, 18); (123456789, 1000); (7, 1000000007);
     (1, 2 ^ 1070); (3, 2 ^ 1074); (5, 2 ^ 1075); (1, 2 ^ 1075); (3, 2 ^ 1075);
     (2 ^ 54 + 1, 1); (2 ^ 54 + 3, 2); (2 ^ 53 + 1, 1); (2 ^ 53 + 3, 1)]%positive
  = true.
Proof. vm_compute. reflexivity. Qed.

(** Custom bounds without a timezone cannot be ordered against the aware
    dates of the commits of the demo log. *)
Example naive_custom_bounds_raise :
  get_activity_summary (fun _ fmt => fmt) midnight demo_analyzed demo_now "custom"
    (Some naive_2024_01_01) (Some naive_2024_01_02)
  = Raise TypeError.
Proof. vm_compute. reflexivity. Qed.

(* ===================================================================== *)
(** * The classifier *)
(* ===================================================================== *)

Section ClassifierFacts.

Import FileClassifier.

Ltac classify_cases :=
  unfold classify; cbv zeta;
  repeat match goal with
         | |- context [if ?b then _ else _] => destruct b eqn:?
         end.

(** C10: the classification carries the path and the two line counts it was
    given, whichever rule fires. *)
Theorem classify_preserves_inputs (path : string) (a r : Z) :
  file_path (classify path a r) = path /\
  lines_added (classify path a r) = a /\
  lines_removed (classify path a r) = r.
Proof. classify_cases; auto. Qed.

(** C3: a path in which a test pattern and a spec/config pattern both occur
    is classified as TESTS, not as SPECS_CONFIG. *)
Theorem classify_tests_before_config (path : string) (a r : Z) :
  any_in TEST_PATTERNS (PyStr.lower path) = true ->
  any_in SPEC_CONFIG_PATTERNS (PyStr.lower path) = true ->
  contribution_type (classify path a r) = TESTS /\
  contribution_type (classify path a r) <> SPECS_CONFIG.
Proof.
  intros Htest _. unfold classify; cbv zeta. rewrite Htest. split; [reflexivity | discriminate].
Qed.

Lemma classify_tests_before_config_witness :
  contribution_type (classify "tests/jest.config.js" 4 2) = TESTS /\
  contribution_type (classify "tests/jest.config.js" 4 2) <> SPECS_CONFIG.
Proof.
  apply (classify_tests_before_config "tests/jest.config.js" 4 2); reflexivity.
Defined.



End ClassifierFacts.

(* ===================================================================== *)
(** * Dictionaries of counters *)
(* ===================================================================== *)

Section DictFacts.

Context `{Countable K}.
Implicit Types (m : gmap K Z) (k : K) (v : Z).

Lemma dict_sum_swap (j1 j2 : K) (z1 z2 y : Z) : z1 + (z2 + y) = z2 + (z1 + y).
Proof. lia. Qed.

Lemma dict_sum_empty : dict_sum (∅ : gmap K Z) = 0.
Proof. unfold dict_sum. apply map_fold_empty. Qed.

Lemma dict_sum_insert_fresh m k v :
  m !! k = None -> dict_sum (<[k := v]> m) = v + dict_sum m.
Proof.
  intros Hk. unfold dict_sum. rewrite map_fold_insert_L; auto.
  intros. apply dict_sum_swap; auto.
Qed.

Lemma dict_sum_delete m k v :
  m !! k = Some v -> dict_sum m = v + dict_sum (delete k m).
Proof.
  intros Hk. unfold dict_sum. erewrite map_fold_delete_L; eauto.
  intros. apply dict_sum_swap; auto.
Qed.

Lemma dict_sum_add m k v : dict_sum (dict_add k v m) = dict_sum m + v.
Proof.
  unfold dict_add. destruct (m !! k) as [x|] eqn:Hk; simpl.
  - rewrite <- insert_delete_eq.
    rewrite dict_sum_insert_fresh by apply lookup_delete_eq.
    rewrite (dict_sum_delete m k x Hk). lia.
  - rewrite dict_sum_insert_fresh by exact Hk. lia.
Qed.

Lemma dict_add_lookup m k v j :
  dict_add k v m !! j = if decide (k = j) then Some (default 0 (m !! k) + v) else m !! j.
Proof. unfold dict_add. apply lookup_insert. Qed.

End DictFacts.

(* ===================================================================== *)
(** * The parser *)
(* ===================================================================== *)

Lemma total_app {A} (f : A -> Z) (l l' : list A) :
  total f (l ++ l') = total f l + total f l'.
Proof. induction l as [|x l IH]; simpl; [reflexivity | rewrite IH; lia]. Qed.

Lemma fold_left_total {A} (f : A -> Z) (l : list A) (a : Z) :
  fold_left (fun acc x => acc + f x) l a = a + total f l.
Proof.
  revert a. induction l as [|x l IH]; intros a; simpl; [lia | rewrite IH; lia].
Qed.

Lemma sum_over_total {A} (f : A -> Z) (l : list A) : sum_over f l = total f l.
Proof. unfold sum_over. rewrite fold_left_total. lia. Qed.

(** ** Strings *)

Lemma all_digits_int_from (s : string) (acc : Z) :
  PyStr.all_digits s = true -> 0 <= acc -> 0 <= PyStr.int_from acc s.
Proof.
  revert acc. induction s as [|c s IH]; intros acc Hd Hacc; simpl in *; [exact Hacc |].
  apply andb_true_iff in Hd as [Hc Hs]. apply IH; [exact Hs |].
  unfold PyStr.isdigit in Hc. apply andb_true_iff in Hc as [Hlo _].
  apply Z.leb_le in Hlo. lia.
Qed.

Lemma numstat_count_nonneg (g : string) :
  digits_or_dash g = true -> 0 <= numstat_count g.
Proof.
  unfold digits_or_dash, numstat_count. intros Hg.
  destruct (String.eqb g "-"); [lia |].
  rewrite orb_false_r in Hg. apply andb_true_iff in Hg as [_ Hd].
  apply all_digits_int_from; [exact Hd | lia].
Qed.

Lemma numstat_match_counts (line g1 g2 g3 : string) :
  numstat_match line = Some (g1, g2, g3) ->
  0 <= numstat_count g1 /\ 0 <= numstat_count g2.
Proof.
  unfold numstat_match. intros Hm.
  destruct (PyStr.cut PyStr.TAB line) as [[a rest]|]; simpl in Hm; [| discriminate].
  destruct (PyStr.cut PyStr.TAB rest) as [[b tail]|]; simpl in Hm; [| discriminate].
  destruct (digits_or_dash a) eqn:Ha; simpl in Hm; [| discriminate].
  destruct (digits_or_dash b) eqn:Hb; simpl in Hm; [| discriminate].
  match type of Hm with (if ?c then _ else _) = _ => destruct c end; [| discriminate].
  injection Hm as <- <- <-. split; apply numstat_count_nonneg; assumption.
Qed.

Lemma count_nonneg (c : ascii) (s : string) : 0 <= PyStr.count c s.
Proof. induction s as [|a s IH]; simpl; [lia | destruct (Ascii.eqb a c); lia]. Qed.

Lemma cut_count (c : ascii) (s : string) :
  match PyStr.cut c s with
  | Some (l, r) => PyStr.count c s = 1 + PyStr.count c r
  | None => PyStr.count c s = 0
  end.
Proof.
  induction s as [|a s IH]; simpl; [reflexivity |].
  destruct (Ascii.eqb a c); [lia |].
  destruct (PyStr.cut c s) as [[l r]|]; lia.
Qed.

(** [len(s.split(c, n))] is one more than the number of separators, up to
    [n + 1]. *)
Lemma split_max_length (c : ascii) (n : nat) (s : string) :
  Z.of_nat (length (PyStr.split_max c n s)) = 1 + Z.min (Z.of_nat n) (PyStr.count c s).
Proof.
  revert s. induction n as [|n IH]; intros s; simpl length.
  - pose proof (count_nonneg c s). simpl. lia.
  - simpl PyStr.split_max. pose proof (cut_count c s) as Hc.
    destruct (PyStr.cut c s) as [[l r]|].
    + simpl length. rewrite Nat2Z.inj_succ, IH. lia.
    + simpl. lia.
Qed.

(** A line with at least four bars splits in exactly five parts. *)
Lemma split_five (line : string) :
  4 <= PyStr.count "|"%char line ->
  exists p0 p1 p2 p3 p4, PyStr.split_max "|"%char 4 line = [p0; p1; p2; p3; p4].
Proof.
  intros H4. pose proof (split_max_length "|"%char 4 line) as Hlen.
  destruct (PyStr.split_max "|"%char 4 line) as [|p0 [|p1 [|p2 [|p3 [|p4 [|p5 l]]]]]];
    simpl in Hlen; try lia.
  eauto 10.
Qed.

Lemma split_not_five (line : string) :
  PyStr.count "|"%char line < 4 ->
  forall p0 p1 p2 p3 p4, PyStr.split_max "|"%char 4 line <> [p0; p1; p2; p3; p4].
Proof.
  intros H4 p0 p1 p2 p3 p4 Heq. pose proof (split_max_length "|"%char 4 line) as Hlen.
  rewrite Heq in Hlen. simpl in Hlen. lia.
Qed.

Lemma count_contains_bar (s : string) :
  1 <= PyStr.count "|"%char s -> PyStr.contains "|" s = true.
Proof.
  induction s as [|a s IH]; [simpl; lia |].
  intros Hc. change (PyStr.contains "|" (String a s))
    with (String.prefix "|" (String a s) || PyStr.contains "|" s).
  simpl in Hc. destruct (Ascii.eqb a "|"%char) eqn:Ha.
  - apply Ascii.eqb_eq in Ha. subst a.
    assert (String.prefix "|" (String "|"%char s) = true) as ->; [| reflexivity].
    simpl. destruct (Ascii.ascii_dec "|"%char "|"%char); [destruct s; reflexivity | congruence].
  - rewrite IH by lia. apply orb_true_r.
Qed.

Section ParserFacts.

Variable W : World.

(** The three cases of the loop body, on the stripped line: nothing for an
    empty line, a new commit for a line with at least four bars, the numstat
    branch for any other line. *)
Lemma parse_line_cases (st : parse_state) (line0 : string) :
  let line := PyStr.strip line0 in
  (line = EmptyString -> parse_line W st line0 = st) /\
  (line <> EmptyString -> 4 <= PyStr.count "|"%char line ->
   exists p0 p1 p2 p3 p4,
     PyStr.split_max "|"%char 4 line = [p0; p1; p2; p3; p4] /\
     parse_line W st line0 = open_commit W st p0 p1 p2 p3 p4) /\
  (line <> EmptyString -> PyStr.count "|"%char line < 4 ->
   parse_line W st line0 = numstat_line st line).
Proof.
  intros line. unfold parse_line. fold line. repeat split.
  - intros ->. reflexivity.
  - intros Hne H4. destruct line as [|a l] eqn:Hl; [congruence |]. simpl PyStr.truthy. cbv iota.
    simpl negb. cbv iota. unfold commit_line.
    rewrite count_contains_bar by lia.
    destruct (split_five (String a l) H4) as (p0 & p1 & p2 & p3 & p4 & Hs).
    exists p0, p1, p2, p3, p4. split; [exact Hs |].
    rewrite Hs. apply Z.leb_le in H4. rewrite H4. reflexivity.
  - intros Hne H4. destruct line as [|a l] eqn:Hl; [congruence |]. simpl PyStr.truthy.
    simpl negb. cbv iota. unfold commit_line.
    apply Z.leb_gt in H4. rewrite H4, andb_false_r. reflexivity.
Qed.

End ParserFacts.

Section ParserInvariant.

Variable W : World.

Lemma parse_init_inv : parse_inv parse_init.
Proof. split; simpl; rewrite dict_sum_empty; reflexivity. Qed.

Lemma all_commits_open_commit (st : parse_state) (p0 p1 p2 p3 p4 : string) :
  exists d, all_commits (open_commit W st p0 p1 p2 p3 p4)
            = all_commits st ++ [CommitInfo.mk p0 p1 p2 d p4 0 0 0 []] /\
            ps_contribution_types (open_commit W st p0 p1 p2 p3 p4) = ps_contribution_types st /\
            ps_languages (open_commit W st p0 p1 p2 p3 p4) = ps_languages st.
Proof.
  unfold open_commit, all_commits.
  destruct (fromisoformat W (PyStr.replace "Z" "+00:00" p3)) as [d|];
    eexists; simpl; (split; [reflexivity | split; reflexivity]).
Qed.

Lemma open_commit_inv (st : parse_state) (p0 p1 p2 p3 p4 : string) :
  parse_inv st -> parse_inv (open_commit W st p0 p1 p2 p3 p4).
Proof.
  intros [Hc Hl]. destruct (all_commits_open_commit st p0 p1 p2 p3 p4) as (d & Ha & Hct & Hlg).
  unfold parse_inv. rewrite Ha, Hct, Hlg, total_app. simpl. unfold commit_lines at 2 4. simpl.
  split; lia.
Qed.

Lemma numstat_line_inv (st : parse_state) (line : string) :
  parse_inv st -> parse_inv (numstat_line st line).
Proof.
  intros [Hc Hl]. unfold numstat_line.
  destruct (numstat_match line) as [[[g1 g2] filepath]|] eqn:Hm; [| split; assumption].
  destruct (ps_current st) as [cur|] eqn:Hcur; [| split; assumption].
  destruct (numstat_match_counts _ _ _ _ Hm) as [Ha Hr].
  set (added := numstat_count g1) in *. set (removed := numstat_count g2) in *.
  set (cl := FileClassifier.classify filepath added removed).
  unfold parse_inv, all_commits in *. rewrite Hcur in Hc, Hl. simpl.
  rewrite total_app in *. simpl in *. unfold commit_lines in *. simpl.
  rewrite dict_sum_add. split; [lia |].
  destruct (language cl) as [l|]; [destruct (PyStr.truthy l) |];
    rewrite ?dict_sum_add; lia.
Qed.

Lemma parse_line_inv (st : parse_state) (line : string) :
  parse_inv st -> parse_inv (parse_line W st line).
Proof.
  intros Hinv. unfold parse_line.
  destruct (negb (PyStr.truthy (PyStr.strip line))); [exact Hinv |].
  unfold commit_line.
  destruct (PyStr.contains "|" (PyStr.strip line) && (4 <=? PyStr.count "|" (PyStr.strip line)));
    [| apply numstat_line_inv; exact Hinv].
  destruct (PyStr.split_max "|" 4 (PyStr.strip line)) as [|p0 [|p1 [|p2 [|p3 [|p4 [|p5 l]]]]]];
    try (apply numstat_line_inv; exact Hinv).
  apply open_commit_inv; exact Hinv.
Qed.

Lemma parse_lines_inv (lines : list string) (st : parse_state) :
  parse_inv st -> parse_inv (parse_lines W lines st).
Proof.
  revert st. induction lines as [|line lines IH]; intros st Hinv; simpl; [exact Hinv |].
  apply IH, parse_line_inv, Hinv.
Qed.

Lemma parsed_commits_all (output : string) :
  parsed_commits W output
  = all_commits (parse_lines W (PyStr.split PyStr.NL output) parse_init).
Proof. reflexivity. Qed.

(** ** The loop with its exception *)

Lemma numstat_step_cases (st : parse_state) (line : string) :
  numstat_step st line = Ok (numstat_line st line) \/
  numstat_step st line = Raise ValueError.
Proof.
  unfold numstat_step, numstat_line, numstat_int, PyStr.int.
  destruct (numstat_match line) as [[[g1 g2] filepath]|]; [| left; reflexivity].
  destruct (ps_current st) as [current_commit|]; [| left; reflexivity].
  destruct (String.eqb g1 "-"), (String.eqb g2 "-");
    repeat match goal with
           | |- context [if ?b then Raise ValueError else _] => destruct b
           end; cbn [mbind outcome_bind]; auto.
Qed.

Lemma parse_step_cases (st : parse_state) (line : string) :
  parse_step W st line = Ok (parse_line W st line) \/
  parse_step W st line = Raise ValueError.
Proof.
  unfold parse_step, parse_line.
  destruct (negb (PyStr.truthy (PyStr.strip line))); [left; reflexivity |].
  destruct (commit_line W st (PyStr.strip line)); [left; reflexivity |].
  apply numstat_step_cases.
Qed.

Lemma parse_steps_cases (lines : list string) (st : parse_state) :
  foldM (parse_step W) lines st = Ok (parse_lines W lines st) \/
  foldM (parse_step W) lines st = Raise ValueError.
Proof.
  revert st. induction lines as [|line lines IH]; intros st; [left; reflexivity |].
  cbn [foldM]. destruct (parse_step_cases st line) as [-> | ->]; [| right; reflexivity].
  cbn [mbind outcome_bind]. apply IH.
Qed.

Lemma parse_log_cases (output : string) :
  parse_log W output = Ok (parse_lines W (PyStr.split PyStr.NL output) parse_init) \/
  parse_log W output = Raise ValueError.
Proof. apply parse_steps_cases. Qed.

Lemma parse_log_ok (output : string) (st : parse_state) :
  parse_log W output = Ok st ->
  st = parse_lines W (PyStr.split PyStr.NL output) parse_init.
Proof. destruct (parse_log_cases output) as [-> | ->]; [intros [= <-]; reflexivity | discriminate]. Qed.

(** [analyze_repo], branch by branch *)
Lemma analyze_repo_branches (self : GitAnalyzer.t) (repo_path : string) :
  analyze_repo W self repo_path
  = if negb (isdir W (path_join repo_path ".git")) then (Ok None, self)
    else
      match _detect_technologies W repo_path with
      | None => (Raise OSError, self)
      | Some technologies =>
          match subprocess_run W ("git" :: log_args self) repo_path with
          | CompletedProcess returncode output =>
              if returncode =? 0 then
                match parse_log W output with
                | Raise e => (Raise e, self)
                | Ok st =>
                    match commit_dates (all_parsed st) with
                    | Raise e => (Raise e, self)
                    | Ok (first_commit_date, last_commit_date) =>
                        let stats :=
                          RepoStats.mk (basename_abspath W repo_path) repo_path
                            (Z.of_nat (length (all_parsed st)))
                            (sum_over CommitInfo.lines_added (all_parsed st))
                            (sum_over CommitInfo.lines_removed (all_parsed st))
                            (sum_over CommitInfo.files_changed (all_parsed st))
                            first_commit_date last_commit_date
                            (ps_languages st) (ps_contribution_types st)
                            (all_parsed st) technologies
                            (_get_repo_description W repo_path) in
                        (Ok (Some stats),
                         GitAnalyzer.mk (GitAnalyzer.author_email self)
                           (GitAnalyzer.author_name self)
                           (GitAnalyzer._repos self ++ [stats]))
                    end
                end
              else (Ok None, self)
          | TimeoutExpired _ | FileNotFoundError _ => (Ok None, self)
          | OtherException e => (Raise e, self)
          end
      end.
Proof.
  unfold analyze_repo, _run_git_command.
  destruct (negb (isdir W (path_join repo_path ".git"))); [reflexivity |].
  destruct (_detect_technologies W repo_path) as [technologies|]; [| reflexivity].
  destruct (subprocess_run W ("git" :: log_args self) repo_path) as [rc out | m | m | e];
    try reflexivity.
  destruct (rc =? 0); [| reflexivity]. cbn [negb].
  destruct (parse_log W out) as [st|e]; [| reflexivity].
  destruct (commit_dates (all_parsed st)) as [[first last]|e]; reflexivity.
Qed.

(** What a successful analysis returns, field by field *)
Lemma analyze_repo_success (self self' : GitAnalyzer.t) (repo_path : string)
    (stats : RepoStats.t) :
  analyze_repo W self repo_path = (Ok (Some stats), self') ->
  exists output,
    subprocess_run W ("git" :: log_args self) repo_path = CompletedProcess 0 output /\
    RepoStats.commits stats = parsed_commits W output /\
    RepoStats.total_commits stats = Z.of_nat (length (parsed_commits W output)) /\
    RepoStats.total_lines_added stats = sum_over CommitInfo.lines_added (parsed_commits W output) /\
    RepoStats.total_lines_removed stats = sum_over CommitInfo.lines_removed (parsed_commits W output) /\
    RepoStats.total_files_changed stats = sum_over CommitInfo.files_changed (parsed_commits W output) /\
    RepoStats.contribution_types stats
    = ps_contribution_types (parse_lines W (PyStr.split PyStr.NL output) parse_init) /\
    RepoStats.languages stats
    = ps_languages (parse_lines W (PyStr.split PyStr.NL output) parse_init) /\
    GitAnalyzer._repos self' = GitAnalyzer._repos self ++ [stats].
Proof.
  rewrite analyze_repo_branches.
  destruct (negb (isdir W (path_join repo_path ".git"))); [discriminate |].
  destruct (_detect_technologies W repo_path) as [technologies|]; [| discriminate].
  destruct (subprocess_run W ("git" :: log_args self) repo_path) as [rc out | m | m | e];
    try discriminate.
  destruct (rc =? 0) eqn:Hrc; [| discriminate].
  apply Z.eqb_eq in Hrc. subst rc.
  destruct (parse_log W out) as [st|e] eqn:Hlog; [| discriminate].
  apply parse_log_ok in Hlog. subst st.
  change (all_parsed (parse_lines W (PyStr.split PyStr.NL out) parse_init))
    with (parsed_commits W out).
  destruct (commit_dates (parsed_commits W out)) as [[first last]|e]; [| discriminate].
  intros Heq. injection Heq as <- <-. exists out. simpl. repeat split; reflexivity.
Qed.

(** An analysis that returns no statistics leaves the analyzer as it was. *)
Lemma analyze_repo_unchanged (self self' : GitAnalyzer.t) (repo_path : string)
    (r : outcome (option RepoStats.t)) :
  analyze_repo W self repo_path = (r, self') ->
  (forall stats, r <> Ok (Some stats)) -> self' = self.
Proof.
  rewrite analyze_repo_branches. intros Hres Hno.
  repeat match type of Hres with
         | (if ?b then _ else _) = _ => destruct b
         | match ?x with _ => _ end = _ => destruct x
         end; injection Hres as <- <-; try reflexivity.
  exfalso. eapply Hno. reflexivity.
Qed.

(** C6: after a successful analysis the three repository totals are the sums
    of the corresponding counts of the repository's commits. *)
Theorem totals_are_commit_sums (self self' : GitAnalyzer.t) (repo_path : string)
    (stats : RepoStats.t) :
  analyze_repo W self repo_path = (Ok (Some stats), self') ->
  RepoStats.total_lines_added stats = total CommitInfo.lines_added (RepoStats.commits stats) /\
  RepoStats.total_lines_removed stats = total CommitInfo.lines_removed (RepoStats.commits stats) /\
  RepoStats.total_files_changed stats = total CommitInfo.files_changed (RepoStats.commits stats).
Proof.
  intros Hok. destruct (analyze_repo_success _ _ _ _ Hok)
    as (output & _ & Hc & _ & Ha & Hr & Hf & _).
  rewrite Ha, Hr, Hf, Hc, !sum_over_total. repeat split; reflexivity.
Qed.

(** C9: after a successful analysis the contribution counters add up to the
    added plus the removed lines of the repository, and the language
    counters add up to no more. *)
Theorem contribution_counters_add_up (self self' : GitAnalyzer.t) (repo_path : string)
    (stats : RepoStats.t) :
  analyze_repo W self repo_path = (Ok (Some stats), self') ->
  dict_sum (RepoStats.contribution_types stats)
  = RepoStats.total_lines_added stats + RepoStats.total_lines_removed stats /\
  dict_sum (RepoStats.languages stats)
  <= RepoStats.total_lines_added stats + RepoStats.total_lines_removed stats.
Proof.
  intros Hok. destruct (analyze_repo_success _ _ _ _ Hok)
    as (output & _ & _ & _ & Ha & Hr & _ & Hct & Hlg & _).
  destruct (parse_lines_inv (PyStr.split PyStr.NL output) parse_init parse_init_inv)
    as [Hc Hl].
  rewrite Ha, Hr, Hct, Hlg, !sum_over_total, parsed_commits_all.
  assert (Hsplit : forall l, total commit_lines l
                   = total CommitInfo.lines_added l + total CommitInfo.lines_removed l).
  { induction l as [|c l IH]; simpl; [reflexivity | unfold commit_lines at 1; lia]. }
  rewrite <- Hsplit. split; assumption.
Qed.


(** C1: a numstat line whose file name holds four bars has the numeric-stat
    shape, and the parser opens a commit on it, whatever its state. *)
Theorem numstat_line_with_bars_opens_commit (st : parse_state) :
  numstat_match bars_line = Some ("3", "1", "a|b|c|d|e.txt") /\
  parse_line W st bars_line
  = open_commit W st ("3" +:+ TABs +:+ "1" +:+ TABs +:+ "a") "b" "c" "d" "e.txt".
Proof. split; reflexivity. Qed.

End ParserInvariant.


(* ===================================================================== *)
(** * Activity periods *)
(* ===================================================================== *)

Lemma foldM_ok {A S} (body : S -> A -> outcome S) (step : S -> A -> S) (l : list A) (s : S) :
  (forall s a, body s a = Ok (step s a)) ->
  foldM body l s = Ok (fold_left step l s).
Proof.
  intros Hb. revert s. induction l as [|a l IH]; intros s; simpl; [reflexivity |].
  rewrite Hb. simpl. apply IH.
Qed.

Lemma for_each_commit_ok {S} (repos : list RepoStats.t)
    (body : S -> RepoStats.t -> CommitInfo.t -> outcome S)
    (step : S -> RepoStats.t -> CommitInfo.t -> S) (s : S) :
  (forall s repo commit, body s repo commit = Ok (step s repo commit)) ->
  for_each_commit repos body s
  = Ok (fold_left (fun s repo => fold_left (fun s commit => step s repo commit)
                                   (RepoStats.commits repo) s) repos s).
Proof.
  intros Hb. unfold for_each_commit. apply foldM_ok. intros s' repo.
  apply foldM_ok. intros s'' commit. apply Hb.
Qed.

(** With aware bounds the chained comparison never raises, and it is the
    inclusive test on instants. *)
Lemma between_aware (start end_ : datetime) (commit : CommitInfo.t) :
  aware start -> aware end_ ->
  between start (with_period_tz (CommitInfo.date commit) (tzinfo start)) end_
  = Ok (in_period start end_ commit).
Proof.
  unfold aware, between, in_period, dt_le, dt_key, with_period_tz, instant, replace_tzinfo.
  destruct start as [ws [os|]], end_ as [we [oe|]]; simpl; intros Hs He; try congruence.
  destruct (CommitInfo.date commit) as [wc [oc|]]; simpl;
    repeat match goal with |- context [?a <=? ?b] => destruct (a <=? b) eqn:?; simpl end;
    reflexivity.
Qed.

Section SummaryFacts.

Variable strftime : datetime -> string -> string.
Variable first_of_month : datetime -> datetime.

Lemma summary_body_step (start end_ : datetime) (c : counters)
    (repo : RepoStats.t) (commit : CommitInfo.t) :
  aware start -> aware end_ ->
  summary_body start end_ c repo commit = Ok (summary_step start end_ c repo commit).
Proof.
  intros Hs He. unfold summary_body, summary_step. rewrite between_aware by assumption.
  simpl. destruct (in_period start end_ commit); reflexivity.
Qed.

Lemma summary_commits_counts (start end_ : datetime) (repo : RepoStats.t)
    (commits : list CommitInfo.t) (c : counters) :
  let c' := fold_left (fun s commit => summary_step start end_ s repo commit) commits c in
  let counted := List.filter (in_period start end_) commits in
  n_commits c' = n_commits c + Z.of_nat (length counted) /\
  n_lines_added c' = n_lines_added c + total CommitInfo.lines_added counted /\
  n_lines_removed c' = n_lines_removed c + total CommitInfo.lines_removed counted /\
  n_files_changed c' = n_files_changed c + total CommitInfo.files_changed counted.
Proof.
  revert c. induction commits as [|commit commits IH]; intros c; simpl; [lia |].
  specialize (IH (summary_step start end_ c repo commit)). simpl in IH.
  destruct IH as (H1 & H2 & H3 & H4). rewrite H1, H2, H3, H4.
  unfold summary_step. destruct (in_period start end_ commit); simpl; lia.
Qed.

Lemma summary_repos_counts (start end_ : datetime) (repos : list RepoStats.t) (c : counters) :
  let c' := fold_left (fun s repo => fold_left (fun s commit => summary_step start end_ s repo commit)
                                       (RepoStats.commits repo) s) repos c in
  let counted := List.filter (in_period start end_) (concat (map RepoStats.commits repos)) in
  n_commits c' = n_commits c + Z.of_nat (length counted) /\
  n_lines_added c' = n_lines_added c + total CommitInfo.lines_added counted /\
  n_lines_removed c' = n_lines_removed c + total CommitInfo.lines_removed counted /\
  n_files_changed c' = n_files_changed c + total CommitInfo.files_changed counted.
Proof.
  revert c. induction repos as [|repo repos IH]; intros c; simpl; [lia |].
  specialize (IH (fold_left (fun s commit => summary_step start end_ s repo commit)
                    (RepoStats.commits repo) c)). simpl in IH.
  destruct IH as (H1 & H2 & H3 & H4). rewrite H1, H2, H3, H4.
  destruct (summary_commits_counts start end_ repo (RepoStats.commits repo) c)
    as (G1 & G2 & G3 & G4). simpl in G1, G2, G3, G4. rewrite G1, G2, G3, G4.
  rewrite List.filter_app, !total_app, length_app. lia.
Qed.

(** C7: for a period with aware bounds the summary counts exactly the commits
    whose timestamp, made aware with the period's timezone when it has none,
    lies in [start, end], both bounds included; a commit stamped at the
    start or at the end of the period is one of them. *)
Theorem period_membership_inclusive (self : GitAnalyzer.t) (now : datetime)
    (period : string) (custom_start custom_end : option datetime)
    (start end_ : datetime) (label : string) :
  period_of strftime first_of_month now period custom_start custom_end = (start, end_, label) ->
  aware start -> aware end_ ->
  exists summary,
    get_activity_summary strftime first_of_month self now period custom_start custom_end
    = Ok summary /\
    ActivitySummary.period_start summary = start /\
    ActivitySummary.period_end summary = end_ /\
    (let counted := List.filter (in_period start end_) (commits_of self) in
     ActivitySummary.commits summary = Z.of_nat (length counted) /\
     ActivitySummary.lines_added summary = total CommitInfo.lines_added counted /\
     ActivitySummary.lines_removed summary = total CommitInfo.lines_removed counted /\
     ActivitySummary.files_changed summary = total CommitInfo.files_changed counted) /\
    (forall commit,
       in_period start end_ commit = true <->
       instant start <= instant (with_period_tz (CommitInfo.date commit) (tzinfo start))
                     <= instant end_) /\
    (forall commit, instant start <= instant end_ ->
       CommitInfo.date commit = start \/ CommitInfo.date commit = end_ ->
       in_period start end_ commit = true).
Proof.
  intros Hp Hs He. unfold get_activity_summary. rewrite Hp.
  rewrite (for_each_commit_ok _ _ (summary_step start end_))
    by (intros; apply summary_body_step; assumption).
  simpl. eexists. split; [reflexivity |]. simpl.
  destruct (summary_repos_counts start end_ (GitAnalyzer._repos self) counters_init)
    as (H1 & H2 & H3 & H4). simpl in H1, H2, H3, H4.
  split; [reflexivity |]. split; [reflexivity |].
  split; [repeat (split; [assumption |]); assumption |].
  split.
  - intros commit. unfold in_period. rewrite andb_true_iff, !Z.leb_le. reflexivity.
  - intros commit Hle [Hd | Hd]; unfold in_period, with_period_tz; rewrite Hd;
      unfold aware in *;
      destruct (tzinfo start) eqn:Hts, (tzinfo end_) eqn:Hte; try congruence;
      rewrite ?Hts, ?Hte; apply andb_true_iff; split; apply Z.leb_le; lia.
Qed.

(** The bucket of day [i] leaves the file count and the count of active
    repositories at their defaults. *)
Lemma daily_summary_defaults (self : GitAnalyzer.t) (now : datetime) (i : Z)
    (summary : ActivitySummary.t) :
  daily_summary strftime self now i = Ok summary ->
  ActivitySummary.files_changed summary = 0 /\ ActivitySummary.repos_active summary = 0.
Proof.
  unfold daily_summary.
  destruct (timedelta_days i) as [delta|e]; [| discriminate]. cbn [mbind outcome_bind].
  destruct (dt_minus now delta) as [day|e]; [| discriminate]. cbn [mbind outcome_bind].
  destruct (for_each_commit _ _ _) as [c|e]; simpl; [| discriminate].
  intros Heq. injection Heq as <-. split; reflexivity.
Qed.

(** C2: in the demo repository (two commits, three files, both commits made
    on the day of [demo_now]) the daily bucket counts the commits and the
    lines but reports no file and no active repository; the weekly bucket
    reports three files and one repository. *)
Theorem daily_bucket_omits_files_and_repos :
  get_daily_activity strftime demo_analyzed demo_now 1
  = Ok [ActivitySummary.mk (midnight demo_now) (last_microsecond demo_now)
          (strftime demo_now "%A, %b %d") 2 18 0 0 0 ∅ ∅] /\
  get_weekly_activity strftime demo_analyzed demo_now 1
  = Ok [ActivitySummary.mk (midnight demo_now) (dt_add (midnight demo_now) WEEK_SPAN)
          ("Week of " +:+ strftime (midnight demo_now) "%b %d") 2 18 0 3 1 ∅ ∅].
Proof. split; vm_compute; reflexivity. Qed.

End SummaryFacts.

Lemma period_membership_inclusive_witness :
  exists summary,
    get_activity_summary (fun _ fmt => fmt) midnight demo_analyzed demo_now
      "day" None None = Ok summary /\
    ActivitySummary.commits summary = 2.
Proof.
  destruct (period_membership_inclusive (fun _ fmt => fmt) midnight demo_analyzed
              demo_now "day" None None (midnight demo_now) demo_now "Today")
    as (summary & Hs & _ & _ & (Hc & _) & _).
  - reflexivity.
  - discriminate.
  - discriminate.
  - exists summary. split; [exact Hs |]. rewrite Hc. vm_compute. reflexivity.
Defined.

(* ===================================================================== *)
(** * Rolling buckets *)
(* ===================================================================== *)

Section BucketFacts.

Variable strftime : datetime -> string -> string.

Lemma daily_body_step (start end_ : datetime) (c : counters)
    (repo : RepoStats.t) (commit : CommitInfo.t) :
  aware start -> aware end_ ->
  daily_body start end_ c repo commit = Ok (daily_step start end_ c repo commit).
Proof.
  intros Hs He. unfold daily_body, daily_step. rewrite between_aware by assumption.
  simpl. destruct (in_period start end_ commit); reflexivity.
Qed.

Lemma weekly_body_step (start end_ : datetime) (c : counters)
    (repo : RepoStats.t) (commit : CommitInfo.t) :
  aware start -> aware end_ ->
  weekly_body start end_ c repo commit = Ok (weekly_step start end_ c repo commit).
Proof.
  intros Hs He. unfold weekly_body, weekly_step. rewrite between_aware by assumption.
  simpl. destruct (in_period start end_ commit); reflexivity.
Qed.

(** The counters after the two nested loops, for a step that adds one commit
    and the commit's lines, and [files commit] files. *)
Lemma bucket_counts (step : counters -> RepoStats.t -> CommitInfo.t -> counters)
    (counted : CommitInfo.t -> bool) (files : CommitInfo.t -> Z)
    (repos : list RepoStats.t) (c : counters) :
  (forall c repo commit,
     n_commits (step c repo commit) = n_commits c + (if counted commit then 1 else 0) /\
     n_lines_added (step c repo commit)
     = n_lines_added c + (if counted commit then CommitInfo.lines_added commit else 0) /\
     n_lines_removed (step c repo commit)
     = n_lines_removed c + (if counted commit then CommitInfo.lines_removed commit else 0) /\
     n_files_changed (step c repo commit)
     = n_files_changed c + (if counted commit then files commit else 0)) ->
  let c' := fold_left (fun s repo => fold_left (fun s commit => step s repo commit)
                                       (RepoStats.commits repo) s) repos c in
  let l := List.filter counted (concat (map RepoStats.commits repos)) in
  n_commits c' = n_commits c + Z.of_nat (length l) /\
  n_lines_added c' = n_lines_added c + total CommitInfo.lines_added l /\
  n_lines_removed c' = n_lines_removed c + total CommitInfo.lines_removed l /\
  n_files_changed c' = n_files_changed c + total files l.
Proof.
  intros Hstep. revert c. induction repos as [|repo repos IH]; intros c; simpl; [lia |].
  assert (Hinner : forall commits c0,
            let c1 := fold_left (fun s commit => step s repo commit) commits c0 in
            let l := List.filter counted commits in
            n_commits c1 = n_commits c0 + Z.of_nat (length l) /\
            n_lines_added c1 = n_lines_added c0 + total CommitInfo.lines_added l /\
            n_lines_removed c1 = n_lines_removed c0 + total CommitInfo.lines_removed l /\
            n_files_changed c1 = n_files_changed c0 + total files l).
  { induction commits as [|commit commits IHc]; intros c0; simpl; [lia |].
    destruct (IHc (step c0 repo commit)) as (H1 & H2 & H3 & H4). simpl in H1, H2, H3, H4.
    rewrite H1, H2, H3, H4.
    destruct (Hstep c0 repo commit) as (G1 & G2 & G3 & G4). rewrite G1, G2, G3, G4.
    destruct (counted commit); simpl; lia. }
  destruct (IH (fold_left (fun s commit => step s repo commit) (RepoStats.commits repo) c))
    as (H1 & H2 & H3 & H4). simpl in H1, H2, H3, H4. rewrite H1, H2, H3, H4.
  destruct (Hinner (RepoStats.commits repo) c) as (G1 & G2 & G3 & G4).
  simpl in G1, G2, G3, G4. rewrite G1, G2, G3, G4.
  rewrite List.filter_app, !total_app, length_app. lia.
Qed.

Lemma aware_day_bounds (now : datetime) (i : Z) :
  aware now -> aware (day_start now i) /\ aware (day_end now i).
Proof. intros Hn. split; exact Hn. Qed.

Lemma aware_week_bounds (now : datetime) (i : Z) :
  aware now -> aware (week_start now i) /\ aware (week_end now i).
Proof. intros Hn. split; exact Hn. Qed.

(** The daily bucket counts the commits of its day and their lines, and
    nothing else; the day is inside the range of [datetime]. *)
Lemma daily_summary_counts (self : GitAnalyzer.t) (now : datetime) (i : Z) :
  aware now ->
  -999999999 <= i <= 999999999 -> in_range (wall now - i * DAY) = true ->
  let counted := List.filter (in_period (day_start now i) (day_end now i)) (commits_of self) in
  daily_summary strftime self now i
  = Ok (ActivitySummary.mk (day_start now i) (day_end now i)
          (strftime (dt_sub now (i * DAY)) "%A, %b %d")
          (Z.of_nat (length counted))
          (total CommitInfo.lines_added counted)
          (total CommitInfo.lines_removed counted)
          0 0 ∅ ∅).
Proof.
  intros Hn Hi Hr counted. unfold daily_summary, timedelta_days, dt_minus.
  replace ((-999999999 <=? i) && (i <=? 999999999)) with true
    by (symmetry; apply andb_true_iff; split; apply Z.leb_le; lia).
  cbn [mbind outcome_bind]. rewrite Hr. cbn [mbind outcome_bind].
  fold (day_start now i) (day_end now i).
  destruct (aware_day_bounds now i Hn) as [Hs He].
  rewrite (for_each_commit_ok _ _ (daily_step (day_start now i) (day_end now i)))
    by (intros; apply daily_body_step; assumption).
  destruct (bucket_counts (daily_step (day_start now i) (day_end now i))
              (in_period (day_start now i) (day_end now i)) (fun _ => 0)
              (GitAnalyzer._repos self) counters_init) as (H1 & H2 & H3 & _).
  { intros c repo commit. unfold daily_step.
    destruct (in_period (day_start now i) (day_end now i) commit); simpl; lia. }
  simpl in H1, H2, H3. cbn [mbind outcome_bind]. rewrite H1, H2, H3. reflexivity.
Qed.

(** The weekly bucket counts the commits of its week, their lines and their
    files; the week is inside the range of [datetime]. *)
Lemma weekly_summary_counts (self : GitAnalyzer.t) (now : datetime) (i : Z) :
  aware now ->
  -999999999 <= weekday now + i * 7 <= 999999999 ->
  in_range (wall now - (weekday now + i * 7) * DAY) = true ->
  in_range (wall (week_start now i) + WEEK_SPAN) = true ->
  let counted := List.filter (in_period (week_start now i) (week_end now i)) (commits_of self) in
  exists summary,
    weekly_summary strftime self now i = Ok summary /\
    ActivitySummary.period_start summary = week_start now i /\
    ActivitySummary.period_end summary = week_end now i /\
    ActivitySummary.commits summary = Z.of_nat (length counted) /\
    ActivitySummary.lines_added summary = total CommitInfo.lines_added counted /\
    ActivitySummary.lines_removed summary = total CommitInfo.lines_removed counted /\
    ActivitySummary.files_changed summary = total CommitInfo.files_changed counted.
Proof.
  intros Hn Hi Hr He' counted. unfold weekly_summary, timedelta_days, dt_minus, dt_plus.
  replace ((-999999999 <=? weekday now + i * 7) && (weekday now + i * 7 <=? 999999999))
    with true by (symmetry; apply andb_true_iff; split; apply Z.leb_le; lia).
  cbn [mbind outcome_bind]. rewrite Hr. cbn [mbind outcome_bind].
  fold (week_start now i). rewrite He'. cbn [mbind outcome_bind]. fold (week_end now i).
  destruct (aware_week_bounds now i Hn) as [Hs He].
  rewrite (for_each_commit_ok _ _ (weekly_step (week_start now i) (week_end now i)))
    by (intros; apply weekly_body_step; assumption).
  destruct (bucket_counts (weekly_step (week_start now i) (week_end now i))
              (in_period (week_start now i) (week_end now i)) CommitInfo.files_changed
              (GitAnalyzer._repos self) counters_init) as (H1 & H2 & H3 & H4).
  { intros c repo commit. unfold weekly_step.
    destruct (in_period (week_start now i) (week_end now i) commit); simpl; lia. }
  simpl in H1, H2, H3, H4. cbn [mbind outcome_bind]. eexists. split; [reflexivity |].
  cbn [ActivitySummary.period_start ActivitySummary.period_end ActivitySummary.commits
       ActivitySummary.lines_added ActivitySummary.lines_removed ActivitySummary.files_changed].
  rewrite H1, H2, H3, H4. repeat split.
Qed.

(** Buckets do not overlap and the most recent comes first: an older bucket
    ends before a newer one starts. *)
Lemma daily_buckets_descend (now : datetime) (i j : Z) :
  i < j -> instant (day_end now j) < instant (day_start now i).
Proof.
  intros Hij. unfold instant, day_end, day_start, last_microsecond, midnight, dt_sub. simpl.
  assert (Hi : (wall now - i * DAY) mod DAY = wall now mod DAY)
    by (rewrite <- Z.add_opp_r, <- Z.mul_opp_l; apply Z.mod_add; discriminate).
  assert (Hj : (wall now - j * DAY) mod DAY = wall now mod DAY)
    by (rewrite <- Z.add_opp_r, <- Z.mul_opp_l; apply Z.mod_add; discriminate).
  rewrite Hi, Hj. unfold DAY in *. lia.
Qed.

Lemma weekly_buckets_descend (now : datetime) (i j : Z) :
  i < j -> instant (week_end now j) < instant (week_start now i).
Proof.
  intros Hij. unfold instant, week_end, week_start, midnight, dt_add, dt_sub. simpl.
  set (d := weekday now).
  assert (Hi : (wall now - (d + i * 7) * DAY) mod DAY = wall now mod DAY)
    by (rewrite <- Z.add_opp_r, <- Z.mul_opp_l; apply Z.mod_add; discriminate).
  assert (Hj : (wall now - (d + j * 7) * DAY) mod DAY = wall now mod DAY)
    by (rewrite <- Z.add_opp_r, <- Z.mul_opp_l; apply Z.mod_add; discriminate).
  rewrite Hi, Hj. unfold WEEK_SPAN, DAY in *. lia.
Qed.

End BucketFacts.

(* ===================================================================== *)
(** * Floats *)
(* ===================================================================== *)



Section FloatFacts.

Local Open Scope Q_scope.

Lemma half_ulp_pow2 : 2 ^ (-46) == 2 * half_ulp.
Proof. reflexivity. Qed.

Lemma round_half_even_err (q : Q) :
  Qabs (inject_Z (PyFloat.round_half_even q) - q) <= 1 # 2.
Proof.
  unfold PyFloat.round_half_even.
  pose proof (Qfloor_le q) as Hlo. pose proof (Qlt_floor q) as Hhi.
  rewrite inject_Z_plus in Hhi. change (inject_Z 1) with 1 in Hhi.
  apply Qabs_Qle_condition.
  destruct (Qcompare (q - inject_Z (Qfloor q)) (1 # 2)) eqn:Hc.
  - apply Qeq_alt in Hc. destruct (Z.even (Qfloor q));
      rewrite ?inject_Z_plus; change (inject_Z 1) with 1; lra.
  - apply Qlt_alt in Hc. lra.
  - apply Qgt_alt in Hc. rewrite inject_Z_plus. change (inject_Z 1) with 1. lra.
Qed.

Lemma pow2_pos (e : Z) : 0 < 2 ^ e.
Proof. apply Qpower_0_lt. reflexivity. Qed.

Lemma pow2_le (e e' : Z) : (e <= e')%Z -> 2 ^ e <= 2 ^ e'.
Proof. intros He. apply Qpower_le_compat_l; [exact He | discriminate]. Qed.

Lemma pow2_inject (a : Z) : (0 <= a)%Z -> 2 ^ a == inject_Z (2 ^ a).
Proof. intros Ha. rewrite Zpower_Qpower by exact Ha. reflexivity. Qed.

Lemma pow2_diff (a b : Z) :
  (0 <= a)%Z -> (0 <= b)%Z -> 2 ^ (a - b) == inject_Z (2 ^ a) / inject_Z (2 ^ b).
Proof.
  intros Ha Hb. rewrite Qpower_minus by discriminate.
  rewrite (pow2_inject a Ha), (pow2_inject b Hb). reflexivity.
Qed.

(** [ilog2] is the integer logarithm: [2^(ilog2 q) <= q < 2^(ilog2 q + 1)]. *)
Lemma ilog2_spec (q : Q) :
  0 < q -> 2 ^ PyFloat.ilog2 q <= q /\ q < 2 ^ (PyFloat.ilog2 q + 1).
Proof.
  intros Hpos. unfold PyFloat.ilog2. destruct q as [n d].
  assert (Hn : (0 < n)%Z) by (unfold Qlt in Hpos; simpl in Hpos; lia).
  cbn [Qnum Qden].
  pose proof (Z.log2_spec n Hn) as [Hn1 Hn2].
  pose proof (Z.log2_spec (Z.pos d) (Pos2Z.is_pos d)) as [Hd1 Hd2].
  pose proof (Z.log2_nonneg n) as Ha. pose proof (Z.log2_nonneg (Z.pos d)) as Hb.
  set (a := Z.log2 n) in *. set (b := Z.log2 (Z.pos d)) in *.
  assert (HA : (0 < 2 ^ a)%Z) by (apply Z.pow_pos_nonneg; lia).
  assert (HB : (0 < 2 ^ b)%Z) by (apply Z.pow_pos_nonneg; lia).
  destruct (Qle_bool (2 ^ (a - b)) (n # d)) eqn:Hle.
  - apply Qle_bool_iff in Hle. split; [exact Hle |].
    replace (a - b + 1)%Z with (Z.succ a - b)%Z by lia.
    rewrite pow2_diff by lia.
    apply Qlt_shift_div_l; [change 0 with (inject_Z 0); rewrite <- Zlt_Qlt; exact HB |].
    unfold Qlt, Qmult, inject_Z. simpl. nia.
  - assert (Hlt : n # d < 2 ^ (a - b)).
    { apply Qnot_le_lt. intros Hc. apply Qle_bool_iff in Hc. congruence. }
    split.
    + replace (a - b - 1)%Z with (a - Z.succ b)%Z by lia.
      rewrite pow2_diff by lia.
      apply Qle_shift_div_r; [change 0 with (inject_Z 0); rewrite <- Zlt_Qlt;
                              apply Z.pow_pos_nonneg; lia |].
      unfold Qle, Qmult, inject_Z. simpl. nia.
    + replace (a - b - 1 + 1)%Z with (a - b)%Z by lia. exact Hlt.
Qed.
(** Below 128 the logarithm is at most 6. *)
Lemma ilog2_below_128 (q : Q) : 0 < q -> q < 128 -> (PyFloat.ilog2 q <= 6)%Z.
Proof.
  intros Hpos Hlt. unfold PyFloat.ilog2.
  set (k := (Z.log2 (Qnum q) - Z.log2 (Z.pos (Qden q)))%Z).
  destruct (Qle_bool (2 ^ k) q) eqn:Hle.
  - apply Qle_bool_iff in Hle.
    assert (Hk : 2 ^ k < 2 ^ 7).
    { apply Qle_lt_trans with q; [exact Hle |]. exact Hlt. }
    apply Qpower_lt_compat_l_inv in Hk; [lia | reflexivity].
  - destruct q as [n d]. unfold Qlt in Hpos, Hlt. simpl in Hpos, Hlt. subst k.
    cbn [Qnum Qden].
    assert (Hn : (Z.log2 n <= Z.log2 (Z.pos d * 128))%Z) by (apply Z.log2_le_mono; lia).
    change 128%Z with (2 ^ 7)%Z in Hn.
    rewrite Z.log2_mul_pow2 in Hn by lia. lia.
Qed.

(** Rounding a number below 128 in magnitude gives a finite float within
    [half_ulp] of it. *)
Lemma round64_err (q : Q) :
  Qabs q < 128 ->
  exists v, PyFloat.round64 q = PyFloat.Finite v /\ Qabs (v - q) <= half_ulp.
Proof.
  intros Hq. unfold PyFloat.round64.
  destruct (Qeq_bool q 0) eqn:Hz.
  - apply Qeq_bool_eq in Hz. exists 0. split; [reflexivity |].
    apply Qabs_Qle_condition. unfold half_ulp. lra.
  - apply Qeq_bool_neq in Hz.
    assert (Hpos : 0 < Qabs q).
    { pose proof (Qabs_nonneg q) as H0. destruct (Qle_lt_or_eq _ _ H0) as [Hl | He]; [exact Hl |].
      exfalso. apply Hz. revert He. apply Qabs_case; intros; lra. }
    set (e := Z.max (PyFloat.ilog2 (Qabs q) - 52) (-1074)).
    assert (He : (e <= -46)%Z).
    { pose proof (ilog2_below_128 _ Hpos Hq). subst e. lia. }
    pose proof (pow2_pos e) as HP. pose proof (pow2_le _ _ He) as HP'.
    rewrite half_ulp_pow2 in HP'.
    set (P := 2 ^ e) in *.
    pose proof (round_half_even_err (q / P)) as Hm.
    set (m := inject_Z (PyFloat.round_half_even (q / P))) in *.
    apply Qabs_Qle_condition in Hm.
    assert (Hx : q / P * P == q) by (field; lra).
    assert (Hv : Qabs (m * P - q) <= half_ulp).
    { apply Qabs_Qle_condition. destruct Hm as [Hm1 Hm2].
      assert (H1 : (m - q / P) * P <= (1 # 2) * P) by (apply Qmult_le_compat_r; lra).
      assert (H2 : - (1 # 2) * P <= (m - q / P) * P) by (apply Qmult_le_compat_r; lra).
      assert (H3 : (m - q / P) * P == m * P - q) by (rewrite <- Hx at 2; ring).
      rewrite H3 in H1, H2. unfold half_ulp in *. lra. }
    assert (HB : 129 < 2 ^ 1024) by reflexivity.
    set (B := 2 ^ 1024) in *.
    destruct (Qle_bool B (Qabs (m * P))) eqn:Hov.
    + exfalso. apply Qle_bool_iff in Hov.
      apply Qabs_Qle_condition in Hv. apply Qabs_Qlt_condition in Hq.
      revert Hov. apply Qabs_case; intros; unfold half_ulp in *; lra.
    + exists (Qred (m * P)). split; [reflexivity |]. rewrite Qred_correct. exact Hv.
Qed.

(** The percentage of a count in a positive total is the float nearest to
    a decimal with one digit after the point, [n / 10] for an integer [n]
    from 0 to 1000, and this decimal is within half a tenth, and the two
    binary roundings before it, of the exact percentage. *)
Lemma percentage_tenths (c T : Z) :
  (0 <= c <= T)%Z -> (0 < T)%Z ->
  exists (n : Z) (p : Q),
    percentage c T = Ok (PyFloat.Finite p) /\
    PyFloat.round64 (inject_Z n / 10) = PyFloat.Finite p /\
    (0 <= n <= 1000)%Z /\
    Qabs (inject_Z n / 10 - 100 * (inject_Z c / inject_Z T)) <= (1 # 20) + 101 * half_ulp /\
    Qabs (p - inject_Z n / 10) <= half_ulp.
Proof.
  intros [Hc0 HcT] HT. unfold percentage, PyFloat.truediv.
  destruct (Z.eqb_spec T 0) as [-> | _]; [lia |].
  assert (HTq : 0 < inject_Z T) by (change 0 with (inject_Z 0); rewrite <- Zlt_Qlt; exact HT).
  set (x := inject_Z c / inject_Z T).
  assert (Hx0 : 0 <= x).
  { subst x. apply Qle_shift_div_l; [exact HTq |]. rewrite Qmult_0_l.
    change 0 with (inject_Z 0). rewrite <- Zle_Qle. exact Hc0. }
  assert (Hx1 : x <= 1).
  { subst x. apply Qle_shift_div_r; [exact HTq |]. rewrite Qmult_1_l.
    rewrite <- Zle_Qle. exact HcT. }
  destruct (round64_err x) as (r1 & -> & H1).
  { apply Qabs_Qlt_condition. lra. }
  cbv beta iota delta [mbind outcome_bind PyFloat.mul]. apply Qabs_Qle_condition in H1.
  destruct (round64_err (r1 * 100)) as (r2 & -> & H2).
  { apply Qabs_Qlt_condition. unfold half_ulp in *. lra. }
  apply Qabs_Qle_condition in H2. unfold PyFloat.round1.
  pose proof (round_half_even_err (r2 * 10)) as Hn.
  set (m := PyFloat.round_half_even (r2 * 10)) in *.
  set (n := inject_Z m) in *.
  apply Qabs_Qle_condition in Hn.
  assert (Hdiv : n / 10 * 10 == n) by (field; lra).
  destruct (round64_err (n / 10)) as (p & Hp & H3).
  { apply Qabs_Qlt_condition. unfold half_ulp in *. lra. }
  exists m, p. fold n. rewrite Hp. split; [reflexivity |]. split; [reflexivity |].
  split; [| split].
  - assert (Hlo : inject_Z (-1) < n) by (change (inject_Z (-1)) with (-1); unfold half_ulp in *; lra).
    assert (Hhi : n < inject_Z 1001) by (change (inject_Z 1001) with 1001; unfold half_ulp in *; lra).
    unfold n in Hlo, Hhi. rewrite <- Zlt_Qlt in Hlo, Hhi. lia.
  - apply Qabs_Qle_condition. unfold half_ulp in *. lra.
  - exact H3.
Qed.

(** The percentage of a count in a positive total is finite and within half
    a tenth, and the three binary roundings, of the exact percentage. *)
Lemma percentage_err (c T : Z) :
  (0 <= c <= T)%Z -> (0 < T)%Z ->
  exists p, percentage c T = Ok (PyFloat.Finite p) /\
            Qabs (p - 100 * (inject_Z c / inject_Z T)) <= (1 # 20) + 102 * half_ulp.
Proof.
  intros Hc HT. destruct (percentage_tenths c T Hc HT) as (n & p & Hp & _ & _ & Hn & Hpn).
  exists p. split; [exact Hp |].
  apply Qabs_Qle_condition in Hn. apply Qabs_Qle_condition in Hpn.
  apply Qabs_Qle_condition. unfold half_ulp in *. lra.
Qed.

End FloatFacts.

(* ===================================================================== *)
(** * Cross-repository totals *)
(* ===================================================================== *)

Section MergeFacts.

Context `{Countable K}.

Lemma dict_add_nonneg (k : K) (v : Z) (d : gmap K Z) :
  nonneg d -> 0 <= v -> nonneg (dict_add k v d).
Proof.
  intros Hd Hv j c. rewrite dict_add_lookup. destruct (decide (k = j)) as [<- | Hne].
  - intros [= <-]. destruct (d !! k) as [x|] eqn:Hk; simpl; [| lia].
    specialize (Hd k x Hk). lia.
  - apply Hd.
Qed.

Lemma merge_step_nonneg (all d : gmap K Z) :
  nonneg all -> nonneg d ->
  nonneg (map_fold (fun k count all => dict_add k count all) all d).
Proof.
  intros Hall. revert d.
  apply (map_fold_weak_ind (fun r m => nonneg m -> nonneg r)).
  - intros _. exact Hall.
  - intros i x m r Hi IH Hins. apply dict_add_nonneg.
    + apply IH. intros k c Hk. apply (Hins k c).
      rewrite lookup_insert_ne; [exact Hk | congruence].
    + apply (Hins i x). apply lookup_insert_eq.
Qed.

Lemma merge_dicts_nonneg {A} (d : A -> gmap K Z) (l : list A) :
  (forall a, a ∈ l -> nonneg (d a)) -> nonneg (merge_dicts d l).
Proof.
  unfold merge_dicts.
  assert (Hgen : forall acc, nonneg acc -> (forall a, a ∈ l -> nonneg (d a)) ->
            nonneg (fold_left (fun all repo =>
                      map_fold (fun k count all => dict_add k count all) all (d repo)) l acc)).
  { induction l as [|a l IH]; intros acc Hacc Hl; simpl; [exact Hacc |].
    apply IH.
    - apply merge_step_nonneg; [exact Hacc | apply Hl; left].
    - intros b Hb. apply Hl. right. exact Hb. }
  intros Hl. apply Hgen; [| exact Hl]. intros k c. rewrite lookup_empty. discriminate.
Qed.

End MergeFacts.

(** The sum of the values of a dictionary of categories, category by
    category *)
Lemma dict_sum_by_category (d : gmap ContributionType Z) :
  dict_sum d = total (count_of d) ContributionType_values.
Proof.
  induction d as [|i x d Hi IH] using map_ind.
  - rewrite dict_sum_empty. reflexivity.
  - rewrite dict_sum_insert_fresh by exact Hi. rewrite IH.
    unfold total, ContributionType_values, count_of. cbn [foldr].
    rewrite !lookup_insert.
    destruct i; repeat (case_decide; try congruence); rewrite Hi; simpl; lia.
Qed.

Lemma count_of_nonneg (d : gmap ContributionType Z) (k : ContributionType) :
  nonneg d -> 0 <= count_of d k.
Proof.
  intros Hd. unfold count_of. destruct (d !! k) as [c|] eqn:Hk; simpl; [| lia].
  exact (Hd k c Hk).
Qed.

Lemma count_le_sum (d : gmap ContributionType Z) (k : ContributionType) :
  nonneg d -> count_of d k <= dict_sum d.
Proof.
  intros Hd. rewrite dict_sum_by_category.
  unfold total, ContributionType_values. cbn [foldr].
  pose proof (count_of_nonneg d PRODUCTION_CODE Hd). pose proof (count_of_nonneg d TESTS Hd).
  pose proof (count_of_nonneg d DOCUMENTATION Hd). pose proof (count_of_nonneg d SPECS_CONFIG Hd).
  pose proof (count_of_nonneg d INFRASTRUCTURE Hd). pose proof (count_of_nonneg d STYLING Hd).
  pose proof (count_of_nonneg d OTHER Hd).
  destruct k; lia.
Qed.

(** The loop that fills [contribution_percentages] *)
Lemma percentages_loop (total_lines : Z) (items : list (ContributionType * Z))
    (acc : gmap ContributionType PyFloat.t) :
  NoDup (items.*1) ->
  (forall k c, (k, c) ∈ items -> exists p, percentage c total_lines = Ok p) ->
  exists d,
    foldM (fun d item => p ← percentage (snd item) total_lines; Ok (<[fst item := p]> d))
      items acc = Ok d /\
    (forall k c, (k, c) ∈ items -> d !! k = Some (percentage_value total_lines c)) /\
    (forall k, k ∉ items.*1 -> d !! k = acc !! k).
Proof.
  revert acc. induction items as [|[k0 c0] items IH]; intros acc Hnd Hok.
  - exists acc. split; [reflexivity |]. split; [| reflexivity].
    intros k c Hin. apply elem_of_nil in Hin. contradiction.
  - apply NoDup_cons in Hnd as [Hk0 Hnd].
    destruct (Hok k0 c0) as [p0 Hp0]; [left |].
    destruct (IH (<[k0 := p0]> acc) Hnd) as (d & Hd & Hin & Hout).
    { intros k c Hkc. apply (Hok k c). right. exact Hkc. }
    exists d. split; [| split].
    + cbn [foldM]. cbn [fst snd]. rewrite Hp0. exact Hd.
    + intros k c Hkc. apply elem_of_cons in Hkc as [Heq | Hkc].
      * injection Heq as -> ->. rewrite (Hout k0 Hk0), lookup_insert_eq.
        unfold percentage_value. rewrite Hp0. reflexivity.
      * apply Hin, Hkc.
    + intros k Hk. cbn [fmap list_fmap fst] in Hk. apply not_elem_of_cons in Hk as [Hne Hk].
      rewrite (Hout k Hk). apply lookup_insert_ne. congruence.
Qed.

Section PercentageSums.

Local Open Scope Q_scope.

Lemma sum_of_fractions (c : ContributionType -> Z) (T : Z) (l : list ContributionType) :
  fold_right Qplus 0 (map (fun k => inject_Z (c k) / inject_Z T) l)
  == inject_Z (total c l) / inject_Z T.
Proof.
  induction l as [|k l IH]; simpl.
  - unfold Qdiv. rewrite Qmult_0_l. reflexivity.
  - rewrite IH, inject_Z_plus. unfold Qdiv. ring.
Qed.

Lemma sum_of_errors (v x : ContributionType -> Q) (eps : Q) (l : list ContributionType) :
  (forall k, Qabs (v k - 100 * x k) <= eps) ->
  Qabs (fold_right Qplus 0 (map v l) - 100 * fold_right Qplus 0 (map x l))
  <= inject_Z (Z.of_nat (length l)) * eps.
Proof.
  intros Hk. induction l as [|k l IH].
  - cbn [map fold_right length]. change (inject_Z (Z.of_nat 0)) with 0.
    apply Qabs_Qle_condition. lra.
  - cbn [map fold_right length]. rewrite Nat2Z.inj_succ. unfold Z.succ. rewrite inject_Z_plus.
    change (inject_Z 1) with 1.
    specialize (Hk k). apply Qabs_Qle_condition in Hk, IH. apply Qabs_Qle_condition. lra.
Qed.

End PercentageSums.

(* ===================================================================== *)
(** * The counters of an analyzed repository are non-negative *)
(* ===================================================================== *)

Section CounterSigns.

Variable W : World.

Lemma open_commit_nonneg (st : parse_state) (p0 p1 p2 p3 p4 : string) :
  nonneg (ps_contribution_types st) ->
  nonneg (ps_contribution_types (open_commit W st p0 p1 p2 p3 p4)).
Proof.
  destruct (all_commits_open_commit W st p0 p1 p2 p3 p4) as (d & _ & -> & _). auto.
Qed.

Lemma numstat_line_nonneg (st : parse_state) (line : string) :
  nonneg (ps_contribution_types st) ->
  nonneg (ps_contribution_types (numstat_line st line)).
Proof.
  intros Hst. unfold numstat_line.
  destruct (numstat_match line) as [[[g1 g2] filepath]|] eqn:Hm; [| exact Hst].
  destruct (ps_current st) as [cur|]; [| exact Hst].
  destruct (numstat_match_counts _ _ _ _ Hm) as [Ha Hr]. simpl.
  apply dict_add_nonneg; [exact Hst | lia].
Qed.

Lemma parse_line_nonneg (st : parse_state) (line : string) :
  nonneg (ps_contribution_types st) ->
  nonneg (ps_contribution_types (parse_line W st line)).
Proof.
  intros Hst. unfold parse_line.
  destruct (negb (PyStr.truthy (PyStr.strip line))); [exact Hst |].
  unfold commit_line.
  destruct (PyStr.contains "|" (PyStr.strip line) && (4 <=? PyStr.count "|" (PyStr.strip line)));
    [| apply numstat_line_nonneg; exact Hst].
  destruct (PyStr.split_max "|" 4 (PyStr.strip line)) as [|p0 [|p1 [|p2 [|p3 [|p4 [|p5 l]]]]]];
    try (apply numstat_line_nonneg; exact Hst).
  apply open_commit_nonneg; exact Hst.
Qed.

Lemma parse_lines_nonneg (lines : list string) (st : parse_state) :
  nonneg (ps_contribution_types st) ->
  nonneg (ps_contribution_types (parse_lines W lines st)).
Proof.
  revert st. induction lines as [|line lines IH]; intros st Hst; simpl; [exact Hst |].
  apply IH, parse_line_nonneg, Hst.
Qed.

(** A successful analysis appends statistics with non-negative contribution
    counters, so this is an invariant of the analyzer's collection. *)
Lemma analyze_repo_keeps_nonneg (self : GitAnalyzer.t) (repo_path : string) :
  (forall repo, repo ∈ GitAnalyzer._repos self -> nonneg (RepoStats.contribution_types repo)) ->
  forall repo, repo ∈ GitAnalyzer._repos (snd (analyze_repo W self repo_path)) ->
               nonneg (RepoStats.contribution_types repo).
Proof.
  intros Hself repo.
  destruct (analyze_repo W self repo_path) as [[[stats|]|e] self'] eqn:Hres.
  - destruct (analyze_repo_success W _ _ _ _ Hres) as (output & _ & _ & _ & _ & _ & _ & Hct & _ & Hrepos).
    simpl. rewrite Hrepos. intros Hin. apply elem_of_app in Hin as [Hin | Hin].
    + apply Hself, Hin.
    + apply list_elem_of_singleton in Hin. subst repo. rewrite Hct.
      apply parse_lines_nonneg. intros k c. simpl. rewrite lookup_empty. discriminate.
  - rewrite (analyze_repo_unchanged W self self' repo_path _ Hres) by discriminate.
    apply Hself.
  - rewrite (analyze_repo_unchanged W self self' repo_path _ Hres) by discriminate.
    apply Hself.
Qed.

End CounterSigns.


Section TotalStatsFacts.

Lemma contribution_percentages_zero (d : gmap ContributionType Z) :
  dict_sum d <= 0 -> contribution_percentages_of d = Ok ∅.
Proof.
  intros Hd. unfold contribution_percentages_of.
  destruct (Z.ltb_spec 0 (dict_sum d)); [lia | reflexivity].
Qed.

Lemma lookup_count_of (d : gmap ContributionType Z) (k : ContributionType) (c : Z) :
  d !! k = Some c -> count_of d k = c.
Proof. unfold count_of. intros ->. reflexivity. Qed.

Lemma contribution_percentages_positive (d : gmap ContributionType Z) :
  0 < dict_sum d -> nonneg d ->
  exists pcts,
    contribution_percentages_of d = Ok pcts /\
    (forall k, d !! k = None -> pcts !! k = None) /\
    (forall k c, d !! k = Some c ->
       exists p, percentage c (dict_sum d) = Ok (PyFloat.Finite p) /\
                 pcts !! k = Some (PyFloat.Finite p) /\
                 (Qabs (p - 100 * (inject_Z c / inject_Z (dict_sum d)))
                  <= (1 # 20) + 102 * half_ulp)%Q /\
                 exists n, PyFloat.round64 (inject_Z n / 10) = PyFloat.Finite p /\
                           0 <= n <= 1000 /\
                           (Qabs (inject_Z n / 10 - 100 * (inject_Z c / inject_Z (dict_sum d)))
                            <= (1 # 20) + 101 * half_ulp)%Q) /\
    (Qabs (percentages_total pcts - 100) <= (7 # 20) + (1 # 100000000000))%Q.
Proof.
  intros HT Hd. unfold contribution_percentages_of.
  destruct (Z.ltb_spec 0 (dict_sum d)) as [_ | Hle]; [| lia].
  set (T := dict_sum d) in *.
  assert (Hperc : forall k c, d !! k = Some c ->
            exists p, percentage c T = Ok (PyFloat.Finite p) /\
              (Qabs (p - 100 * (inject_Z c / inject_Z T)) <= (1 # 20) + 102 * half_ulp)%Q).
  { intros k c Hk. apply percentage_err; [| exact HT]. split; [exact (Hd k c Hk) |].
    rewrite <- (lookup_count_of d k c Hk). apply count_le_sum, Hd. }
  assert (Hrange : forall k c, d !! k = Some c -> 0 <= c <= T).
  { intros k c Hk. split; [exact (Hd k c Hk) |].
    rewrite <- (lookup_count_of d k c Hk). apply count_le_sum, Hd. }
  destruct (percentages_loop T (map_to_list d) ∅ (NoDup_fst_map_to_list d))
    as (pcts & Hloop & Hin & Hout).
  { intros k c Hkc. apply elem_of_map_to_list in Hkc.
    destruct (Hperc k c Hkc) as (p & Hp & _). eauto. }
  assert (Hnone : forall k, d !! k = None -> pcts !! k = None).
  { intros k Hk. rewrite Hout; [apply lookup_empty |].
    intros Hmem. apply list_elem_of_fmap in Hmem as ([k' c] & -> & Hkc).
    apply elem_of_map_to_list in Hkc. simpl in Hk. congruence. }
  assert (Hsome : forall k c, d !! k = Some c ->
            exists p, percentage c T = Ok (PyFloat.Finite p) /\
                      pcts !! k = Some (PyFloat.Finite p) /\
                      (Qabs (p - 100 * (inject_Z c / inject_Z T)) <= (1 # 20) + 102 * half_ulp)%Q).
  { intros k c Hk. destruct (Hperc k c Hk) as (p & Hp & Herr). exists p.
    split; [exact Hp |]. split; [| exact Herr].
    rewrite (Hin k c) by (apply elem_of_map_to_list; exact Hk).
    unfold percentage_value. rewrite Hp. reflexivity. }
  assert (Htenth : forall k c, d !! k = Some c ->
            exists p, percentage c T = Ok (PyFloat.Finite p) /\
                      pcts !! k = Some (PyFloat.Finite p) /\
                      (Qabs (p - 100 * (inject_Z c / inject_Z T)) <= (1 # 20) + 102 * half_ulp)%Q /\
                      exists n, PyFloat.round64 (inject_Z n / 10) = PyFloat.Finite p /\
                                0 <= n <= 1000 /\
                                (Qabs (inject_Z n / 10 - 100 * (inject_Z c / inject_Z T))
                                 <= (1 # 20) + 101 * half_ulp)%Q).
  { intros k c Hk. destruct (Hsome k c Hk) as (p & Hp & Hpk & Herr).
    destruct (percentage_tenths c T (Hrange k c Hk) HT) as (n & p' & Hp' & Hr & Hn & Hnerr & _).
    assert (p' = p) by congruence. subst p'.
    exists p. split; [exact Hp |]. split; [exact Hpk |]. split; [exact Herr |].
    exists n. split; [exact Hr |]. split; [exact Hn | exact Hnerr]. }
  exists pcts. split; [exact Hloop |]. split; [exact Hnone |]. split; [exact Htenth |].
  assert (Hk : forall k,
            (Qabs (percent_of pcts k - 100 * (inject_Z (count_of d k) / inject_Z T))
             <= (1 # 20) + 102 * half_ulp)%Q).
  { intros k. unfold percent_of, count_of. destruct (d !! k) as [c|] eqn:Hdk.
    - destruct (Hsome k c Hdk) as (p & _ & -> & Herr). exact Herr.
    - rewrite (Hnone k Hdk). cbv beta iota delta [from_option].
      assert (H0 : (inject_Z 0 / inject_Z T == 0)%Q)
        by (unfold Qdiv; change (inject_Z 0) with 0%Q; apply Qmult_0_l).
      rewrite H0. apply Qabs_Qle_condition. unfold half_ulp. lra. }
  pose proof (sum_of_errors (percent_of pcts)
                (fun k => (inject_Z (count_of d k) / inject_Z T)%Q)
                ((1 # 20) + 102 * half_ulp)%Q ContributionType_values Hk) as Hsum.
  rewrite (sum_of_fractions (count_of d) T ContributionType_values) in Hsum.
  rewrite <- dict_sum_by_category in Hsum. fold T in Hsum.
  assert (HTq : (0 < inject_Z T)%Q) by (change 0%Q with (inject_Z 0); rewrite <- Zlt_Qlt; exact HT).
  assert (Hone : (inject_Z T / inject_Z T == 1)%Q) by (field; lra).
  rewrite Hone in Hsum.
  change (fold_right Qplus 0%Q (map (percent_of pcts) ContributionType_values))
    with (percentages_total pcts) in Hsum.
  change (inject_Z (Z.of_nat (length ContributionType_values))) with 7%Q in Hsum.
  apply Qabs_Qle_condition in Hsum. apply Qabs_Qle_condition.
  unfold half_ulp in Hsum. lra.
Qed.

(** The contribution counters of every repository of an analyzer the
    program builds are non-negative. *)
Lemma analyzed_nonneg (self : GitAnalyzer.t) :
  analyzed self ->
  forall repo, repo ∈ GitAnalyzer._repos self -> nonneg (RepoStats.contribution_types repo).
Proof.
  induction 1 as [author_email author_name | W self repo_path _ IH].
  - intros repo Hin. apply elem_of_nil in Hin. contradiction.
  - apply analyze_repo_keeps_nonneg, IH.
Qed.

(** C5: on the repositories the analyzer has collected, with no classified
    line [get_total_stats] returns and the percentage mapping is empty; with
    a positive total it returns, a category has a percentage exactly when it
    has a count, the percentage is [round((count / total) * 100, 1)]: the
    float nearest to a decimal with one digit after the point, [n / 10] for
    an integer [n] from 0 to 1000, which is within half a tenth (and the
    binary roundings) of the exact percentage; and the percentages add up to
    100 within seven half tenths (and the binary roundings). *)
Theorem contribution_percentages_sum (self : GitAnalyzer.t) :
  analyzed self ->
  let all := merge_dicts RepoStats.contribution_types (GitAnalyzer._repos self) in
  let total_lines := dict_sum all in
  (total_lines <= 0 ->
   exists stats, get_total_stats self = Ok stats /\
                 TotalStats.contribution_percentages stats = ∅) /\
  (0 < total_lines ->
   exists stats,
     get_total_stats self = Ok stats /\
     TotalStats.contribution_types stats = all /\
     (forall k, all !! k = None -> TotalStats.contribution_percentages stats !! k = None) /\
     (forall k count, all !! k = Some count ->
        exists p, percentage count total_lines = Ok (PyFloat.Finite p) /\
                  TotalStats.contribution_percentages stats !! k = Some (PyFloat.Finite p) /\
                  (Qabs (p - 100 * (inject_Z count / inject_Z total_lines))
                   <= (1 # 20) + 102 * half_ulp)%Q /\
                  exists n, PyFloat.round64 (inject_Z n / 10) = PyFloat.Finite p /\
                            0 <= n <= 1000 /\
                            (Qabs (inject_Z n / 10 - 100 * (inject_Z count / inject_Z total_lines))
                             <= (1 # 20) + 101 * half_ulp)%Q) /\
     (Qabs (percentages_total (TotalStats.contribution_percentages stats) - 100)
      <= (7 # 20) + (1 # 100000000000))%Q).
Proof.
  intros Hself all total_lines. split.
  - intros Hz. unfold get_total_stats. fold all.
    rewrite (contribution_percentages_zero all Hz).
    eexists. split; reflexivity.
  - intros Hpos.
    assert (Hall : nonneg all) by (apply merge_dicts_nonneg, analyzed_nonneg, Hself).
    destruct (contribution_percentages_positive all Hpos Hall)
      as (pcts & Hp & Hnone & Hsome & Hsum).
    unfold get_total_stats. fold all. rewrite Hp.
    eexists. split; [reflexivity |]. simpl.
    split; [reflexivity |]. split; [exact Hnone |]. split; [exact Hsome | exact Hsum].
Qed.

End TotalStatsFacts.
(* ===================================================================== *)
(** * The statements at the demo repository *)
(* ===================================================================== *)

Lemma totals_are_commit_sums_witness :
  RepoStats.total_lines_added demo_repo
  = total CommitInfo.lines_added (RepoStats.commits demo_repo) /\
  RepoStats.total_lines_removed demo_repo
  = total CommitInfo.lines_removed (RepoStats.commits demo_repo) /\
  RepoStats.total_files_changed demo_repo
  = total CommitInfo.files_changed (RepoStats.commits demo_repo).
Proof.
  apply (totals_are_commit_sums (demo_world (CompletedProcess 0 demo_log))
           demo_analyzer demo_analyzed "repo" demo_repo).
  vm_compute. reflexivity.
Defined.

Lemma contribution_counters_add_up_witness :
  dict_sum (RepoStats.contribution_types demo_repo)
  = RepoStats.total_lines_added demo_repo + RepoStats.total_lines_removed demo_repo /\
  dict_sum (RepoStats.languages demo_repo)
  <= RepoStats.total_lines_added demo_repo + RepoStats.total_lines_removed demo_repo.
Proof.
  apply (contribution_counters_add_up (demo_world (CompletedProcess 0 demo_log))
           demo_analyzer demo_analyzed "repo" demo_repo).
  vm_compute. reflexivity.
Defined.



Lemma contribution_percentages_sum_witness :
  exists stats,
    get_total_stats demo_analyzed = Ok stats /\
    (Qabs (percentages_total (TotalStats.contribution_percentages stats) - 100)
     <= (7 # 20) + (1 # 100000000000))%Q.
Proof.
  pose proof (analyzed_repo (demo_world (CompletedProcess 0 demo_log))
                demo_analyzer "repo" (analyzed_new None None)) as Hdemo.
  vm_compute in Hdemo.
  destruct (proj2 (contribution_percentages_sum demo_analyzed Hdemo))
    as (stats & Hs & _ & _ & _ & Hsum).
  - vm_compute. reflexivity.
  - exists stats. split; [exact Hs | exact Hsum].
Defined.

(* ===================================================================== *)
(** * Further properties of the parser *)
(* ===================================================================== *)

Lemma cut_app (c : ascii) (s l r : string) :
  PyStr.cut c s = Some (l, r) -> s = l +:+ String c r /\ PyStr.count c l = 0.
Proof.
  revert l r. induction s as [|a s IH]; intros l r; simpl; [discriminate |].
  destruct (Ascii.eqb a c) eqn:Ha.
  - intros [= <- <-]. apply Ascii.eqb_eq in Ha. subst a. split; reflexivity.
  - destruct (PyStr.cut c s) as [[l' r']|]; [| discriminate].
    intros [= <- <-]. destruct (IH l' r' eq_refl) as [-> Hl]. simpl.
    rewrite Ha, Hl. split; reflexivity.
Qed.

Lemma split_max_nonempty (c : ascii) (n : nat) (s : string) : PyStr.split_max c n s <> [].
Proof. destruct n; simpl; [discriminate |]. destruct (PyStr.cut c s) as [[l r]|]; discriminate. Qed.

(** Joining what [split] gives, with the separator, gives the string back. *)
Lemma split_max_join (c : ascii) (n : nat) (s : string) :
  str_join (String c EmptyString) (PyStr.split_max c n s) = s.
Proof.
  revert s. induction n as [|n IH]; intros s; simpl; [reflexivity |].
  destruct (PyStr.cut c s) as [[l r]|] eqn:Hcut; [| reflexivity].
  destruct (cut_app c s l r Hcut) as [-> _].
  specialize (IH r). pose proof (split_max_nonempty c n r) as Hne.
  destruct (PyStr.split_max c n r) as [|p rest]; [congruence |].
  change (str_join (String c EmptyString) (l :: p :: rest))
    with (l +:+ String c EmptyString +:+ str_join (String c EmptyString) (p :: rest)).
  rewrite IH. clear. induction l as [|a l IHl]; simpl; [reflexivity | f_equal; exact IHl].
Qed.

(** All parts but the last of a split hold no separator. *)
Lemma split_max_parts (c : ascii) (n : nat) (s : string) (parts : list string) (last : string) :
  PyStr.split_max c n s = parts ++ [last] ->
  Forall (fun p => PyStr.count c p = 0) parts.
Proof.
  revert s parts. induction n as [|n IH]; intros s parts; simpl.
  - destruct parts as [|p [|q parts]]; simpl; intros [=]; constructor.
  - destruct (PyStr.cut c s) as [[l r]|] eqn:Hcut.
    + destruct parts as [|p parts]; simpl.
      * intros [= -> Hnil]. exfalso. exact (split_max_nonempty c n r Hnil).
      * intros [= <- Hrest]. constructor; [exact (proj2 (cut_app c s l r Hcut)) |].
        exact (IH r parts Hrest).
    + destruct parts as [|p [|q parts]]; simpl; intros [=]; constructor.
Qed.

Lemma count_app (c : ascii) (a b : string) :
  PyStr.count c (a +:+ b) = PyStr.count c a + PyStr.count c b.
Proof.
  induction a as [|x a IH]; [reflexivity |].
  change (PyStr.count c (String x a +:+ b))
    with ((if Ascii.eqb x c then 1 else 0) + PyStr.count c (a +:+ b)).
  rewrite IH. simpl. lia.
Qed.

Section ParserMore.

Variable W : World.

(** X1: the five fields of a commit line, joined by bars, are the stripped
    line: hash, author, e-mail address and date hold no bar and the subject
    keeps every further bar. *)
Theorem header_fields_round_trip (line : string) (p0 p1 p2 p3 p4 : string) :
  PyStr.split_max "|"%char 4 line = [p0; p1; p2; p3; p4] ->
  p0 +:+ "|" +:+ p1 +:+ "|" +:+ p2 +:+ "|" +:+ p3 +:+ "|" +:+ p4 = line /\
  PyStr.count "|"%char p0 = 0 /\ PyStr.count "|"%char p1 = 0 /\
  PyStr.count "|"%char p2 = 0 /\ PyStr.count "|"%char p3 = 0 /\
  PyStr.count "|"%char p4 = PyStr.count "|"%char line - 4.
Proof.
  intros Hs. pose proof (split_max_join "|"%char 4 line) as Hj. rewrite Hs in Hj.
  pose proof (split_max_parts "|"%char 4 line [p0; p1; p2; p3] p4 Hs) as Hp.
  apply Forall_cons in Hp as [H0 Hp]. apply Forall_cons in Hp as [H1 Hp].
  apply Forall_cons in Hp as [H2 Hp]. apply Forall_cons in Hp as [H3 _].
  split; [exact Hj |]. do 4 (split; [assumption |]).
  rewrite <- Hj. simpl str_join. rewrite !count_app, H0, H1, H2, H3. simpl. lia.
Qed.

End ParserMore.

Lemma header_fields_round_trip_witness :
  "a1" +:+ "|" +:+ "Ann" +:+ "|" +:+ "ann@example.org" +:+ "|" +:+ "2024-01-01" +:+ "|"
    +:+ "fix a|b" = "a1|Ann|ann@example.org|2024-01-01|fix a|b" /\
  PyStr.count "|"%char "fix a|b" = PyStr.count "|"%char "a1|Ann|ann@example.org|2024-01-01|fix a|b" - 4.
Proof.
  destruct (header_fields_round_trip "a1|Ann|ann@example.org|2024-01-01|fix a|b"
              "a1" "Ann" "ann@example.org" "2024-01-01" "fix a|b") as (H & _ & _ & _ & _ & H4).
  - reflexivity.
  - split; [exact H | exact H4].
Defined.

Lemma classify_fields (path : string) (a r : Z) :
  lines_added (FileClassifier.classify path a r) = a /\
  lines_removed (FileClassifier.classify path a r) = r /\
  file_path (FileClassifier.classify path a r) = path.
Proof.
  unfold FileClassifier.classify; cbv zeta;
    repeat match goal with
           | |- context [if ?b then _ else _] => destruct b
           end; auto.
Qed.

Section ParserCommits.

Variable W : World.

Lemma all_commits_numstat_line (st : parse_state) (line : string) :
  all_commits (numstat_line st line) = all_commits st \/
  exists cur g1 g2 filepath,
    ps_current st = Some cur /\
    numstat_match line = Some (g1, g2, filepath) /\
    all_commits st = ps_commits st ++ [cur] /\
    all_commits (numstat_line st line)
    = ps_commits st ++
      [CommitInfo.mk (CommitInfo.hash cur) (CommitInfo.author cur) (CommitInfo.email cur)
         (CommitInfo.date cur) (CommitInfo.message cur)
         (CommitInfo.files_changed cur + 1)
         (CommitInfo.lines_added cur + numstat_count g1)
         (CommitInfo.lines_removed cur + numstat_count g2)
         (CommitInfo.file_classifications cur
          ++ [FileClassifier.classify filepath (numstat_count g1) (numstat_count g2)])].
Proof.
  unfold numstat_line.
  destruct (numstat_match line) as [[[g1 g2] filepath]|] eqn:Hm; [| left; reflexivity].
  destruct (ps_current st) as [cur|] eqn:Hcur; [| left; reflexivity].
  right. exists cur, g1, g2, filepath. unfold all_commits. rewrite Hcur. simpl.
  repeat split; reflexivity.
Qed.

(** The step of the loop seen on the list of commits *)
Lemma parse_line_commits (st : parse_state) (line : string) :
  (exists p0 p1 p2 p3 p4 d,
     4 <= PyStr.count "|"%char (PyStr.strip line) /\
     PyStr.split_max "|"%char 4 (PyStr.strip line) = [p0; p1; p2; p3; p4] /\
     all_commits (parse_line W st line)
     = all_commits st ++ [CommitInfo.mk p0 p1 p2 d p4 0 0 0 []]) \/
  (PyStr.count "|"%char (PyStr.strip line) < 4 /\
   parse_line W st line = numstat_line st (PyStr.strip line)) \/
  (PyStr.count "|"%char (PyStr.strip line) < 4 /\ parse_line W st line = st).
Proof.
  destruct (parse_line_cases W st line) as (H1 & H2 & H3).
  destruct (Z.le_gt_cases 4 (PyStr.count "|"%char (PyStr.strip line))) as [H4 | H4].
  - left. destruct H2 as (p0 & p1 & p2 & p3 & p4 & Hs & Hp); [| exact H4 |].
    { intros He. rewrite He in H4. simpl in H4. lia. }
    destruct (all_commits_open_commit W st p0 p1 p2 p3 p4) as (d & Ha & _).
    exists p0, p1, p2, p3, p4, d. rewrite Hp. repeat split; assumption.
  - destruct (PyStr.strip line) as [|a l] eqn:Hl.
    + right. right. split; [simpl; lia | apply H1; reflexivity].
    + right. left. split; [exact H4 |]. apply H3; [discriminate | exact H4].
Qed.

Lemma header_of_some (line : string) (p0 p1 p2 p3 p4 : string) :
  4 <= PyStr.count "|"%char (PyStr.strip line) ->
  PyStr.split_max "|"%char 4 (PyStr.strip line) = [p0; p1; p2; p3; p4] ->
  header_of line = Some (p0, p1, p2, p4).
Proof.
  intros H4 Hs. unfold header_of. rewrite Hs. apply Z.leb_le in H4. rewrite H4. reflexivity.
Qed.

Lemma header_of_none (line : string) :
  PyStr.count "|"%char (PyStr.strip line) < 4 -> header_of line = None.
Proof. intros H4. unfold header_of. apply Z.leb_gt in H4. rewrite H4. reflexivity. Qed.

Lemma parse_line_keys (st : parse_state) (line : string) :
  map commit_key (all_commits (parse_line W st line))
  = map commit_key (all_commits st) ++ option_list (header_of line).
Proof.
  destruct (parse_line_commits st line)
    as [(p0 & p1 & p2 & p3 & p4 & d & H4 & Hs & Ha) | [[H4 Hp] | [H4 Hp]]].
  - rewrite Ha, map_app, (header_of_some line p0 p1 p2 p3 p4 H4 Hs). reflexivity.
  - rewrite Hp, (header_of_none line H4). simpl. rewrite app_nil_r.
    destruct (all_commits_numstat_line st (PyStr.strip line))
      as [-> | (cur & g1 & g2 & fp & _ & _ & Hold & ->)]; [reflexivity |].
    rewrite Hold, !map_app. reflexivity.
  - rewrite Hp, (header_of_none line H4). simpl. rewrite app_nil_r. reflexivity.
Qed.

Lemma parse_lines_keys (lines : list string) (st : parse_state) :
  map commit_key (all_commits (parse_lines W lines st))
  = map commit_key (all_commits st) ++ omap header_of lines.
Proof.
  unfold parse_lines. revert st. induction lines as [|line lines IH]; intros st; simpl.
  - rewrite app_nil_r. reflexivity.
  - rewrite IH, parse_line_keys, <- app_assoc. f_equal.
    destruct (header_of line); reflexivity.
Qed.

(** X2: the parser gives one commit for each commit line of the log, in the
    order of the log, with the hash, author, e-mail address and subject of
    that line; no other line adds, drops or reorders a commit, and the commit
    open at the end of the log is not lost. *)
Theorem commits_follow_commit_lines (output : string) :
  map commit_key (parsed_commits W output) = omap header_of (PyStr.split PyStr.NL output).
Proof. rewrite parsed_commits_all, parse_lines_keys. reflexivity. Qed.

Lemma commit_consistent_new (p0 p1 p2 p4 : string) (d : datetime) :
  commit_consistent (CommitInfo.mk p0 p1 p2 d p4 0 0 0 []).
Proof. repeat split; constructor. Qed.

Lemma parse_line_consistent (st : parse_state) (line : string) :
  Forall commit_consistent (all_commits st) ->
  Forall commit_consistent (all_commits (parse_line W st line)).
Proof.
  intros Hst.
  destruct (parse_line_commits st line)
    as [(p0 & p1 & p2 & p3 & p4 & d & _ & _ & ->) | [[_ ->] | [_ ->]]]; [| | exact Hst].
  - apply Forall_app. split; [exact Hst |]. constructor; [apply commit_consistent_new | constructor].
  - destruct (all_commits_numstat_line st (PyStr.strip line))
      as [-> | (cur & g1 & g2 & fp & _ & Hm & Hold & ->)]; [exact Hst |].
    rewrite Hold in Hst. apply Forall_app in Hst as [Hcommits Hcur].
    apply Forall_cons in Hcur as [(Hf & Ha & Hr & Hpos) _].
    destruct (numstat_match_counts _ _ _ _ Hm) as [Hg1 Hg2].
    destruct (classify_fields fp (numstat_count g1) (numstat_count g2)) as (Ca & Cr & _).
    apply Forall_app. split; [exact Hcommits |]. constructor; [| constructor].
    unfold commit_consistent. simpl.
    rewrite length_app, !total_app, Hf, Ha, Hr. simpl. rewrite Ca, Cr.
    split; [lia |]. split; [lia |]. split; [lia |].
    apply Forall_app. split; [exact Hpos |]. constructor; [| constructor].
    rewrite Ca, Cr. split; assumption.
Qed.

Lemma parsed_commits_all_consistent (output : string) :
  Forall commit_consistent (parsed_commits W output).
Proof.
  rewrite parsed_commits_all. unfold parse_lines.
  assert (Hgen : forall lines st, Forall commit_consistent (all_commits st) ->
            Forall commit_consistent (all_commits (fold_left (parse_line W) lines st))).
  { induction lines as [|line lines IH]; intros st Hst; simpl; [exact Hst |].
    apply IH, parse_line_consistent, Hst. }
  apply Hgen. constructor.
Qed.

(** X3: in every commit the parser gives, the file count is the number of
    file classifications, the added and removed lines are the sums over
    them, and no classification has a negative count. *)
Theorem parsed_commits_consistent (output : string) :
  Forall commit_consistent (parsed_commits W output).
Proof. exact (parsed_commits_all_consistent output). Qed.

End ParserCommits.

Section ParserCounters.

Variable W : World.

Lemma numstat_line_effect (st : parse_state) (line : string) :
  numstat_line st line = st \/
  exists cur g1 g2 filepath,
    ps_current st = Some cur /\
    numstat_match line = Some (g1, g2, filepath) /\
    let fc := FileClassifier.classify filepath (numstat_count g1) (numstat_count g2) in
    let n := numstat_count g1 + numstat_count g2 in
    numstat_line st line
    = mk_parse_state (ps_commits st)
        (Some (CommitInfo.mk (CommitInfo.hash cur) (CommitInfo.author cur) (CommitInfo.email cur)
                 (CommitInfo.date cur) (CommitInfo.message cur)
                 (CommitInfo.files_changed cur + 1)
                 (CommitInfo.lines_added cur + numstat_count g1)
                 (CommitInfo.lines_removed cur + numstat_count g2)
                 (CommitInfo.file_classifications cur ++ [fc])))
        (match language fc with
         | Some l => if PyStr.truthy l then dict_add l n (ps_languages st) else ps_languages st
         | None => ps_languages st
         end)
        (dict_add (contribution_type fc) n (ps_contribution_types st))
        (ps_clock st).
Proof.
  unfold numstat_line.
  destruct (numstat_match line) as [[[g1 g2] filepath]|] eqn:Hm; [| left; reflexivity].
  destruct (ps_current st) as [cur|] eqn:Hcur; [| left; reflexivity].
  right. exists cur, g1, g2, filepath. repeat split; reflexivity.
Qed.

Lemma counters_inv_init : counters_inv parse_init.
Proof.
  split; [| split].
  - intros k. unfold count_of. simpl. rewrite lookup_empty. reflexivity.
  - intros k. simpl. rewrite lookup_empty. split.
    + intros [x Hx]. discriminate.
    + intros (c & fc & Hc & _). apply elem_of_nil in Hc. contradiction.
  - intros l _. simpl. rewrite lookup_empty. reflexivity.
Qed.

Lemma counters_inv_open (st st' : parse_state) (p0 p1 p2 p4 : string) (d : datetime) :
  all_commits st' = all_commits st ++ [CommitInfo.mk p0 p1 p2 d p4 0 0 0 []] ->
  ps_contribution_types st' = ps_contribution_types st ->
  ps_languages st' = ps_languages st ->
  counters_inv st -> counters_inv st'.
Proof.
  intros Ha Hc Hl (I1 & I2 & I3). split; [| split].
  - intros k. rewrite Hc, Ha, total_app, I1. simpl. unfold category_lines at 3. simpl. lia.
  - intros k. rewrite Hc, Ha, I2. split.
    + intros (c & fc & Hin & Hfc & Hk). exists c, fc. rewrite elem_of_app. auto.
    + intros (c & fc & Hin & Hfc & Hk). apply elem_of_app in Hin as [Hin | Hin].
      * exists c, fc. auto.
      * apply list_elem_of_singleton in Hin. subst c. simpl in Hfc.
        apply elem_of_nil in Hfc. contradiction.
  - intros l Hne. rewrite Hl, Ha, total_app, (I3 l Hne). simpl.
    unfold language_lines at 3. simpl. lia.
Qed.

Lemma truthy_nonempty (l : string) : PyStr.truthy l = true <-> l <> EmptyString.
Proof. destruct l; simpl; split; congruence. Qed.

Lemma counters_inv_numstat (st : parse_state) (line : string) :
  counters_inv st -> counters_inv (numstat_line st line).
Proof.
  intros Hinv.
  destruct (numstat_line_effect st line)
    as [-> | (cur & g1 & g2 & fp & Hcur & Hm & Heq)]; [exact Hinv |].
  cbv zeta in Heq. rewrite Heq. clear Heq.
  destruct Hinv as (I1 & I2 & I3). unfold all_commits in I1, I2, I3. rewrite Hcur in I1, I2, I3.
  destruct (classify_fields fp (numstat_count g1) (numstat_count g2)) as (Ca & Cr & _).
  set (fc := FileClassifier.classify fp (numstat_count g1) (numstat_count g2)) in *.
  set (n := numstat_count g1 + numstat_count g2).
  split; [| split]; unfold all_commits; cbn [ps_current ps_commits ps_contribution_types ps_languages].
  - intros k. specialize (I1 k). rewrite total_app in *. simpl in *.
    unfold category_lines in *. cbn [CommitInfo.file_classifications] in *.
    rewrite total_app. simpl. rewrite Ca, Cr. fold n.
    unfold count_of in *. rewrite dict_add_lookup.
    destruct (decide (contribution_type fc = k)) as [Hk | Hne]; simpl; rewrite ?Hk; lia.
  - intros k. specialize (I2 k). rewrite dict_add_lookup. split.
    + intros Hsome. destruct (decide (contribution_type fc = k)) as [Hk | Hne].
      * eexists _, fc. split; [apply elem_of_app; right; apply list_elem_of_singleton; reflexivity |].
        split; [| exact Hk]. simpl. apply elem_of_app. right. apply list_elem_of_singleton. reflexivity.
      * apply I2 in Hsome as (c & fc' & Hin & Hfc & Hk).
        apply elem_of_app in Hin as [Hin | Hin].
        -- exists c, fc'. split; [apply elem_of_app; left; exact Hin | auto].
        -- apply list_elem_of_singleton in Hin. subst c.
           eexists _, fc'. split; [apply elem_of_app; right; apply list_elem_of_singleton; reflexivity |].
           split; [| exact Hk]. simpl. apply elem_of_app. left. exact Hfc.
    + intros (c & fc' & Hin & Hfc & Hk).
      destruct (decide (contribution_type fc = k)) as [_ | Hne]; [eexists; reflexivity |].
      apply I2. apply elem_of_app in Hin as [Hin | Hin].
      * exists c, fc'. split; [apply elem_of_app; left; exact Hin | auto].
      * apply list_elem_of_singleton in Hin. subst c. simpl in Hfc.
        apply elem_of_app in Hfc as [Hfc | Hfc].
        -- exists cur, fc'. split; [apply elem_of_app; right; apply list_elem_of_singleton; reflexivity | auto].
        -- apply list_elem_of_singleton in Hfc. subst fc'. contradiction.
  - intros l Hne. specialize (I3 l Hne). rewrite total_app in *. simpl in *.
    unfold language_lines in *. cbn [CommitInfo.file_classifications] in *.
    rewrite total_app. simpl. rewrite Ca, Cr. fold n.
    destruct (language fc) as [l'|] eqn:Hl.
    + destruct (PyStr.truthy l') eqn:Ht.
      * rewrite dict_add_lookup. destruct (decide (l' = l)) as [-> | Hll].
        -- rewrite decide_True by reflexivity. simpl. lia.
        -- rewrite decide_False by congruence. lia.
      * assert (l' = EmptyString) as -> by (destruct l'; [reflexivity | discriminate]).
        rewrite decide_False by congruence. lia.
    + rewrite decide_False by discriminate. lia.
Qed.

Lemma counters_inv_line (st : parse_state) (line : string) :
  counters_inv st -> counters_inv (parse_line W st line).
Proof.
  intros Hinv.
  destruct (parse_line_cases W st line) as (H1 & H2 & H3).
  destruct (Z.le_gt_cases 4 (PyStr.count "|"%char (PyStr.strip line))) as [H4 | H4].
  - destruct H2 as (p0 & p1 & p2 & p3 & p4 & Hs & ->); [| exact H4 |].
    { intros He. rewrite He in H4. simpl in H4. lia. }
    destruct (all_commits_open_commit W st p0 p1 p2 p3 p4) as (d & Ha & Hc & Hl).
    exact (counters_inv_open st _ p0 p1 p2 p4 d Ha Hc Hl Hinv).
  - destruct (PyStr.strip line) as [|a l] eqn:Hl.
    + rewrite H1 by reflexivity. exact Hinv.
    + rewrite H3 by (discriminate || exact H4). apply counters_inv_numstat, Hinv.
Qed.

Lemma counters_inv_lines (lines : list string) (st : parse_state) :
  counters_inv st -> counters_inv (parse_lines W lines st).
Proof.
  unfold parse_lines. revert st. induction lines as [|line lines IH]; intros st Hst; simpl;
    [exact Hst | apply IH, counters_inv_line, Hst].
Qed.

(** X4: in the statistics of an analyzed repository, the counter of a
    category is the sum of added and removed lines over the files classified
    in it, a category has a counter exactly when some file is classified in
    it, and the counter of a language is the sum over the files of that
    language. *)
Theorem counters_by_category (self self' : GitAnalyzer.t) (repo_path : string)
    (stats : RepoStats.t) :
  analyze_repo W self repo_path = (Ok (Some stats), self') ->
  (forall k, count_of (RepoStats.contribution_types stats) k
             = total (category_lines k) (RepoStats.commits stats)) /\
  (forall k, is_Some (RepoStats.contribution_types stats !! k) <->
             exists c fc, c ∈ RepoStats.commits stats /\
                          fc ∈ CommitInfo.file_classifications c /\
                          contribution_type fc = k) /\
  (forall l, l <> EmptyString ->
             default 0 (RepoStats.languages stats !! l)
             = total (language_lines l) (RepoStats.commits stats)).
Proof.
  intros Hok. destruct (analyze_repo_success W _ _ _ _ Hok)
    as (output & _ & Hc & _ & _ & _ & _ & Hct & Hlg & _).
  rewrite Hc, Hct, Hlg, parsed_commits_all.
  exact (counters_inv_lines (PyStr.split PyStr.NL output) parse_init counters_inv_init).
Qed.

End ParserCounters.

Lemma counters_by_category_witness :
  count_of (RepoStats.contribution_types demo_repo) TESTS
  = total (category_lines TESTS) (RepoStats.commits demo_repo) /\
  count_of (RepoStats.contribution_types demo_repo) TESTS = 5.
Proof.
  split; [| vm_compute; reflexivity].
  apply (counters_by_category (demo_world (CompletedProcess 0 demo_log))
           demo_analyzer demo_analyzed "repo" demo_repo).
  vm_compute. reflexivity.
Defined.

(* ===================================================================== *)
(** * The numstat pattern *)
(* ===================================================================== *)

Lemma count_rev_app (c : ascii) (s acc : string) :
  PyStr.count c (String.rev_app s acc) = PyStr.count c s + PyStr.count c acc.
Proof.
  revert acc. induction s as [|a s IH]; intros acc; simpl; [lia |].
  rewrite IH. simpl. lia.
Qed.

Lemma before_final_newline_id (s : string) :
  PyStr.count PyStr.NL s = 0 -> before_final_newline s = s.
Proof.
  intros Hs. unfold before_final_newline.
  destruct (String.rev s) as [|c r] eqn:Hrev; [reflexivity |].
  destruct (Ascii.eqb c PyStr.NL) eqn:Hc; [| reflexivity].
  apply Ascii.eqb_eq in Hc. subst c.
  pose proof (count_rev_app PyStr.NL s EmptyString) as Hcount.
  unfold String.rev in Hrev. rewrite Hrev in Hcount.
  pose proof (count_nonneg PyStr.NL r).
  change (PyStr.count PyStr.NL (String PyStr.NL r)) with (1 + PyStr.count PyStr.NL r) in Hcount.
  simpl in Hcount. lia.
Qed.

Lemma contains_char_count (c : ascii) (s : string) :
  PyStr.count c s = 0 -> PyStr.contains (String c EmptyString) s = false.
Proof.
  induction s as [|a s IH]; [reflexivity |].
  intros Hc. pose proof (count_nonneg c s).
  change (PyStr.count c (String a s)) with ((if Ascii.eqb a c then 1 else 0) + PyStr.count c s) in Hc.
  destruct (Ascii.eqb a c) eqn:Ha; [lia |].
  change (PyStr.contains (String c EmptyString) (String a s))
    with (String.prefix (String c EmptyString) (String a s)
          || PyStr.contains (String c EmptyString) s).
  rewrite IH by lia. rewrite orb_false_r. simpl.
  destruct (Ascii.ascii_dec c a) as [-> | _]; [| reflexivity].
  rewrite Ascii.eqb_refl in Ha. discriminate.
Qed.

Lemma cut_of_app (c : ascii) (l r : string) :
  PyStr.count c l = 0 -> PyStr.cut c (l +:+ String c r) = Some (l, r).
Proof.
  induction l as [|a l IH]; intros Hl.
  - simpl. rewrite Ascii.eqb_refl. reflexivity.
  - pose proof (count_nonneg c l).
    change (PyStr.count c (String a l)) with ((if Ascii.eqb a c then 1 else 0) + PyStr.count c l) in Hl.
    destruct (Ascii.eqb a c) eqn:Ha; [lia |].
    change (String a l +:+ String c r) with (String a (l +:+ String c r)).
    simpl. rewrite Ha, IH by lia. reflexivity.
Qed.

Lemma all_digits_no_tab (g : string) : PyStr.all_digits g = true -> PyStr.count PyStr.TAB g = 0.
Proof.
  induction g as [|a g IH]; [reflexivity |]. simpl. intros Hd.
  apply andb_true_iff in Hd as [Ha Hg]. rewrite (IH Hg).
  destruct (Ascii.eqb a PyStr.TAB) eqn:Hc; [| reflexivity].
  apply Ascii.eqb_eq in Hc. subst a. discriminate.
Qed.

Lemma digits_or_dash_no_tab (g : string) :
  digits_or_dash g = true -> PyStr.count PyStr.TAB g = 0.
Proof.
  unfold digits_or_dash. intros Hg. apply orb_true_iff in Hg as [Hg | Hg].
  - apply andb_true_iff in Hg as [_ Hd]. apply all_digits_no_tab, Hd.
  - apply String.eqb_eq in Hg. subst g. reflexivity.
Qed.

(** X5: a line made of two counts, each a run of digits or the placeholder
    [-], and a non-empty path, separated by tabs, is recognised by the
    numstat pattern with exactly these three groups, whatever else the path
    holds (tabs, bars, blanks); the placeholder counts as zero. *)
Theorem numstat_match_round_trip (g1 g2 filepath : string) :
  digits_or_dash g1 = true -> digits_or_dash g2 = true ->
  filepath <> EmptyString -> PyStr.count PyStr.NL filepath = 0 ->
  numstat_match (g1 +:+ TABs +:+ g2 +:+ TABs +:+ filepath) = Some (g1, g2, filepath) /\
  (g1 = "-" -> numstat_count g1 = 0) /\ (g2 = "-" -> numstat_count g2 = 0) /\
  0 <= numstat_count g1 /\ 0 <= numstat_count g2.
Proof.
  intros H1 H2 Hne Hnl. split.
  - unfold numstat_match, TABs.
    change (g1 +:+ String PyStr.TAB EmptyString +:+ g2 +:+ String PyStr.TAB EmptyString +:+ filepath)
      with (g1 +:+ String PyStr.TAB (g2 +:+ String PyStr.TAB filepath)).
    rewrite (cut_of_app PyStr.TAB g1 _ (digits_or_dash_no_tab g1 H1)). simpl.
    rewrite (cut_of_app PyStr.TAB g2 _ (digits_or_dash_no_tab g2 H2)). simpl.
    rewrite (before_final_newline_id filepath Hnl), H1, H2.
    rewrite (contains_char_count PyStr.NL filepath Hnl).
    destruct filepath; [congruence | reflexivity].
  - split; [intros ->; reflexivity |]. split; [intros ->; reflexivity |].
    split; apply numstat_count_nonneg; assumption.
Qed.

Lemma numstat_match_round_trip_witness :
  numstat_match ("-" +:+ TABs +:+ "12" +:+ TABs +:+ "img/a b|c.png") = Some ("-", "12", "img/a b|c.png").
Proof.
  apply (numstat_match_round_trip "-" "12" "img/a b|c.png"); try reflexivity. discriminate.
Defined.

(* ===================================================================== *)
(** * First and last commit date, and the outcomes of an analysis *)
(* ===================================================================== *)

Lemma dt_lt_same_kind (a b : datetime) :
  same_kind a b -> dt_lt a b = Ok (instant a <? instant b).
Proof.
  unfold same_kind, dt_lt, dt_key, instant.
  destruct (tzinfo a) as [oa|], (tzinfo b) as [ob|]; simpl; intros [H1 H2];
    try reflexivity.
  - specialize (H2 eq_refl). discriminate.
  - specialize (H1 eq_refl). discriminate.
  - rewrite !Z.sub_0_r. reflexivity.
Qed.

Lemma dt_lt_other_kind (a b : datetime) :
  ~ same_kind a b -> dt_lt a b = Raise TypeError.
Proof.
  unfold same_kind, dt_lt, dt_key.
  destruct (tzinfo a) as [oa|], (tzinfo b) as [ob|]; simpl; intros Hn;
    try reflexivity; exfalso; apply Hn; split; congruence.
Qed.

Lemma same_kind_dec (a b : datetime) : same_kind a b \/ ~ same_kind a b.
Proof.
  unfold same_kind. destruct (tzinfo a), (tzinfo b);
    [left | right | right | left]; try (split; congruence);
    intros [H1 H2]; try (specialize (H1 eq_refl)); try (specialize (H2 eq_refl)); discriminate.
Qed.

Lemma same_kind_trans (a b c : datetime) : same_kind a b -> same_kind b c -> same_kind a c.
Proof. unfold same_kind. tauto. Qed.

Lemma same_kind_sym (a b : datetime) : same_kind a b -> same_kind b a.
Proof. unfold same_kind. tauto. Qed.

(** The running minimum and maximum of [min(dates)] and [max(dates)] *)
Lemma dt_min_ok (d0 m : datetime) (dates : list datetime) :
  same_kind d0 m -> Forall (same_kind d0) dates ->
  exists r, dt_min m dates = Ok r /\ r ∈ m :: dates /\
            Forall (fun x => instant r <= instant x) (m :: dates).
Proof.
  revert m. induction dates as [|x dates IH]; intros m Hm Hall.
  - exists m. split; [reflexivity |]. split; [left |]. constructor; [lia | constructor].
  - apply Forall_cons in Hall as [Hx Hall]. unfold dt_min. cbn [foldM].
    rewrite (dt_lt_same_kind x m) by (eapply same_kind_trans; [apply same_kind_sym; exact Hx | exact Hm]).
    cbn [mbind outcome_bind]. fold (dt_min (if instant x <? instant m then x else m) dates).
    destruct (Z.ltb_spec (instant x) (instant m)) as [Hlt | Hge].
    + destruct (IH x Hx Hall) as (r & Hr & Hin & Hle). exists r. split; [exact Hr |].
      apply Forall_cons in Hle as [Hrx Hle].
      split; [apply elem_of_cons in Hin as [-> | Hin]; [right; left | right; right; exact Hin] |].
      constructor; [lia |]. constructor; assumption.
    + destruct (IH m Hm Hall) as (r & Hr & Hin & Hle). exists r. split; [exact Hr |].
      apply Forall_cons in Hle as [Hrm Hle].
      split; [apply elem_of_cons in Hin as [-> | Hin]; [left | right; right; exact Hin] |].
      constructor; [exact Hrm |]. constructor; [lia | exact Hle].
Qed.

Lemma dt_max_ok (d0 m : datetime) (dates : list datetime) :
  same_kind d0 m -> Forall (same_kind d0) dates ->
  exists r, dt_max m dates = Ok r /\ r ∈ m :: dates /\
            Forall (fun x => instant x <= instant r) (m :: dates).
Proof.
  revert m. induction dates as [|x dates IH]; intros m Hm Hall.
  - exists m. split; [reflexivity |]. split; [left |]. constructor; [lia | constructor].
  - apply Forall_cons in Hall as [Hx Hall]. unfold dt_max. cbn [foldM].
    rewrite (dt_lt_same_kind m x) by (eapply same_kind_trans; [apply same_kind_sym; exact Hm | exact Hx]).
    cbn [mbind outcome_bind]. fold (dt_max (if instant m <? instant x then x else m) dates).
    destruct (Z.ltb_spec (instant m) (instant x)) as [Hlt | Hge].
    + destruct (IH x Hx Hall) as (r & Hr & Hin & Hle). exists r. split; [exact Hr |].
      apply Forall_cons in Hle as [Hrx Hle].
      split; [apply elem_of_cons in Hin as [-> | Hin]; [right; left | right; right; exact Hin] |].
      constructor; [lia |]. constructor; assumption.
    + destruct (IH m Hm Hall) as (r & Hr & Hin & Hle). exists r. split; [exact Hr |].
      apply Forall_cons in Hle as [Hrm Hle].
      split; [apply elem_of_cons in Hin as [-> | Hin]; [left | right; right; exact Hin] |].
      constructor; [exact Hrm |]. constructor; [lia | exact Hle].
Qed.

Lemma dt_min_raises (d0 m : datetime) (dates : list datetime) :
  same_kind d0 m -> ~ Forall (same_kind d0) dates -> dt_min m dates = Raise TypeError.
Proof.
  revert m. induction dates as [|x dates IH]; intros m Hm Hall.
  - exfalso. apply Hall. constructor.
  - unfold dt_min. cbn [foldM]. destruct (same_kind_dec d0 x) as [Hx | Hx].
    + rewrite (dt_lt_same_kind x m)
        by (eapply same_kind_trans; [apply same_kind_sym; exact Hx | exact Hm]).
      cbn [mbind outcome_bind]. fold (dt_min (if instant x <? instant m then x else m) dates).
      apply IH; [destruct (instant x <? instant m); assumption |].
      intros Hrest. apply Hall. constructor; assumption.
    + rewrite (dt_lt_other_kind x m); [reflexivity |].
      intros Hxm. apply Hx. eapply same_kind_trans; [exact Hm | apply same_kind_sym; exact Hxm].
Qed.

Lemma same_kind_refl (a : datetime) : same_kind a a.
Proof. unfold same_kind. tauto. Qed.

Lemma same_kind_dec_list (dates : list datetime) : comparable dates \/ ~ comparable dates.
Proof.
  destruct dates as [|d dates]; [left; exact I |]. unfold comparable.
  induction dates as [|x dates IH]; [left; constructor |].
  destruct (same_kind_dec d x) as [Hx | Hx], IH as [Hr | Hr].
  - left. constructor; assumption.
  - right. intros H. apply Forall_cons in H as [_ H]. contradiction.
  - right. intros H. apply Forall_cons in H as [H _]. contradiction.
  - right. intros H. apply Forall_cons in H as [H _]. contradiction.
Qed.

(** [commit_dates] returns exactly when the dates can be ordered. *)
Lemma commit_dates_outcome (commits : list CommitInfo.t) :
  (comparable (map CommitInfo.date commits) ->
   exists first last, commit_dates commits = Ok (first, last)) /\
  (~ comparable (map CommitInfo.date commits) -> commit_dates commits = Raise TypeError).
Proof.
  unfold commit_dates, comparable. destruct (map CommitInfo.date commits) as [|d dates].
  - split; [eauto | tauto].
  - split.
    + intros Hall.
      destruct (dt_min_ok d d dates (same_kind_refl d) Hall) as (f & -> & _).
      destruct (dt_max_ok d d dates (same_kind_refl d) Hall) as (l & -> & _).
      cbn [mbind outcome_bind]. eauto.
    + intros Hall. rewrite (dt_min_raises d d dates (same_kind_refl d) Hall). reflexivity.
Qed.

Lemma commit_dates_extremes (commits : list CommitInfo.t) (first last : option datetime) :
  commit_dates commits = Ok (first, last) ->
  match commits with
  | [] => first = None /\ last = None
  | _ :: _ =>
      exists f l, first = Some f /\ last = Some l /\
                  f ∈ map CommitInfo.date commits /\ l ∈ map CommitInfo.date commits /\
                  Forall (fun c => instant f <= instant (CommitInfo.date c) <= instant l) commits
  end.
Proof.
  destruct commits as [|c commits]; [intros [= <- <-]; split; reflexivity |].
  intros Hok.
  destruct (same_kind_dec_list (map CommitInfo.date (c :: commits))) as [Hall | Hall];
    [| rewrite (proj2 (commit_dates_outcome (c :: commits)) Hall) in Hok; discriminate].
  unfold commit_dates in Hok. cbn [map] in Hok, Hall |- *. unfold comparable in Hall.
  destruct (dt_min_ok _ _ _ (same_kind_refl (CommitInfo.date c)) Hall) as (f & Hf & Hfin & Hfle).
  destruct (dt_max_ok _ _ _ (same_kind_refl (CommitInfo.date c)) Hall) as (l & Hl & Hlin & Hlle).
  rewrite Hf, Hl in Hok. cbn [mbind outcome_bind] in Hok. injection Hok as <- <-.
  exists f, l. split; [reflexivity |]. split; [reflexivity |].
  split; [exact Hfin |]. split; [exact Hlin |].
  change (CommitInfo.date c :: map CommitInfo.date commits)
    with (map CommitInfo.date (c :: commits)) in Hfle, Hlle.
  rewrite Forall_map in Hfle, Hlle. rewrite Forall_forall in *.
  intros x Hx. split; [exact (Hfle x Hx) | exact (Hlle x Hx)].
Qed.

Section AnalysisOutcome.

Variable W : World.

Lemma analyze_repo_dates (self self' : GitAnalyzer.t) (repo_path : string) (stats : RepoStats.t) :
  analyze_repo W self repo_path = (Ok (Some stats), self') ->
  commit_dates (RepoStats.commits stats)
  = Ok (RepoStats.first_commit_date stats, RepoStats.last_commit_date stats).
Proof.
  rewrite analyze_repo_branches.
  destruct (negb (isdir W (path_join repo_path ".git"))); [discriminate |].
  destruct (_detect_technologies W repo_path) as [technologies|]; [| discriminate].
  destruct (subprocess_run W ("git" :: log_args self) repo_path) as [rc out | m | m | e];
    try discriminate.
  destruct (rc =? 0); [| discriminate].
  destruct (parse_log W out) as [st|e]; [| discriminate].
  destruct (commit_dates (all_parsed st)) as [[first last]|e] eqn:Hd; [| discriminate].
  intros [= <- <-]. exact Hd.
Qed.

(** X6: the statistics of a repository without commits have no first and no
    last commit date; otherwise both are dates of its commits, and every
    commit date lies between them. *)
Theorem first_last_commit_dates (self self' : GitAnalyzer.t) (repo_path : string)
    (stats : RepoStats.t) :
  analyze_repo W self repo_path = (Ok (Some stats), self') ->
  match RepoStats.commits stats with
  | [] => RepoStats.first_commit_date stats = None /\ RepoStats.last_commit_date stats = None
  | _ :: _ =>
      exists f l,
        RepoStats.first_commit_date stats = Some f /\
        RepoStats.last_commit_date stats = Some l /\
        f ∈ map CommitInfo.date (RepoStats.commits stats) /\
        l ∈ map CommitInfo.date (RepoStats.commits stats) /\
        Forall (fun c => instant f <= instant (CommitInfo.date c) <= instant l)
          (RepoStats.commits stats)
  end.
Proof. intros Hok. apply commit_dates_extremes, (analyze_repo_dates _ _ _ _ Hok). Qed.

Lemma foldM_app {A S} (body : S -> A -> outcome S) (l1 l2 : list A) (s : S) :
  foldM body (l1 ++ l2) s = s' ← foldM body l1 s; foldM body l2 s'.
Proof.
  revert s. induction l1 as [|a l1 IH]; intros s; [reflexivity |].
  cbn [app foldM]. destruct (body s a) as [s1|e]; [| reflexivity].
  cbn [mbind outcome_bind]. apply IH.
Qed.

Lemma too_long_not_dash (g : string) : too_long g = true -> String.eqb g "-" = false.
Proof.
  intros Hlong. destruct (String.eqb_spec g "-") as [-> | _]; [| reflexivity].
  vm_compute in Hlong. discriminate Hlong.
Qed.

Lemma numstat_int_raises (g : string) :
  numstat_int g = Raise ValueError <-> too_long g = true.
Proof.
  unfold numstat_int, PyStr.int. fold (too_long g). split.
  - destruct (String.eqb g "-"); [discriminate |].
    destruct (too_long g); [reflexivity | discriminate].
  - intros Hlong. rewrite (too_long_not_dash g Hlong), Hlong. reflexivity.
Qed.

Lemma numstat_int_ok (g : string) :
  too_long g = false -> numstat_int g = Ok (numstat_count g).
Proof.
  unfold numstat_int, numstat_count, PyStr.int. fold (too_long g). intros ->.
  destruct (String.eqb g "-"); reflexivity.
Qed.

(** The line at which the loop raises *)
Lemma parse_step_raises (st : parse_state) (line : string) :
  parse_step W st line = Raise ValueError <->
  PyStr.truthy (PyStr.strip line) = true /\
  commit_line W st (PyStr.strip line) = None /\
  exists g1 g2 filepath,
    numstat_match (PyStr.strip line) = Some (g1, g2, filepath) /\
    ps_current st <> None /\
    (too_long g1 = true \/ too_long g2 = true).
Proof.
  unfold parse_step, numstat_step. cbv zeta.
  destruct (PyStr.truthy (PyStr.strip line)); cbn [negb].
  2: { split; [discriminate | intros [H _]; discriminate H]. }
  destruct (commit_line W st (PyStr.strip line)) as [st'|].
  { split; [discriminate | intros (_ & H & _); discriminate H]. }
  destruct (numstat_match (PyStr.strip line)) as [[[g1 g2] filepath]|].
  2: { split; [discriminate | intros (_ & _ & g1 & g2 & f & H & _); discriminate H]. }
  destruct (ps_current st) as [current_commit|].
  2: { split; [discriminate | intros (_ & _ & g1' & g2' & f & _ & H & _); congruence]. }
  split.
  - intros Hraise. split; [reflexivity |]. split; [reflexivity |].
    exists g1, g2, filepath. split; [reflexivity |]. split; [discriminate |].
    destruct (too_long g1) eqn:H1; [left; reflexivity | right].
    rewrite (numstat_int_ok g1 H1) in Hraise. cbn [mbind outcome_bind] in Hraise.
    destruct (too_long g2) eqn:H2; [reflexivity |].
    rewrite (numstat_int_ok g2 H2) in Hraise. discriminate Hraise.
  - intros (_ & _ & g1' & g2' & f & [= <- <- <-] & _ & Hlong).
    destruct (too_long g1) eqn:H1.
    + apply numstat_int_raises in H1. rewrite H1. reflexivity.
    + rewrite (numstat_int_ok g1 H1). cbn [mbind outcome_bind].
      destruct Hlong as [Hlong | Hlong]; [discriminate Hlong |].
      apply numstat_int_raises in Hlong. rewrite Hlong. reflexivity.
Qed.

Lemma parse_steps_raise (lines : list string) (st : parse_state) :
  foldM (parse_step W) lines st = Raise ValueError <->
  exists before line after,
    lines = before ++ line :: after /\
    parse_step W (parse_lines W before st) line = Raise ValueError.
Proof.
  split.
  - revert st. induction lines as [|line lines IH]; intros st; [discriminate |].
    cbn [foldM]. destruct (parse_step_cases W st line) as [Hok | Hraise].
    + rewrite Hok. cbn [mbind outcome_bind]. intros Hrest.
      destruct (IH _ Hrest) as (before & l & after & -> & Hl).
      exists (line :: before), l, after. split; [reflexivity | exact Hl].
    + intros _. exists [], line, lines. split; [reflexivity | exact Hraise].
  - intros (before & line & after & -> & Hl). rewrite foldM_app.
    destruct (parse_steps_cases W before st) as [-> | ->]; [| reflexivity].
    cbn [mbind outcome_bind foldM]. rewrite Hl. reflexivity.
Qed.

(** The loop over the log raises exactly when a count is too long. *)
Lemma parse_log_raises (output : string) :
  parse_log W output = Raise ValueError <-> digit_limit_hit W output.
Proof.
  unfold parse_log, digit_limit_hit. rewrite parse_steps_raise. split.
  - intros (before & line & after & Hsplit & Hl).
    apply parse_step_raises in Hl as (Ht & Hc & g1 & g2 & f & Hm & Hcur & Hlong).
    exists before, line, after, g1, g2, f. repeat (split; [assumption |]). exact Hlong.
  - intros (before & line & after & g1 & g2 & f & Hsplit & Ht & Hc & Hm & Hcur & Hlong).
    exists before, line, after. split; [exact Hsplit |].
    apply parse_step_raises. split; [exact Ht |]. split; [exact Hc |].
    exists g1, g2, f. split; [exact Hm |]. split; [exact Hcur | exact Hlong].
Qed.

(** X7: with a [.git] folder, the analysis has these outcomes. When the
    repository folder cannot be listed it raises [OSError]. Otherwise, when
    starting the log command raises an exception other than the two that
    are caught, it raises this exception; when the command times out, is
    not found or returns a non-zero code, it returns [None]. When the
    command returns 0: with a count of more than 4300 characters on a
    numstat line below a commit line it raises [ValueError]; without one,
    when the commit dates can be ordered (all aware or all naive) it returns
    statistics with the name, path, description, technologies and commits
    of the repository and appends them to the collection, and when aware
    and naive dates mix it raises [TypeError]. In every case but the one
    that returns statistics the collection is as it was. *)
Theorem analyze_repo_outcomes (self : GitAnalyzer.t) (repo_path : string) :
  isdir W (path_join repo_path ".git") = true ->
  (_detect_technologies W repo_path = None ->
   analyze_repo W self repo_path = (Raise OSError, self)) /\
  (forall technologies,
     _detect_technologies W repo_path = Some technologies ->
     (forall e, subprocess_run W ("git" :: log_args self) repo_path = OtherException e ->
                analyze_repo W self repo_path = (Raise e, self)) /\
     (log_failed (subprocess_run W ("git" :: log_args self) repo_path) ->
      analyze_repo W self repo_path = (Ok None, self)) /\
     (forall output,
        subprocess_run W ("git" :: log_args self) repo_path = CompletedProcess 0 output ->
        (digit_limit_hit W output ->
         analyze_repo W self repo_path = (Raise ValueError, self)) /\
        (~ digit_limit_hit W output ->
         comparable (map CommitInfo.date (parsed_commits W output)) ->
         exists stats,
           analyze_repo W self repo_path
           = (Ok (Some stats),
              GitAnalyzer.mk (GitAnalyzer.author_email self) (GitAnalyzer.author_name self)
                (GitAnalyzer._repos self ++ [stats])) /\
           RepoStats.name stats = basename_abspath W repo_path /\
           RepoStats.path stats = repo_path /\
           RepoStats.description stats = _get_repo_description W repo_path /\
           RepoStats.technologies stats = technologies /\
           RepoStats.commits stats = parsed_commits W output /\
           RepoStats.total_commits stats = Z.of_nat (length (parsed_commits W output))) /\
        (~ digit_limit_hit W output ->
         ~ comparable (map CommitInfo.date (parsed_commits W output)) ->
         analyze_repo W self repo_path = (Raise TypeError, self)))).
Proof.
  intros Hgit. rewrite analyze_repo_branches, Hgit. cbn [negb]. split.
  { intros ->. reflexivity. }
  intros technologies ->. split; [intros e ->; reflexivity |]. split.
  { destruct (subprocess_run W ("git" :: log_args self) repo_path) as [rc out | m | m | e];
      cbn [log_failed]; [| reflexivity | reflexivity | contradiction].
    intros Hrc. destruct (Z.eqb_spec rc 0) as [-> | _]; [contradiction | reflexivity]. }
  intros output ->. cbn [Z.eqb].
  pose proof (parse_log_raises output) as Hhit.
  destruct (parse_log_cases W output) as [Hlog | Hlog]; rewrite Hlog.
  - assert (Hno : ~ digit_limit_hit W output).
    { intros H. apply Hhit in H. congruence. }
    change (all_parsed (parse_lines W (PyStr.split PyStr.NL output) parse_init))
      with (parsed_commits W output).
    destruct (commit_dates_outcome (parsed_commits W output)) as [Hok Hraise].
    split; [intros H; contradiction |]. split.
    + intros _ Hc. destruct (Hok Hc) as (first & last & ->). eexists.
      split; [reflexivity |]. repeat split.
    + intros _ Hc. rewrite (Hraise Hc). reflexivity.
  - apply Hhit in Hlog. split; [reflexivity |].
    split; [intros H; contradiction | intros H; contradiction].
Qed.

Lemma log_args_author (self self0 : GitAnalyzer.t) :
  GitAnalyzer.author_email self0 = GitAnalyzer.author_email self ->
  GitAnalyzer.author_name self0 = GitAnalyzer.author_name self ->
  log_args self0 = log_args self.
Proof. unfold log_args, author_filter. intros -> ->. reflexivity. Qed.

(** The statistics depend on the analyzer through the author filter only. *)
Lemma analyze_repo_independent (self self' self0 : GitAnalyzer.t) (repo_path : string)
    (stats : RepoStats.t) :
  analyze_repo W self repo_path = (Ok (Some stats), self') ->
  log_args self0 = log_args self ->
  self' = GitAnalyzer.mk (GitAnalyzer.author_email self) (GitAnalyzer.author_name self)
            (GitAnalyzer._repos self ++ [stats]) /\
  analyze_repo W self0 repo_path
  = (Ok (Some stats),
     GitAnalyzer.mk (GitAnalyzer.author_email self0) (GitAnalyzer.author_name self0)
       (GitAnalyzer._repos self0 ++ [stats])).
Proof.
  intros Hok Hargs. revert Hok. rewrite !analyze_repo_branches, Hargs.
  destruct (negb (isdir W (path_join repo_path ".git"))); [discriminate |].
  destruct (_detect_technologies W repo_path) as [technologies|]; [| discriminate].
  destruct (subprocess_run W ("git" :: log_args self) repo_path) as [rc out | m | m | e];
    try discriminate.
  destruct (rc =? 0); [| discriminate].
  destruct (parse_log W out) as [st|e]; [| discriminate].
  destruct (commit_dates (all_parsed st)) as [[first last]|e]; [| discriminate].
  intros [= <- <-]. split; reflexivity.
Qed.

(** X8: [analyze_repo] does not look for the repository in the collection:
    a second analysis of the same path in the same environment returns the
    same statistics and appends them once more. *)
Theorem analyze_repo_twice (self self' : GitAnalyzer.t) (repo_path : string)
    (stats : RepoStats.t) :
  analyze_repo W self repo_path = (Ok (Some stats), self') ->
  exists self'',
    analyze_repo W self' repo_path = (Ok (Some stats), self'') /\
    GitAnalyzer._repos self'' = GitAnalyzer._repos self ++ [stats; stats].
Proof.
  intros Hok.
  destruct (analyze_repo_independent self self' self repo_path stats Hok eq_refl) as [Hself _].
  destruct (analyze_repo_independent self self' self' repo_path stats Hok) as [_ Hagain].
  { apply log_args_author; rewrite Hself; reflexivity. }
  eexists. split; [exact Hagain |]. rewrite Hself. simpl. rewrite <- app_assoc. reflexivity.
Qed.

End AnalysisOutcome.

(** What [analyze_repo] returns depends on the analyzer through the
    arguments of the log command only, and the call keeps these arguments. *)
Lemma analyze_repo_fst (W : World) (self self0 : GitAnalyzer.t) (repo_path : string) :
  log_args self0 = log_args self ->
  fst (analyze_repo W self0 repo_path) = fst (analyze_repo W self repo_path).
Proof.
  intros Hargs. rewrite !analyze_repo_branches, Hargs.
  destruct (negb (isdir W (path_join repo_path ".git"))); [reflexivity |].
  destruct (_detect_technologies W repo_path) as [technologies|]; [| reflexivity].
  destruct (subprocess_run W ("git" :: log_args self) repo_path) as [rc out | m | m | e];
    try reflexivity.
  destruct (rc =? 0); [| reflexivity].
  destruct (parse_log W out) as [st|e]; [| reflexivity].
  destruct (commit_dates (all_parsed st)) as [[first last]|e]; reflexivity.
Qed.

Lemma analyze_repo_snd (W : World) (self : GitAnalyzer.t) (repo_path : string) :
  log_args (snd (analyze_repo W self repo_path)) = log_args self /\
  GitAnalyzer._repos (snd (analyze_repo W self repo_path))
  = GitAnalyzer._repos self
    ++ match fst (analyze_repo W self repo_path) with
       | Ok (Some stats) => [stats]
       | _ => []
       end.
Proof.
  rewrite !analyze_repo_branches.
  destruct (negb (isdir W (path_join repo_path ".git")));
    [cbn [fst snd]; rewrite app_nil_r; auto |].
  destruct (_detect_technologies W repo_path) as [technologies|];
    [| cbn [fst snd]; rewrite app_nil_r; auto].
  destruct (subprocess_run W ("git" :: log_args self) repo_path) as [rc out | m | m | e];
    try (cbn [fst snd]; rewrite app_nil_r; auto).
  destruct (rc =? 0); [| cbn [fst snd]; rewrite app_nil_r; auto].
  destruct (parse_log W out) as [st|e]; [| cbn [fst snd]; rewrite app_nil_r; auto].
  destruct (commit_dates (all_parsed st)) as [[first last]|e];
    [| cbn [fst snd]; rewrite app_nil_r; auto].
  split; reflexivity.
Qed.

Lemma analyze_multiple_loop_spec (calls : list (World * string))
    (self0 self self' : GitAnalyzer.t) (results results' : list RepoStats.t) :
  log_args self = log_args self0 ->
  analyze_multiple_loop self calls results = (Ok results', self') ->
  results' = results ++ omap (analysis_of self0) calls /\
  GitAnalyzer._repos self' = GitAnalyzer._repos self ++ omap (analysis_of self0) calls.
Proof.
  revert self results results' self'.
  induction calls as [|[W path] calls IH]; intros self results results' self' Hargs.
  - simpl. intros [= <- <-]. rewrite !app_nil_r. split; reflexivity.
  - cbn [analyze_multiple_loop omap list_omap].
    assert (Hana : analysis_of self0 (W, path)
                   = match fst (analyze_repo W self path) with Ok r => r | Raise _ => None end).
    { unfold analysis_of. cbn [fst snd]. rewrite (analyze_repo_fst W self0 self path Hargs).
      reflexivity. }
    rewrite Hana. clear Hana.
    destruct (analyze_repo_snd W self path) as [Hkeep Hrepos].
    destruct (analyze_repo W self path) as [[[stats|]|e] self1]; cbn [fst snd] in *;
      [| | discriminate].
    + intros Hloop. destruct (IH self1 _ _ _ (eq_trans Hkeep Hargs) Hloop) as [-> ->].
      rewrite Hrepos, <- !app_assoc. split; reflexivity.
    + intros Hloop. destruct (IH self1 _ _ _ (eq_trans Hkeep Hargs) Hloop) as [-> ->].
      rewrite Hrepos, app_nil_r. split; reflexivity.
Qed.

(** X9: when [analyze_multiple_repos] returns, its list holds, in the order
    of the paths, the statistics that the analysis of each path returns on
    its own, a path whose analysis returns [None] being passed over; and
    the collection has grown by exactly this list. *)
Theorem analyze_multiple_repos_results (calls : list (World * string))
    (self self' : GitAnalyzer.t) (results : list RepoStats.t) :
  analyze_multiple_repos self calls = (Ok results, self') ->
  results = omap (analysis_of self) calls /\
  GitAnalyzer._repos self' = GitAnalyzer._repos self ++ results.
Proof.
  unfold analyze_multiple_repos. intros Hloop.
  destruct (analyze_multiple_loop_spec calls self self self' [] results eq_refl Hloop)
    as [Hres Hrepos].
  simpl in Hres. subst results. split; [reflexivity | exact Hrepos].
Qed.

(* ===================================================================== *)
(** * The scan for repositories *)
(* ===================================================================== *)

Section Scan.

Variable fs : FileSystem.

Lemma search_spec (levels : nat) :
  forall path repos repos',
    search fs levels path repos = Some repos' ->
    exists new, repos' = repos ++ new /\ forall p, p ∈ new <-> found fs levels path p.
Proof.
  induction levels as [|levels IH]; intros path repos repos'.
  - simpl. intros [= <-]. exists []. rewrite app_nil_r. split; [reflexivity |].
    intros p. split; [intros H; apply elem_of_nil in H; contradiction | intros H; inversion H].
  - cbn [search]. destruct (fs_isdir fs (path_join path ".git")) eqn:Hgit.
    + intros [= <-]. exists [path]. split; [reflexivity |]. intros p. split.
      * intros Hp. apply list_elem_of_singleton in Hp. subst p. apply found_here, Hgit.
      * intros Hf. inversion Hf; subst; [apply list_elem_of_singleton; reflexivity | congruence].
    + destruct (fs_listdir fs path) as [items | |] eqn:Hls; [| | discriminate].
      * assert (Hloop : forall l repos0 repos1,
                  fold_some
                    (fun repos item =>
                       if fs_isdir fs (path_join path item) && negb (hidden item)
                       then search fs levels (path_join path item) repos
                       else Some repos) l repos0 = Some repos1 ->
                  exists new, repos1 = repos0 ++ new /\
                    forall p, p ∈ new <->
                      exists item, item ∈ l /\ fs_isdir fs (path_join path item) = true /\
                                   hidden item = false /\
                                   found fs levels (path_join path item) p).
        { induction l as [|item l IHl]; intros repos0 repos1.
          - simpl. intros [= <-]. exists []. rewrite app_nil_r. split; [reflexivity |].
            intros p. split; [intros H; apply elem_of_nil in H; contradiction |].
            intros (item & Hin & _). apply elem_of_nil in Hin. contradiction.
          - cbn [fold_some].
            destruct (fs_isdir fs (path_join path item) && negb (hidden item)) eqn:Hdir.
            + destruct (search fs levels (path_join path item) repos0) as [repos2|] eqn:Hs;
                [| discriminate].
              intros Hrest. destruct (IH _ _ _ Hs) as (new1 & -> & Hnew1).
              destruct (IHl _ _ Hrest) as (new2 & -> & Hnew2).
              exists (new1 ++ new2). rewrite app_assoc. split; [reflexivity |].
              apply andb_true_iff in Hdir as [Hd Hh]. apply negb_true_iff in Hh.
              intros p. rewrite elem_of_app, Hnew1, Hnew2. split.
              * intros [Hf | (it & Hin & H1 & H2 & H3)].
                -- exists item. split; [left | auto].
                -- exists it. split; [right; exact Hin | auto].
              * intros (it & Hin & H1 & H2 & H3). apply elem_of_cons in Hin as [-> | Hin].
                -- left. exact H3.
                -- right. exists it. auto.
            + intros Hrest. destruct (IHl _ _ Hrest) as (new2 & -> & Hnew2).
              exists new2. split; [reflexivity |]. intros p. rewrite Hnew2. split.
              * intros (it & Hin & H). exists it. split; [right; exact Hin | exact H].
              * intros (it & Hin & H1 & H2 & H3). apply elem_of_cons in Hin as [-> | Hin].
                -- rewrite H1, H2 in Hdir. discriminate.
                -- exists it. auto. }
        intros Hfold. destruct (Hloop _ _ _ Hfold) as (new & -> & Hnew).
        exists new. split; [reflexivity |]. intros p. rewrite Hnew. split.
        -- intros (item & Hin & H1 & H2 & H3). eapply found_below; eassumption.
        -- intros Hf. inversion Hf; subst; [congruence |].
           match goal with
           | H1 : fs_listdir fs path = Listing ?l, H2 : fs_listdir fs path = Listing items |- _ =>
               rewrite H1 in H2; injection H2 as ->
           end.
           eexists. eauto.
      * intros [= <-]. exists []. rewrite app_nil_r. split; [reflexivity |].
        intros p. split; [intros H; apply elem_of_nil in H; contradiction |].
        intros Hf. inversion Hf; subst; congruence.
Qed.

(** X10: when the scan returns, it returns exactly the repository roots it
    can meet from the base path: a path with a [.git] folder, at most
    [max_depth] levels below the base, reached through listable directories
    that are no repository roots and whose names do not start with a dot. *)
Theorem find_git_repos_finds (base_path : string) (max_depth : Z) (repos : list string) :
  find_git_repos fs base_path max_depth = Some repos ->
  forall p, p ∈ repos <-> found fs (Z.to_nat (max_depth + 1)) base_path p.
Proof.
  unfold find_git_repos. intros Hs. destruct (search_spec _ _ _ _ Hs) as (new & -> & Hnew).
  exact Hnew.
Qed.

Lemma found_is_root (levels : nat) (path p : string) :
  found fs levels path p -> fs_isdir fs (path_join p ".git") = true.
Proof. induction 1; assumption. Qed.

(** X11: the scan does not look inside a repository: from a base path that
    has a [.git] folder it returns the base path alone, whatever lies below
    it; with a negative depth it returns nothing; and every path it returns
    has a [.git] folder. *)
Theorem find_git_repos_stops_at_root (base_path : string) (max_depth : Z) :
  (0 <= max_depth -> fs_isdir fs (path_join base_path ".git") = true ->
   find_git_repos fs base_path max_depth = Some [base_path]) /\
  (max_depth < 0 -> find_git_repos fs base_path max_depth = Some []) /\
  (forall repos p, find_git_repos fs base_path max_depth = Some repos -> p ∈ repos ->
                   fs_isdir fs (path_join p ".git") = true).
Proof.
  split; [| split].
  - intros Hd Hgit. unfold find_git_repos.
    replace (Z.to_nat (max_depth + 1)) with (S (Z.to_nat max_depth)) by lia.
    cbn [search]. rewrite Hgit. reflexivity.
  - intros Hd. unfold find_git_repos.
    replace (Z.to_nat (max_depth + 1)) with O by lia. reflexivity.
  - intros repos p Hs Hp. unfold find_git_repos in Hs.
    destruct (search_spec _ _ _ _ Hs) as (new & -> & Hnew). simpl in Hp.
    apply Hnew in Hp. exact (found_is_root _ _ _ Hp).
Qed.

End Scan.

(* ===================================================================== *)
(** * Further properties of the cross-repository totals *)
(* ===================================================================== *)

Section MergeLookups.

Context `{Countable K}.

Lemma counter_dict_add (k j : K) (v : Z) (d : gmap K Z) :
  counter (dict_add k v d) j = counter d j + (if decide (k = j) then v else 0).
Proof.
  unfold counter. rewrite dict_add_lookup. destruct (decide (k = j)) as [-> | Hne]; simpl; lia.
Qed.

Lemma is_Some_dict_add (k j : K) (v : Z) (d : gmap K Z) :
  is_Some (dict_add k v d !! j) <-> k = j \/ is_Some (d !! j).
Proof.
  rewrite dict_add_lookup. destruct (decide (k = j)) as [-> | Hne].
  - split; [auto | intros _; eexists; reflexivity].
  - split; [auto | intros [Hk | Hs]; [contradiction | exact Hs]].
Qed.

Lemma merge_step_lookup (all d : gmap K Z) (j : K) :
  counter (map_fold (fun k count all => dict_add k count all) all d) j
  = counter all j + counter d j /\
  (is_Some (map_fold (fun k count all => dict_add k count all) all d !! j)
   <-> is_Some (all !! j) \/ is_Some (d !! j)).
Proof.
  revert d.
  apply (map_fold_weak_ind
           (fun r m => counter r j = counter all j + counter m j /\
                       (is_Some (r !! j) <-> is_Some (all !! j) \/ is_Some (m !! j)))).
  - unfold counter. rewrite lookup_empty. simpl. split; [lia |].
    split; [auto | intros [Hs | [x Hx]]; [exact Hs | discriminate]].
  - intros i x m r Hi [IHc IHs]. split.
    + rewrite counter_dict_add, IHc. unfold counter at 4. rewrite lookup_insert.
      destruct (decide (i = j)) as [-> | Hne]; simpl.
      * unfold counter at 2. rewrite Hi. simpl. lia.
      * unfold counter. lia.
    + rewrite is_Some_dict_add, IHs, lookup_insert.
      destruct (decide (i = j)) as [-> | Hne].
      * split; [intros _; right; eexists; reflexivity | intros _; left; reflexivity].
      * split; [intros [Hk | Hs]; [contradiction | exact Hs] | auto].
Qed.

Lemma merge_dicts_lookup {A} (d : A -> gmap K Z) (l : list A) (j : K) :
  counter (merge_dicts d l) j = total (fun a => counter (d a) j) l /\
  (is_Some (merge_dicts d l !! j) <-> exists a, a ∈ l /\ is_Some (d a !! j)).
Proof.
  unfold merge_dicts.
  assert (Hgen : forall acc,
            counter (fold_left (fun all repo =>
                       map_fold (fun k count all => dict_add k count all) all (d repo)) l acc) j
            = counter acc j + total (fun a => counter (d a) j) l /\
            (is_Some (fold_left (fun all repo =>
                       map_fold (fun k count all => dict_add k count all) all (d repo)) l acc !! j)
             <-> is_Some (acc !! j) \/ exists a, a ∈ l /\ is_Some (d a !! j))).
  { induction l as [|a l IH]; intros acc; simpl.
    - split; [lia |]. split; [auto | intros [Hs | (a & Ha & _)]; [exact Hs |]].
      apply elem_of_nil in Ha. contradiction.
    - destruct (IH (map_fold (fun k count all => dict_add k count all) acc (d a))) as [IHc IHs].
      destruct (merge_step_lookup acc (d a) j) as [Hc Hs]. split.
      + rewrite IHc, Hc. lia.
      + rewrite IHs, Hs. split.
        * intros [[Ha | Ha] | (b & Hb & Hbs)]; [auto | right; exists a; split; [left | exact Ha] |].
          right. exists b. split; [right; exact Hb | exact Hbs].
        * intros [Ha | (b & Hb & Hbs)]; [auto |].
          apply elem_of_cons in Hb as [-> | Hb]; [auto | right; exists b; auto]. }
  destruct (Hgen ∅) as [Hc Hs]. split.
  - rewrite Hc. unfold counter at 1. rewrite lookup_empty. simpl. lia.
  - rewrite Hs. split; [intros [[x Hx] | Hex]; [rewrite lookup_empty in Hx; discriminate | exact Hex] | auto].
Qed.

End MergeLookups.

Lemma get_total_stats_fields (self : GitAnalyzer.t) (stats : TotalStats.t) :
  get_total_stats self = Ok stats ->
  TotalStats.total_repos stats = Z.of_nat (length (GitAnalyzer._repos self)) /\
  TotalStats.total_commits stats = sum_over RepoStats.total_commits (GitAnalyzer._repos self) /\
  TotalStats.total_lines_added stats
  = sum_over RepoStats.total_lines_added (GitAnalyzer._repos self) /\
  TotalStats.total_lines_removed stats
  = sum_over RepoStats.total_lines_removed (GitAnalyzer._repos self) /\
  TotalStats.total_files_changed stats
  = sum_over RepoStats.total_files_changed (GitAnalyzer._repos self) /\
  TotalStats.total_lines_changed stats
  = TotalStats.total_lines_added stats + TotalStats.total_lines_removed stats /\
  TotalStats.languages stats = merge_dicts RepoStats.languages (GitAnalyzer._repos self) /\
  TotalStats.contribution_types stats
  = merge_dicts RepoStats.contribution_types (GitAnalyzer._repos self).
Proof.
  unfold get_total_stats.
  destruct (contribution_percentages_of _) as [pcts|e]; [| discriminate].
  cbn [mbind outcome_bind]. intros [= <-]. repeat split.
Qed.

(** X12: in the aggregate of [get_total_stats], the count of a language and
    the count of a contribution type are the sums of the counts the
    repositories have for it (none counting as zero), and a key is present
    exactly when some repository has it. *)
Theorem merged_counts_are_sums (self : GitAnalyzer.t) (stats : TotalStats.t) :
  get_total_stats self = Ok stats ->
  (forall l, counter (TotalStats.languages stats) l
             = total (fun repo => counter (RepoStats.languages repo) l) (GitAnalyzer._repos self)) /\
  (forall l, is_Some (TotalStats.languages stats !! l) <->
             exists repo, repo ∈ GitAnalyzer._repos self /\ is_Some (RepoStats.languages repo !! l)) /\
  (forall k, counter (TotalStats.contribution_types stats) k
             = total (fun repo => counter (RepoStats.contribution_types repo) k)
                 (GitAnalyzer._repos self)) /\
  (forall k, is_Some (TotalStats.contribution_types stats !! k) <->
             exists repo, repo ∈ GitAnalyzer._repos self /\
                          is_Some (RepoStats.contribution_types repo !! k)).
Proof.
  intros Hok. destruct (get_total_stats_fields self stats Hok)
    as (_ & _ & _ & _ & _ & _ & -> & ->).
  split; [intros l; apply merge_dicts_lookup |].
  split; [intros l; apply merge_dicts_lookup |].
  split; [intros k; apply merge_dicts_lookup |].
  intros k; apply merge_dicts_lookup.
Qed.

Section AnalyzedConsistent.

Lemma analyze_repo_keeps_consistent (W : World) (self : GitAnalyzer.t) (repo_path : string) :
  Forall repo_consistent (GitAnalyzer._repos self) ->
  Forall repo_consistent (GitAnalyzer._repos (snd (analyze_repo W self repo_path))).
Proof.
  intros Hself. destruct (analyze_repo_snd W self repo_path) as [_ Hrepos]. rewrite Hrepos.
  apply Forall_app. split; [exact Hself |].
  destruct (analyze_repo W self repo_path) as [[[stats|]|e] self'] eqn:Hres; simpl;
    try constructor; [| constructor].
  destruct (analyze_repo_success W _ _ _ _ Hres)
    as (output & _ & Hc & Hn & Ha & Hr & Hf & _).
  unfold repo_consistent. rewrite Hn, Ha, Hr, Hf, Hc, !sum_over_total.
  repeat split. apply parsed_commits_all_consistent.
Qed.

Lemma analyzed_consistent (self : GitAnalyzer.t) :
  analyzed self -> Forall repo_consistent (GitAnalyzer._repos self).
Proof.
  induction 1 as [author_email author_name | W self repo_path _ IH]; [constructor |].
  apply analyze_repo_keeps_consistent, IH.
Qed.

Lemma total_concat {A B} (f : B -> Z) (g : A -> list B) (l : list A) :
  total f (concat (map g l)) = total (fun a => total f (g a)) l.
Proof. induction l as [|a l IH]; simpl; [reflexivity | rewrite total_app, IH; reflexivity]. Qed.

Lemma total_ext_in {A} (f g : A -> Z) (l : list A) :
  Forall (fun a => f a = g a) l -> total f l = total g l.
Proof. induction 1 as [|a l Ha _ IH]; simpl; [reflexivity | rewrite Ha, IH; reflexivity]. Qed.

(** X13: for an analyzer built by [analyze_repo] calls, the totals of
    [get_total_stats] trace back to the commits and to the file
    classifications of all repositories: the commit total is the number of
    commits, the file total the number of file classifications, and the
    added and removed lines are the sums over the file classifications. *)
Theorem totals_trace_to_classifications (self : GitAnalyzer.t) (stats : TotalStats.t) :
  analyzed self ->
  get_total_stats self = Ok stats ->
  TotalStats.total_commits stats = Z.of_nat (length (commits_of self)) /\
  TotalStats.total_files_changed stats
  = Z.of_nat (length (classifications_of (commits_of self))) /\
  TotalStats.total_lines_added stats = total lines_added (classifications_of (commits_of self)) /\
  TotalStats.total_lines_removed stats
  = total lines_removed (classifications_of (commits_of self)).
Proof.
  intros Hself Hok. destruct (get_total_stats_fields self stats Hok)
    as (_ & -> & -> & -> & -> & _).
  pose proof (analyzed_consistent self Hself) as Hcons.
  rewrite !sum_over_total. unfold commits_of, classifications_of.
  induction Hcons as [|repo repos (Hn & Ha & Hr & Hf & Hcommits) _ IH]; simpl;
    [repeat split |].
  destruct IH as (I1 & I2 & I3 & I4).
  rewrite map_app, concat_app, !length_app, !total_app, Hn, Ha, Hr, Hf, I1, I2, I3, I4.
  assert (Hrepo : total CommitInfo.files_changed (RepoStats.commits repo)
                  = Z.of_nat (length (concat (map CommitInfo.file_classifications
                                                (RepoStats.commits repo)))) /\
                  total CommitInfo.lines_added (RepoStats.commits repo)
                  = total lines_added (concat (map CommitInfo.file_classifications
                                                 (RepoStats.commits repo))) /\
                  total CommitInfo.lines_removed (RepoStats.commits repo)
                  = total lines_removed (concat (map CommitInfo.file_classifications
                                                   (RepoStats.commits repo)))).
  { clear -Hcommits. induction Hcommits as [|c cs (Hf & Ha & Hr & _) _ IH]; simpl;
      [repeat split |].
    destruct IH as (I1 & I2 & I3).
    rewrite length_app, !total_app, Hf, Ha, Hr, I1, I2, I3. repeat split; lia. }
  destruct Hrepo as (R1 & R2 & R3). rewrite R1, R2, R3. repeat split; lia.
Qed.

End AnalyzedConsistent.

(* ===================================================================== *)
(** * Further properties of the activity periods *)
(* ===================================================================== *)

Lemma sub_days_mod (w k : Z) : (w - k * DAY) mod DAY = w mod DAY.
Proof. rewrite <- Z.add_opp_r, <- Z.mul_opp_l. apply Z.mod_add. discriminate. Qed.

Lemma midnight_multiple (w : Z) : w - w mod DAY = DAY * (w / DAY).
Proof. pose proof (Z.div_mod w DAY). unfold DAY in *. lia. Qed.

Section PeriodBounds.

Variable strftime : datetime -> string -> string.
Variable first_of_month : datetime -> datetime.

(** X14: the periods [day] and [week] end now and start at a midnight in the
    timezone of now: today's midnight, less than a day back, for [day]; the
    midnight of a Monday, less than seven days back, for [week]. A period
    name other than [day], [week] and [month] is not rejected: unless it is
    [custom] with both bounds given, the period is the last seven days up
    to now. *)
Theorem summary_periods (now : datetime) (period : string)
    (custom_start custom_end : option datetime) :
  (exists start,
     period_of strftime first_of_month now "day" custom_start custom_end
     = (start, now, "Today") /\
     tzinfo start = tzinfo now /\ wall start mod DAY = 0 /\
     0 <= wall now - wall start < DAY) /\
  (exists start,
     period_of strftime first_of_month now "week" custom_start custom_end
     = (start, now, "This Week") /\
     tzinfo start = tzinfo now /\ wall start mod DAY = 0 /\ weekday start = 0 /\
     0 <= wall now - wall start < 7 * DAY) /\
  (period <> "day" -> period <> "week" -> period <> "month" ->
   period <> "custom" \/ custom_start = None \/ custom_end = None ->
   period_of strftime first_of_month now period custom_start custom_end
   = (dt_sub now (7 * DAY), now, "Last 7 Days")).
Proof.
  split; [| split].
  - eexists. split; [reflexivity |]. split; [reflexivity |].
    unfold midnight. cbn [wall]. rewrite midnight_multiple.
    pose proof (Z.div_mod (wall now) DAY) as Hd.
    pose proof (Z.mod_pos_bound (wall now) DAY) as Hb.
    split; [rewrite Z.mul_comm; apply Z.mod_mul; discriminate |].
    unfold DAY in *. lia.
  - eexists. split; [reflexivity |]. split; [reflexivity |].
    unfold midnight, dt_sub, weekday. cbn [wall].
    rewrite sub_days_mod.
    set (w := wall now).
    pose proof (Z.div_mod w DAY) as Hd.
    pose proof (Z.mod_pos_bound w DAY) as Hb.
    pose proof (Z.div_mod (w / DAY) 7) as Hq.
    pose proof (Z.mod_pos_bound (w / DAY) 7) as Hqb.
    assert (Hstart : w - (w / DAY) mod 7 * DAY - w mod DAY = (7 * (w / DAY / 7)) * DAY)
      by (unfold DAY in *; lia).
    rewrite Hstart. split; [apply Z.mod_mul; discriminate |].
    split; [rewrite Z.div_mul by discriminate; rewrite Z.mul_comm; apply Z.mod_mul; discriminate |].
    unfold DAY in *. lia.
  - intros Hd Hw Hm Hc. unfold period_of.
    apply String.eqb_neq in Hd, Hw, Hm. rewrite Hd, Hw, Hm.
    destruct (String.eqb period "custom") eqn:Hcu.
    + apply String.eqb_eq in Hcu. destruct Hc as [Hc | [-> | ->]]; [contradiction | reflexivity |].
      destruct custom_start; reflexivity.
    + destruct custom_start, custom_end; reflexivity.
Qed.

End PeriodBounds.

Lemma summary_periods_witness :
  period_of (fun _ fmt => fmt) midnight demo_now "custom" (Some noon_2024_01_01) None
  = (dt_sub demo_now (7 * DAY), demo_now, "Last 7 Days").
Proof.
  apply (summary_periods (fun _ fmt => fmt) midnight demo_now "custom"
           (Some noon_2024_01_01) None); try discriminate.
  right. right. reflexivity.
Defined.

(* ===================================================================== *)
(** * What a summary counts besides commits and lines *)
(* ===================================================================== *)

Section CountedFacts.

Lemma union_insert_swap (A B C : gset string) : A ∪ (B ∪ C) = (B ∪ A) ∪ C.
Proof. rewrite (assoc_L (∪)), (comm_L (∪) A B). reflexivity. Qed.

Lemma union_insert_twice (B C : gset string) : B ∪ (B ∪ C) = B ∪ C.
Proof. rewrite (assoc_L (∪)), (idemp_L (∪) B). reflexivity. Qed.

Lemma size_list_to_set_le (l : list string) :
  (size (list_to_set l : gset string) <= length l)%nat.
Proof.
  induction l as [|a l IH]; [rewrite list_to_set_nil, size_empty; simpl; lia |].
  rewrite list_to_set_cons, size_union_alt, size_singleton. simpl length.
  pose proof (subseteq_size (list_to_set l ∖ {[a]}) (list_to_set l : gset string)
                (subseteq_difference_l _ _ _ (reflexivity _))).
  lia.
Qed.

(** A loop body that, for a counted commit, adds the repository name to
    [active_repos]. *)
Lemma fold_active (step : counters -> RepoStats.t -> CommitInfo.t -> counters)
    (counted : CommitInfo.t -> bool) (repos : list RepoStats.t) (c : counters) :
  (forall c repo commit,
     active_repos (step c repo commit)
     = if counted commit then {[RepoStats.name repo]} ∪ active_repos c else active_repos c) ->
  active_repos (fold_left (fun s repo => fold_left (fun s commit => step s repo commit)
                                           (RepoStats.commits repo) s) repos c)
  = active_names counted repos ∪ active_repos c.
Proof.
  intros Hstep. revert c. induction repos as [|repo repos IH]; intros c; simpl.
  - unfold active_names. simpl. rewrite (left_id_L ∅ (∪)). reflexivity.
  - rewrite IH.
    assert (Hinner : forall commits c0,
              active_repos (fold_left (fun s commit => step s repo commit) commits c0)
              = (if existsb counted commits then {[RepoStats.name repo]} else ∅)
                ∪ active_repos c0).
    { induction commits as [|commit commits IHc]; intros c0; simpl;
        [rewrite (left_id_L ∅ (∪)); reflexivity |].
      rewrite IHc, Hstep. destruct (counted commit), (existsb counted commits); simpl;
        rewrite ?(left_id_L ∅ (∪)), ?union_insert_twice; reflexivity. }
    rewrite Hinner. unfold active_names. simpl.
    destruct (existsb counted (RepoStats.commits repo)); simpl.
    + apply union_insert_swap.
    + rewrite (left_id_L ∅ (∪)). reflexivity.
Qed.

Lemma active_names_spec (counted : CommitInfo.t -> bool) (repos : list RepoStats.t) (n : string) :
  n ∈ active_names counted repos <->
  exists repo commit, repo ∈ repos /\ commit ∈ RepoStats.commits repo /\
                      counted commit = true /\ RepoStats.name repo = n.
Proof.
  unfold active_names. rewrite elem_of_list_to_set, list_elem_of_fmap. split.
  - intros (repo & -> & Hin). apply list_elem_of_In, List.filter_In in Hin as [Hin Hex].
    apply existsb_exists in Hex as (commit & Hc & Hcounted).
    exists repo, commit. rewrite !list_elem_of_In. auto.
  - intros (repo & commit & Hin & Hc & Hcounted & <-). exists repo. split; [reflexivity |].
    apply list_elem_of_In, List.filter_In. split; [apply list_elem_of_In; exact Hin |].
    apply existsb_exists. exists commit. split; [apply list_elem_of_In; exact Hc | exact Hcounted].
Qed.

Lemma add_classifications_lookup (fcs : list FileClassification)
    (acc : gmap ContributionType Z * gmap string Z) :
  let acc' := fold_left add_classification fcs acc in
  (forall k, counter (fst acc') k
             = counter (fst acc) k
               + total (fun fc => if decide (contribution_type fc = k)
                                  then lines_added fc + lines_removed fc else 0) fcs) /\
  (forall l, l <> EmptyString ->
             counter (snd acc') l
             = counter (snd acc) l
               + total (fun fc => if decide (language fc = Some l)
                                  then lines_added fc + lines_removed fc else 0) fcs) /\
  dict_sum (fst acc') = dict_sum (fst acc) + total (fun fc => lines_added fc + lines_removed fc) fcs.
Proof.
  revert acc. induction fcs as [|fc fcs IH]; intros acc; simpl.
  - repeat split; intros; lia.
  - destruct (IH (add_classification acc fc)) as (I1 & I2 & I3). split; [| split].
    + intros k. rewrite I1. unfold add_classification. cbn [fst].
      unfold counter. rewrite dict_add_lookup.
      destruct (decide (contribution_type fc = k)) as [-> | Hne]; simpl; lia.
    + intros l Hl. rewrite (I2 l Hl). unfold add_classification. cbn [snd].
      destruct (language fc) as [l'|] eqn:Hlang.
      * destruct (PyStr.truthy l') eqn:Ht.
        -- unfold counter. rewrite dict_add_lookup.
           destruct (decide (l' = l)) as [-> | Hne].
           ++ rewrite decide_True by reflexivity. simpl. lia.
           ++ rewrite decide_False by congruence. lia.
        -- assert (l' = EmptyString) as -> by (destruct l'; [reflexivity | discriminate]).
           rewrite decide_False by congruence. lia.
      * rewrite decide_False by discriminate. lia.
    + rewrite I3. unfold add_classification. cbn [fst]. rewrite dict_sum_add. lia.
Qed.

Lemma fold_breakdowns (start end_ : datetime) (repos : list RepoStats.t) (c : counters) :
  let c' := fold_left (fun s repo => fold_left (fun s commit => summary_step start end_ s repo commit)
                                       (RepoStats.commits repo) s) repos c in
  let counted := List.filter (in_period start end_) (concat (map RepoStats.commits repos)) in
  (forall k, counter (fst (breakdowns c')) k
             = counter (fst (breakdowns c)) k + lines_by_category k counted) /\
  (forall l, l <> EmptyString ->
             counter (snd (breakdowns c')) l
             = counter (snd (breakdowns c)) l + lines_by_language l counted) /\
  dict_sum (fst (breakdowns c'))
  = dict_sum (fst (breakdowns c))
    + total (fun commit => total (fun fc => lines_added fc + lines_removed fc)
                             (CommitInfo.file_classifications commit)) counted.
Proof.
  assert (Hinner : forall repo commits c0,
            let c1 := fold_left (fun s commit => summary_step start end_ s repo commit) commits c0 in
            let counted := List.filter (in_period start end_) commits in
            (forall k, counter (fst (breakdowns c1)) k
                       = counter (fst (breakdowns c0)) k + lines_by_category k counted) /\
            (forall l, l <> EmptyString ->
                       counter (snd (breakdowns c1)) l
                       = counter (snd (breakdowns c0)) l + lines_by_language l counted) /\
            dict_sum (fst (breakdowns c1))
            = dict_sum (fst (breakdowns c0))
              + total (fun commit => total (fun fc => lines_added fc + lines_removed fc)
                                       (CommitInfo.file_classifications commit)) counted).
  { intros repo. induction commits as [|commit commits IHc]; intros c0; simpl.
    - repeat split; intros; unfold lines_by_category, lines_by_language; simpl; lia.
    - destruct (IHc (summary_step start end_ c0 repo commit)) as (I1 & I2 & I3).
      simpl in I1, I2, I3. unfold summary_step in *.
      destruct (in_period start end_ commit); [| repeat split; assumption].
      cbn [breakdowns] in *.
      destruct (add_classifications_lookup (CommitInfo.file_classifications commit)
                  (breakdowns c0)) as (A1 & A2 & A3). simpl in A1, A2, A3.
      unfold lines_by_category, lines_by_language in *. simpl.
      split; [| split].
      + intros k. rewrite I1, A1. unfold category_lines at 2. lia.
      + intros l Hl. rewrite (I2 l Hl), (A2 l Hl). unfold language_lines at 2. lia.
      + rewrite I3, A3. lia. }
  revert c. induction repos as [|repo repos IH]; intros c; simpl.
  - repeat split; intros; unfold lines_by_category, lines_by_language; simpl; lia.
  - destruct (IH (fold_left (fun s commit => summary_step start end_ s repo commit)
                    (RepoStats.commits repo) c)) as (I1 & I2 & I3). simpl in I1, I2, I3.
    destruct (Hinner repo (RepoStats.commits repo) c) as (H1 & H2 & H3). simpl in H1, H2, H3.
    unfold lines_by_category, lines_by_language in *.
    rewrite List.filter_app.
    split; [| split].
    + intros k. rewrite total_app, I1, H1. lia.
    + intros l Hl. rewrite total_app, (I2 l Hl), (H2 l Hl). lia.
    + rewrite total_app, I3, H3. lia.
Qed.

Lemma summary_step_active (start end_ : datetime) (c : counters)
    (repo : RepoStats.t) (commit : CommitInfo.t) :
  active_repos (summary_step start end_ c repo commit)
  = if in_period start end_ commit then {[RepoStats.name repo]} ∪ active_repos c
    else active_repos c.
Proof. unfold summary_step. destruct (in_period start end_ commit); reflexivity. Qed.

Lemma weekly_step_active (start end_ : datetime) (c : counters)
    (repo : RepoStats.t) (commit : CommitInfo.t) :
  active_repos (weekly_step start end_ c repo commit)
  = if in_period start end_ commit then {[RepoStats.name repo]} ∪ active_repos c
    else active_repos c.
Proof. unfold weekly_step. destruct (in_period start end_ commit); reflexivity. Qed.

End CountedFacts.

Section SummaryBreakdowns.

Variable strftime : datetime -> string -> string.
Variable first_of_month : datetime -> datetime.

Lemma analyzed_commits_consistent (self : GitAnalyzer.t) :
  analyzed self -> Forall commit_consistent (commits_of self).
Proof.
  intros Hself. pose proof (analyzed_consistent self Hself) as Hr. unfold commits_of.
  induction Hr as [|repo repos (_ & _ & _ & _ & Hc) _ IH]; simpl; [constructor |].
  apply Forall_app. split; assumption.
Qed.

Lemma counted_lines_consistent (counted : CommitInfo.t -> bool) (commits : list CommitInfo.t) :
  Forall commit_consistent commits ->
  total (fun commit => total (fun fc => lines_added fc + lines_removed fc)
                         (CommitInfo.file_classifications commit))
    (List.filter counted commits)
  = total CommitInfo.lines_added (List.filter counted commits)
    + total CommitInfo.lines_removed (List.filter counted commits).
Proof.
  assert (Hsplit : forall fcs, total (fun fc => lines_added fc + lines_removed fc) fcs
                               = total lines_added fcs + total lines_removed fcs)
    by (induction fcs as [|fc fcs IHf]; simpl; lia).
  induction 1 as [|commit commits' (_ & Ha & Hr & _) _ IH]; simpl; [reflexivity |].
  destruct (counted commit); simpl; [| exact IH].
  rewrite Ha, Hr, Hsplit. lia.
Qed.

Lemma get_activity_summary_ok (self : GitAnalyzer.t) (now : datetime)
    (period : string) (custom_start custom_end : option datetime)
    (start end_ : datetime) (label : string) :
  period_of strftime first_of_month now period custom_start custom_end = (start, end_, label) ->
  aware start -> aware end_ ->
  get_activity_summary strftime first_of_month self now period custom_start custom_end
  = let c := fold_left (fun s repo => fold_left (fun s commit => summary_step start end_ s repo commit)
                                        (RepoStats.commits repo) s)
               (GitAnalyzer._repos self) counters_init in
    Ok (ActivitySummary.mk start end_ label
          (n_commits c) (n_lines_added c) (n_lines_removed c) (n_files_changed c)
          (Z.of_nat (size (active_repos c)))
          (fst (breakdowns c)) (snd (breakdowns c))).
Proof.
  intros Hp Hs He. unfold get_activity_summary. rewrite Hp.
  rewrite (for_each_commit_ok _ _ (summary_step start end_))
    by (intros; apply summary_body_step; assumption).
  reflexivity.
Qed.

(** X15: [repos_active] of a summary is the number of distinct names of the
    repositories with a counted commit, so two repositories with the same
    folder name count once; it is at most the number of repositories. *)
Theorem repos_active_counts_names (self : GitAnalyzer.t) (now : datetime)
    (period : string) (custom_start custom_end : option datetime)
    (start end_ : datetime) (label : string) :
  period_of strftime first_of_month now period custom_start custom_end = (start, end_, label) ->
  aware start -> aware end_ ->
  exists summary (names : gset string),
    get_activity_summary strftime first_of_month self now period custom_start custom_end
    = Ok summary /\
    ActivitySummary.repos_active summary = Z.of_nat (size names) /\
    (forall n, n ∈ names <->
       exists repo commit,
         repo ∈ GitAnalyzer._repos self /\ commit ∈ RepoStats.commits repo /\
         in_period start end_ commit = true /\ RepoStats.name repo = n) /\
    ActivitySummary.repos_active summary <= Z.of_nat (length (GitAnalyzer._repos self)).
Proof.
  intros Hp Hs He. rewrite (get_activity_summary_ok self _ _ _ _ _ _ _ Hp Hs He). cbv zeta.
  eexists. exists (active_names (in_period start end_) (GitAnalyzer._repos self)).
  split; [reflexivity |]. cbn [ActivitySummary.repos_active].
  rewrite (fold_active (summary_step start end_) (in_period start end_))
    by apply summary_step_active.
  cbn [active_repos counters_init]. rewrite (right_id_L ∅ (∪)).
  split; [reflexivity |]. split; [apply active_names_spec |].
  apply inj_le. unfold active_names.
  etransitivity; [apply size_list_to_set_le |].
  rewrite length_map. apply List.filter_length_le.
Qed.

(** X16: the contribution breakdown of a summary gives, per category, the
    added and removed lines of the counted commits' files of that category,
    and the language breakdown the same per language. For an analyzer built
    by [analyze_repo] calls the contribution breakdown adds up to the
    summary's added plus removed lines. *)
Theorem summary_breakdowns (self : GitAnalyzer.t) (now : datetime)
    (period : string) (custom_start custom_end : option datetime)
    (start end_ : datetime) (label : string) :
  period_of strftime first_of_month now period custom_start custom_end = (start, end_, label) ->
  aware start -> aware end_ ->
  exists summary,
    get_activity_summary strftime first_of_month self now period custom_start custom_end
    = Ok summary /\
    let counted := List.filter (in_period start end_) (commits_of self) in
    (forall k, counter (ActivitySummary.contribution_breakdown summary) k
               = lines_by_category k counted) /\
    (forall l, l <> EmptyString ->
               counter (ActivitySummary.language_breakdown summary) l
               = lines_by_language l counted) /\
    (analyzed self ->
     dict_sum (ActivitySummary.contribution_breakdown summary)
     = ActivitySummary.lines_added summary + ActivitySummary.lines_removed summary).
Proof.
  intros Hp Hs He. rewrite (get_activity_summary_ok self _ _ _ _ _ _ _ Hp Hs He). cbv zeta.
  eexists. split; [reflexivity |].
  cbn [ActivitySummary.contribution_breakdown ActivitySummary.language_breakdown
       ActivitySummary.lines_added ActivitySummary.lines_removed].
  destruct (fold_breakdowns start end_ (GitAnalyzer._repos self) counters_init)
    as (B1 & B2 & B3). simpl in B1, B2, B3.
  destruct (summary_repos_counts start end_ (GitAnalyzer._repos self) counters_init)
    as (_ & C2 & C3 & _). simpl in C2, C3.
  fold (commits_of self) in B1, B2, B3, C2, C3.
  split; [| split].
  - intros k. rewrite B1. unfold counter. rewrite lookup_empty. simpl. lia.
  - intros l Hl. rewrite (B2 l Hl). unfold counter. rewrite lookup_empty. simpl. lia.
  - intros Hself. rewrite B3, C2, C3, dict_sum_empty.
    rewrite (counted_lines_consistent (in_period start end_) (commits_of self)
               (analyzed_commits_consistent self Hself)). lia.
Qed.

(** X17: a custom period is not checked: with aware bounds in the wrong
    order the summary is returned with nothing counted. *)
Theorem reversed_custom_period_is_empty (self : GitAnalyzer.t) (now start end_ : datetime) :
  aware start -> aware end_ -> instant end_ < instant start ->
  get_activity_summary strftime first_of_month self now "custom" (Some start) (Some end_)
  = Ok (ActivitySummary.mk start end_
          (strftime start "%Y-%m-%d" +:+ " to " +:+ strftime end_ "%Y-%m-%d")
          0 0 0 0 0 ∅ ∅).
Proof.
  intros Hs He Hlt.
  rewrite (get_activity_summary_ok self now "custom" (Some start) (Some end_) start end_
             (strftime start "%Y-%m-%d" +:+ " to " +:+ strftime end_ "%Y-%m-%d")
             eq_refl Hs He). cbv zeta.
  assert (Hnone : forall commit, in_period start end_ commit = false).
  { intros commit. unfold in_period. apply andb_false_iff.
    destruct (instant start <=? instant (with_period_tz (CommitInfo.date commit) (tzinfo start)))
      eqn:H1; [right | left; reflexivity].
    apply Z.leb_le in H1. apply Z.leb_gt. lia. }
  assert (Hfold : forall repos c,
            fold_left (fun s repo => fold_left (fun s commit => summary_step start end_ s repo commit)
                                       (RepoStats.commits repo) s) repos c = c).
  { induction repos as [|repo repos IH]; intros c; simpl; [reflexivity |].
    assert (Hin : forall commits c0,
              fold_left (fun s commit => summary_step start end_ s repo commit) commits c0 = c0).
    { induction commits as [|commit commits IHc]; intros c0; simpl; [reflexivity |].
      unfold summary_step at 2. rewrite Hnone. apply IHc. }
    rewrite Hin. apply IH. }
  rewrite Hfold. reflexivity.
Qed.

End SummaryBreakdowns.

(* ===================================================================== *)
(** * Further properties of the rolling buckets *)
(* ===================================================================== *)

Lemma foldM_collect {A B} (body : A -> outcome B) (f : A -> B) (l : list A) (acc : list B) :
  (forall a, a ∈ l -> body a = Ok (f a)) ->
  foldM (fun summaries a => summary ← body a; Ok (summaries ++ [summary])) l acc
  = Ok (acc ++ map f l).
Proof.
  revert acc. induction l as [|a l IH]; intros acc Hb; simpl.
  - rewrite app_nil_r. reflexivity.
  - rewrite (Hb a) by apply list_elem_of_here. cbn [mbind outcome_bind].
    rewrite IH, <- app_assoc; [reflexivity |].
    intros x Hx. apply Hb, list_elem_of_further, Hx.
Qed.

(** The loop stops at the first element whose body raises. *)
Lemma foldM_collect_raise {A B} (body : A -> outcome B) (f : A -> B)
    (l1 : list A) (a : A) (l2 : list A) (acc : list B) (e : exn) :
  (forall x, x ∈ l1 -> body x = Ok (f x)) -> body a = Raise e ->
  foldM (fun summaries a => summary ← body a; Ok (summaries ++ [summary])) (l1 ++ a :: l2) acc
  = Raise e.
Proof.
  intros Hok Hraise. rewrite foldM_app, (foldM_collect body f l1 acc Hok).
  cbn [mbind outcome_bind foldM]. rewrite Hraise. reflexivity.
Qed.

Lemma length_range (n : Z) : length (range n) = Z.to_nat n.
Proof. unfold range. rewrite length_map, length_seq. reflexivity. Qed.

Lemma elem_of_range (i n : Z) : i ∈ range n -> 0 <= i < n.
Proof.
  unfold range. intros Hi. apply list_elem_of_fmap in Hi as (k & -> & Hk).
  apply list_elem_of_In, in_seq in Hk. lia.
Qed.

Lemma range_split (k n : Z) :
  0 <= k < n -> exists rest, range n = range k ++ k :: rest.
Proof.
  intros Hk. unfold range.
  replace (Z.to_nat n) with (Z.to_nat k + S (Z.to_nat (n - k - 1)))%nat by lia.
  rewrite seq_app, map_app. cbn [seq map]. rewrite Nat.add_0_l, Z2Nat.id by lia.
  eexists. reflexivity.
Qed.

(** A day that many days back is a day of [datetime] when it is not before
    the first one. *)
Lemma days_back_in_range (w i : Z) :
  in_range w = true -> 0 <= i -> in_range (w - i * DAY) = (i <=? w / DAY).
Proof.
  unfold in_range, MAXWALL. intros Hw Hi.
  apply andb_true_iff in Hw as [H0 H1]. apply Z.leb_le in H0. apply Z.ltb_lt in H1.
  pose proof (Z.div_mod w DAY) as Hd. pose proof (Z.mod_pos_bound w DAY) as Hb.
  destruct (Z.leb_spec i (w / DAY)).
  - apply andb_true_iff. rewrite Z.leb_le, Z.ltb_lt. unfold DAY in *. lia.
  - apply andb_false_iff. left. apply Z.leb_gt. unfold DAY in *. lia.
Qed.

(** The Monday of the week [i] weeks back, on the wall clock *)
Lemma week_monday_wall (now : datetime) (i : Z) :
  wall now - (weekday now + i * 7) * DAY
  = 7 * (wall now / DAY / 7 - i) * DAY + wall now mod DAY.
Proof.
  unfold weekday.
  pose proof (Z.div_mod (wall now) DAY) as Hd.
  pose proof (Z.div_mod (wall now / DAY) 7) as Hq.
  unfold DAY in *. lia.
Qed.

Lemma week_start_wall (now : datetime) (i : Z) :
  wall (week_start now i) = 7 * (wall now / DAY / 7 - i) * DAY.
Proof.
  unfold week_start, midnight, dt_sub. cbn [wall]. rewrite sub_days_mod.
  rewrite week_monday_wall. lia.
Qed.

Section BucketLists.

Variable strftime : datetime -> string -> string.

(** The bucket of a day before the first day of [datetime] *)
Lemma daily_summary_raises (self : GitAnalyzer.t) (now : datetime) (i : Z) :
  in_range (wall now - i * DAY) = false ->
  daily_summary strftime self now i = Raise OverflowError.
Proof.
  intros Hr. unfold daily_summary, timedelta_days, dt_minus.
  destruct ((-999999999 <=? i) && (i <=? 999999999)); [| reflexivity].
  cbn [mbind outcome_bind]. rewrite Hr. reflexivity.
Qed.

(** X18: with an aware clock, [get_daily_activity] returns one bucket per
    day, today first, none when [days] is not positive, as long as the days
    asked for do not reach before 0001-01-01, the first day of [datetime];
    when they do, it raises [OverflowError]. Bucket [i] spans the day [i]
    days back, counts that day's commits and their added and removed lines,
    and leaves the file count, the active repositories and the breakdowns at
    their defaults. *)
Theorem daily_activity_buckets (self : GitAnalyzer.t) (now : datetime) (days : Z) :
  aware now ->
  in_range (wall now) = true ->
  (days <= wall now / DAY + 1 ->
   get_daily_activity strftime self now days
   = Ok (map (fun i =>
                let counted := List.filter (in_period (day_start now i) (day_end now i))
                                 (commits_of self) in
                ActivitySummary.mk (day_start now i) (day_end now i)
                  (strftime (dt_sub now (i * DAY)) "%A, %b %d")
                  (Z.of_nat (length counted))
                  (total CommitInfo.lines_added counted)
                  (total CommitInfo.lines_removed counted)
                  0 0 ∅ ∅)
           (range days))) /\
  (wall now / DAY + 1 < days ->
   get_daily_activity strftime self now days = Raise OverflowError) /\
  length (range days) = Z.to_nat days.
Proof.
  intros Hn Hw.
  assert (Hmax : 0 <= wall now / DAY < 3652059).
  { unfold in_range, MAXWALL in Hw. apply andb_true_iff in Hw as [H0 H1].
    apply Z.leb_le in H0. apply Z.ltb_lt in H1.
    pose proof (Z.div_mod (wall now) DAY) as Hd.
    pose proof (Z.mod_pos_bound (wall now) DAY) as Hb. unfold DAY in *. lia. }
  assert (Hok : forall bound i, bound <= wall now / DAY + 1 -> i ∈ range bound ->
            daily_summary strftime self now i
            = Ok (let counted := List.filter (in_period (day_start now i) (day_end now i))
                                   (commits_of self) in
                  ActivitySummary.mk (day_start now i) (day_end now i)
                    (strftime (dt_sub now (i * DAY)) "%A, %b %d")
                    (Z.of_nat (length counted))
                    (total CommitInfo.lines_added counted)
                    (total CommitInfo.lines_removed counted)
                    0 0 ∅ ∅)).
  { intros bound i Hbound Hi. apply elem_of_range in Hi.
    apply (daily_summary_counts strftime self now i Hn); [lia |].
    rewrite (days_back_in_range _ _ Hw) by lia. apply Z.leb_le. lia. }
  split; [| split; [| apply length_range]].
  - intros Hdays. unfold get_daily_activity.
    rewrite (foldM_collect (daily_summary strftime self now) _ (range days) []
               (fun i => Hok days i Hdays)).
    reflexivity.
  - intros Hdays. unfold get_daily_activity.
    destruct (range_split (wall now / DAY + 1) days) as [rest ->]; [lia |].
    apply (foldM_collect_raise (daily_summary strftime self now) _ _ _ _ []
             OverflowError (fun i => Hok (wall now / DAY + 1) i (Z.le_refl _))).
    apply daily_summary_raises. rewrite (days_back_in_range _ _ Hw) by lia.
    apply Z.leb_gt. lia.
Qed.

Lemma weekly_summary_ok (self : GitAnalyzer.t) (now : datetime) (i : Z) :
  aware now ->
  -999999999 <= weekday now + i * 7 <= 999999999 ->
  in_range (wall now - (weekday now + i * 7) * DAY) = true ->
  in_range (wall (week_start now i) + WEEK_SPAN) = true ->
  let counted := List.filter (in_period (week_start now i) (week_end now i)) (commits_of self) in
  weekly_summary strftime self now i
  = Ok (ActivitySummary.mk (week_start now i) (week_end now i)
          ("Week of " +:+ strftime (week_start now i) "%b %d")
          (Z.of_nat (length counted))
          (total CommitInfo.lines_added counted)
          (total CommitInfo.lines_removed counted)
          (total CommitInfo.files_changed counted)
          (Z.of_nat (size (active_names (in_period (week_start now i) (week_end now i))
                             (GitAnalyzer._repos self))))
          ∅ ∅).
Proof.
  intros Hn Hi Hr He' counted. unfold weekly_summary, timedelta_days, dt_minus, dt_plus.
  replace ((-999999999 <=? weekday now + i * 7) && (weekday now + i * 7 <=? 999999999))
    with true by (symmetry; apply andb_true_iff; split; apply Z.leb_le; lia).
  cbn [mbind outcome_bind]. rewrite Hr. cbn [mbind outcome_bind].
  fold (week_start now i). rewrite He'. cbn [mbind outcome_bind]. fold (week_end now i).
  destruct (aware_week_bounds now i Hn) as [Hs He].
  rewrite (for_each_commit_ok _ _ (weekly_step (week_start now i) (week_end now i)))
    by (intros; apply weekly_body_step; assumption).
  destruct (bucket_counts (weekly_step (week_start now i) (week_end now i))
              (in_period (week_start now i) (week_end now i)) CommitInfo.files_changed
              (GitAnalyzer._repos self) counters_init) as (H1 & H2 & H3 & H4).
  { intros c repo commit. unfold weekly_step.
    destruct (in_period (week_start now i) (week_end now i) commit); simpl; lia. }
  simpl in H1, H2, H3, H4. cbn [mbind outcome_bind].
  rewrite H1, H2, H3, H4.
  rewrite (fold_active (weekly_step (week_start now i) (week_end now i))
             (in_period (week_start now i) (week_end now i)))
    by apply weekly_step_active.
  cbn [active_repos counters_init]. rewrite (right_id_L ∅ (∪)). reflexivity.
Qed.

(** The bucket of a week whose Monday is before the first day of
    [datetime], or whose end is after the last one *)
Lemma weekly_summary_raises (self : GitAnalyzer.t) (now : datetime) (i : Z) :
  in_range (wall now - (weekday now + i * 7) * DAY) = false \/
  in_range (wall (week_start now i) + WEEK_SPAN) = false ->
  weekly_summary strftime self now i = Raise OverflowError.
Proof.
  intros Hr. unfold weekly_summary, timedelta_days, dt_minus, dt_plus.
  destruct ((-999999999 <=? weekday now + i * 7) && (weekday now + i * 7 <=? 999999999));
    [| reflexivity].
  cbn [mbind outcome_bind].
  destruct (in_range (wall now - (weekday now + i * 7) * DAY)) eqn:Hm; [| reflexivity].
  cbn [mbind outcome_bind]. fold (week_start now i).
  destruct Hr as [Hr | Hr]; [discriminate Hr |]. rewrite Hr. reflexivity.
Qed.

(** X19: with an aware clock, [get_weekly_activity] returns one bucket per
    week, the current week first, none when [weeks] is not positive, as
    long as the weeks asked for do not reach before 0001-01-01 and the
    current week does not end after 9999-12-31, the first and the last day
    of [datetime]; when one of them happens it raises [OverflowError].
    Bucket [i] starts at the midnight of the Monday [i] weeks back and
    counts that week's commits, their lines and files, and the distinct
    names of the repositories they are in; its breakdowns stay empty. *)
Theorem weekly_activity_buckets (self : GitAnalyzer.t) (now : datetime) (weeks : Z) :
  aware now ->
  in_range (wall now) = true ->
  (weeks <= wall now / DAY / 7 + 1 ->
   weeks <= 0 \/ in_range (wall (week_end now 0)) = true ->
   get_weekly_activity strftime self now weeks
   = Ok (map (fun i =>
                let counted := List.filter (in_period (week_start now i) (week_end now i))
                                 (commits_of self) in
                ActivitySummary.mk (week_start now i) (week_end now i)
                  ("Week of " +:+ strftime (week_start now i) "%b %d")
                  (Z.of_nat (length counted))
                  (total CommitInfo.lines_added counted)
                  (total CommitInfo.lines_removed counted)
                  (total CommitInfo.files_changed counted)
                  (Z.of_nat (size (active_names (in_period (week_start now i) (week_end now i))
                                     (GitAnalyzer._repos self))))
                  ∅ ∅)
           (range weeks))) /\
  (0 < weeks -> in_range (wall (week_end now 0)) = false ->
   get_weekly_activity strftime self now weeks = Raise OverflowError) /\
  (wall now / DAY / 7 + 1 < weeks ->
   get_weekly_activity strftime self now weeks = Raise OverflowError) /\
  length (range weeks) = Z.to_nat weeks /\
  (forall i, weekday (week_start now i) = 0 /\ wall (week_start now i) mod DAY = 0).
Proof.
  intros Hn Hw.
  assert (Hmax : 0 <= wall now / DAY / 7 /\ 0 <= wall now mod DAY < DAY /\
                 7 * (wall now / DAY / 7) * DAY + wall now mod DAY <= wall now < MAXWALL).
  { unfold in_range in Hw. apply andb_true_iff in Hw as [H0 H1].
    apply Z.leb_le in H0. apply Z.ltb_lt in H1.
    pose proof (Z.div_mod (wall now) DAY) as Hd.
    pose proof (Z.mod_pos_bound (wall now) DAY) as Hb.
    pose proof (Z.div_mod (wall now / DAY) 7) as Hq.
    pose proof (Z.mod_pos_bound (wall now / DAY) 7) as Hqb.
    unfold MAXWALL, DAY in *. lia. }
  destruct Hmax as (Hq0 & Hmod & Hlow & Hhigh).
  assert (Hwd : 0 <= weekday now < 7) by (apply Z.mod_pos_bound; lia).
  assert (Hok : forall bound i, bound <= wall now / DAY / 7 + 1 ->
            in_range (wall (week_end now 0)) = true -> i ∈ range bound ->
            weekly_summary strftime self now i
            = Ok (let counted := List.filter (in_period (week_start now i) (week_end now i))
                                   (commits_of self) in
                  ActivitySummary.mk (week_start now i) (week_end now i)
                    ("Week of " +:+ strftime (week_start now i) "%b %d")
                    (Z.of_nat (length counted))
                    (total CommitInfo.lines_added counted)
                    (total CommitInfo.lines_removed counted)
                    (total CommitInfo.files_changed counted)
                    (Z.of_nat (size (active_names (in_period (week_start now i) (week_end now i))
                                       (GitAnalyzer._repos self))))
                    ∅ ∅)).
  { intros bound i Hbound Hend Hi. apply elem_of_range in Hi.
    unfold week_end, dt_add in Hend. cbn [wall] in Hend.
    rewrite week_start_wall in Hend.
    unfold in_range in Hend. apply andb_true_iff in Hend as [_ Hend]. apply Z.ltb_lt in Hend.
    apply (weekly_summary_ok self now i Hn).
    - unfold MAXWALL, DAY in *. lia.
    - rewrite week_monday_wall. unfold in_range. apply andb_true_iff.
      rewrite Z.leb_le, Z.ltb_lt. unfold MAXWALL, DAY in *. lia.
    - rewrite week_start_wall. unfold in_range. apply andb_true_iff.
      rewrite Z.leb_le, Z.ltb_lt. unfold WEEK_SPAN, MAXWALL, DAY in *. lia. }
  assert (Hfirst : 0 < weeks -> in_range (wall (week_end now 0)) = false ->
            get_weekly_activity strftime self now weeks = Raise OverflowError).
  { intros Hweeks Hend. unfold get_weekly_activity.
    destruct (range_split 0 weeks) as [rest ->]; [lia |].
    apply (foldM_collect_raise (weekly_summary strftime self now)
             (fun _ => ActivitySummary.mk now now "" 0 0 0 0 0 ∅ ∅) [] 0 rest [] OverflowError).
    - intros x Hx. apply elem_of_nil in Hx. contradiction.
    - apply weekly_summary_raises. right. exact Hend. }
  split; [| split; [exact Hfirst |]]; [| split; [| split; [apply length_range |]]].
  - intros Hweeks [Hnone | Hend]; unfold get_weekly_activity.
    + unfold range. replace (Z.to_nat weeks) with 0%nat by lia. reflexivity.
    + rewrite (foldM_collect (weekly_summary strftime self now) _ (range weeks) []
                 (fun i => Hok weeks i Hweeks Hend)).
      reflexivity.
  - intros Hweeks. destruct (in_range (wall (week_end now 0))) eqn:Hend.
    2: { apply Hfirst; [lia | reflexivity]. }
    unfold get_weekly_activity.
    destruct (range_split (wall now / DAY / 7 + 1) weeks) as [rest ->]; [lia |].
    apply (foldM_collect_raise (weekly_summary strftime self now) _ _ _ _ []
             OverflowError (fun i => Hok (wall now / DAY / 7 + 1) i (Z.le_refl _) eq_refl)).
    apply weekly_summary_raises. left. rewrite week_monday_wall.
    unfold in_range. apply andb_false_iff. left. apply Z.leb_gt. unfold DAY in *. lia.
  - intros i. unfold weekday. rewrite week_start_wall.
    split; [| apply Z.mod_mul; discriminate].
    rewrite Z.div_mul by discriminate. rewrite Z.mul_comm.
    apply Z.mod_mul. discriminate.
Qed.

End BucketLists.

Section BucketGeometry.

Lemma day_bounds_instants (now : datetime) (i : Z) :
  instant (day_start now i) = instant (day_start now 0) - i * DAY /\
  instant (day_end now i) = instant (day_start now 0) - i * DAY + (DAY - 1).
Proof.
  unfold instant, day_start, day_end, midnight, last_microsecond, dt_sub. cbn [wall tzinfo].
  rewrite !sub_days_mod. unfold DAY. split; lia.
Qed.

Lemma week_bounds_instants (now : datetime) (i : Z) :
  instant (week_start now i) = instant (week_start now 0) - i * (7 * DAY) /\
  instant (week_end now i) = instant (week_start now 0) - i * (7 * DAY) + (7 * DAY - 1000000).
Proof.
  unfold instant, week_end, week_start, midnight, dt_add, dt_sub. cbn [wall tzinfo].
  rewrite !sub_days_mod. unfold WEEK_SPAN, DAY. split; lia.
Qed.

(** X20: the daily buckets tile time: with an aware clock every commit
    date lies in the bucket of exactly one day number, and that number is
    not negative exactly when the commit is not after the end of today. *)
Theorem daily_buckets_tile_time (now : datetime) (commit : CommitInfo.t) :
  aware now ->
  let commit_date := with_period_tz (CommitInfo.date commit) (tzinfo now) in
  exists i,
    (forall j, between (day_start now j) commit_date (day_end now j)
               = Ok (bool_decide (j = i))) /\
    (0 <= i <-> instant commit_date <= instant (day_end now 0)).
Proof.
  intros Hn commit_date.
  set (t := instant commit_date).
  set (S0 := instant (day_start now 0)).
  exists ((S0 + (DAY - 1) - t) / DAY).
  pose proof (Z.div_mod (S0 + (DAY - 1) - t) DAY) as Hd.
  pose proof (Z.mod_pos_bound (S0 + (DAY - 1) - t) DAY) as Hb.
  set (q := (S0 + (DAY - 1) - t) / DAY) in *.
  split.
  - intros j.
    change commit_date with (with_period_tz (CommitInfo.date commit) (tzinfo (day_start now j))).
    rewrite between_aware by exact Hn. f_equal.
    unfold in_period.
    change (with_period_tz (CommitInfo.date commit) (tzinfo (day_start now j))) with commit_date.
    fold t. destruct (day_bounds_instants now j) as [-> ->]. fold S0.
    destruct (bool_decide_reflect (j = q)) as [-> | Hne].
    + apply andb_true_iff. rewrite !Z.leb_le. unfold DAY in *. lia.
    + apply andb_false_iff. rewrite !Z.leb_gt. unfold DAY in *. lia.
  - destruct (day_bounds_instants now 0) as [_ ->]. fold S0. unfold DAY in *. lia.
Qed.

(** X21: the weekly buckets end one second before the next one starts.
    With an aware clock whose offset is a whole number of seconds, every
    commit date on a whole second, which is what the log format gives,
    lies in the bucket of exactly one week number. *)
Theorem weekly_buckets_tile_whole_seconds (now : datetime) (commit : CommitInfo.t) :
  aware now ->
  default 0 (tzinfo now) mod 1000000 = 0 ->
  let commit_date := with_period_tz (CommitInfo.date commit) (tzinfo now) in
  instant commit_date mod 1000000 = 0 ->
  (forall j, instant (week_start now j) - instant (week_end now (j + 1)) = 1000000) /\
  exists i,
    forall j, between (week_start now j) commit_date (week_end now j)
              = Ok (bool_decide (j = i)).
Proof.
  intros Hn Ho commit_date Ht.
  split.
  { intros j. destruct (week_bounds_instants now j) as [-> _].
    destruct (week_bounds_instants now (j + 1)) as [_ ->]. unfold DAY. lia. }
  set (t := instant commit_date) in *.
  set (W0 := instant (week_start now 0)).
  assert (HW0 : W0 mod 1000000 = 0).
  { unfold W0, instant, week_start, midnight, dt_sub. cbn [wall tzinfo].
    rewrite midnight_multiple.
    set (o := default 0 (tzinfo now)) in *.
    set (d := (wall now - (weekday now + 0 * 7) * DAY) / DAY).
    apply Z.mod_divide in Ho as [k Hk]; [| discriminate].
    apply Z.mod_divide; [discriminate |].
    exists (86400 * d - k). unfold DAY. lia. }
  apply Z.mod_divide in Ht as [kt Hkt]; [| discriminate].
  apply Z.mod_divide in HW0 as [kw Hkw]; [| discriminate].
  exists ((kw - kt + 604799) / 604800).
  pose proof (Z.div_mod (kw - kt + 604799) 604800) as Hd.
  pose proof (Z.mod_pos_bound (kw - kt + 604799) 604800) as Hb.
  set (q := (kw - kt + 604799) / 604800) in *.
  intros j.
  change commit_date with (with_period_tz (CommitInfo.date commit) (tzinfo (week_start now j))).
  rewrite between_aware by exact Hn. f_equal.
  unfold in_period.
  change (with_period_tz (CommitInfo.date commit) (tzinfo (week_start now j))) with commit_date.
  fold t. destruct (week_bounds_instants now j) as [-> ->]. fold W0.
  rewrite Hkt, Hkw.
  destruct (bool_decide_reflect (j = q)) as [-> | Hne].
  - apply andb_true_iff. rewrite !Z.leb_le. unfold DAY in *. lia.
  - apply andb_false_iff. rewrite !Z.leb_gt. unfold DAY in *. lia.
Qed.

End BucketGeometry.

(* ===================================================================== *)
(** * Further properties of the classifier *)
(* ===================================================================== *)

Section ClassifierCase.

Import FileClassifier.

Ltac each_ascii a := destruct a as [[] [] [] [] [] [] [] []].

Lemma lower_char_not_upper (a : ascii) : is_upper (PyStr.lower_char a) = false.
Proof. each_ascii a; vm_compute; reflexivity. Qed.

Lemma lower_char_idem (a : ascii) : PyStr.lower_char (PyStr.lower_char a) = PyStr.lower_char a.
Proof. each_ascii a; vm_compute; reflexivity. Qed.

Lemma lower_char_slash (a : ascii) : Ascii.eqb (PyStr.lower_char a) "/" = Ascii.eqb a "/".
Proof. each_ascii a; vm_compute; reflexivity. Qed.

Lemma lower_char_dot (a : ascii) : Ascii.eqb (PyStr.lower_char a) "." = Ascii.eqb a ".".
Proof. each_ascii a; vm_compute; reflexivity. Qed.

Lemma lower_idem (s : string) : PyStr.lower (PyStr.lower s) = PyStr.lower s.
Proof. induction s as [|a s IH]; simpl; [reflexivity | rewrite lower_char_idem, IH; reflexivity]. Qed.

Lemma lower_no_upper (s : string) : has_upper (PyStr.lower s) = false.
Proof.
  unfold has_upper. induction s as [|a s IH]; simpl; [reflexivity |].
  rewrite lower_char_not_upper, IH. reflexivity.
Qed.

Lemma prefix_exists (P : ascii -> bool) (p t : string) :
  String.prefix p t = true -> str_exists P p = true -> str_exists P t = true.
Proof.
  revert t. induction p as [|a p IH]; intros t Hp Hex; simpl in Hex; [discriminate |].
  destruct t as [|b t]; simpl in Hp; [discriminate |].
  destruct (ascii_dec a b) as [-> | Hne]; [| discriminate]. simpl.
  destruct (P b); simpl in *; [reflexivity |]. apply IH; assumption.
Qed.

Lemma contains_exists (P : ascii -> bool) (p t : string) :
  PyStr.contains p t = true -> str_exists P p = true -> str_exists P t = true.
Proof.
  intros Hc Hex. induction t as [|b t IH].
  - destruct p; simpl in Hex, Hc; discriminate.
  - change (String.prefix p (String b t) || PyStr.contains p t = true) in Hc.
    apply orb_true_iff in Hc as [Hp | Hc]; [exact (prefix_exists P p _ Hp Hex) |].
    simpl. rewrite (IH Hc). apply orb_true_r.
Qed.

(** X22: a pattern with an upper-case letter never matches, since patterns
    are looked for in the lower-cased path. [Gemfile], [Cargo.toml] and
    [Jenkinsfile] are the patterns concerned: files named [Gemfile] and
    [Jenkinsfile] are classified as OTHER, not as SPECS_CONFIG. *)
Theorem capitalised_patterns_never_match :
  (forall pattern path,
     has_upper pattern = true -> PyStr.contains pattern (PyStr.lower path) = false) /\
  List.filter has_upper
    (TEST_PATTERNS ++ DOC_PATTERNS ++ SPEC_CONFIG_PATTERNS ++ INFRA_PATTERNS ++ STYLE_PATTERNS)
  = ["Gemfile"; "Cargo.toml"; "Jenkinsfile"] /\
  (forall a r, contribution_type (classify "Gemfile" a r) = OTHER /\
               contribution_type (classify "Jenkinsfile" a r) = OTHER).
Proof.
  split; [| split].
  - intros pattern path Hup.
    destruct (PyStr.contains pattern (PyStr.lower path)) eqn:Hc; [| reflexivity].
    pose proof (contains_exists is_upper _ _ Hc Hup) as Hex.
    fold (has_upper (PyStr.lower path)) in Hex. rewrite lower_no_upper in Hex. discriminate.
  - vm_compute. reflexivity.
  - intros a r. split; vm_compute; reflexivity.
Qed.

(** ** Upper and lower case *)

Lemma rfind_from_lower_slash (s : string) (i f : Z) :
  PyStr.rfind_from "/" (PyStr.lower s) i f = PyStr.rfind_from "/" s i f.
Proof.
  revert i f. induction s as [|a s IH]; intros i f; simpl; [reflexivity |].
  rewrite lower_char_slash. apply IH.
Qed.

Lemma rfind_from_lower_dot (s : string) (i f : Z) :
  PyStr.rfind_from "." (PyStr.lower s) i f = PyStr.rfind_from "." s i f.
Proof.
  revert i f. induction s as [|a s IH]; intros i f; simpl; [reflexivity |].
  rewrite lower_char_dot. apply IH.
Qed.

Lemma length_lower (s : string) : String.length (PyStr.lower s) = String.length s.
Proof. induction s as [|a s IH]; simpl; [reflexivity | rewrite IH; reflexivity]. Qed.

Lemma get_lower (s : string) (n : nat) :
  String.get n (PyStr.lower s) = option_map PyStr.lower_char (String.get n s).
Proof.
  revert n. induction s as [|a s IH]; intros n; simpl; [reflexivity |].
  destruct n as [|n]; [reflexivity | apply IH].
Qed.

Lemma substring_lower (s : string) (n m : nat) :
  String.substring n m (PyStr.lower s) = PyStr.lower (String.substring n m s).
Proof.
  revert n m. induction s as [|a s IH]; intros n m; simpl.
  - destruct n, m; reflexivity.
  - destruct n as [|n].
    + destruct m as [|m]; [reflexivity |]. simpl. rewrite IH. reflexivity.
    + apply IH.
Qed.

Lemma at_lower_dot (s : string) (i : Z) :
  bool_decide (PyStr.at_ (PyStr.lower s) i = Some "."%char)
  = bool_decide (PyStr.at_ s i = Some "."%char).
Proof.
  unfold PyStr.at_. rewrite get_lower. apply bool_decide_ext.
  destruct (String.get (Z.to_nat i) s) as [a|]; simpl; [| tauto].
  pose proof (lower_char_dot a) as Hd.
  split; intros [= Heq].
  - rewrite Heq in Hd. rewrite Ascii.eqb_refl in Hd. symmetry in Hd.
    apply Ascii.eqb_eq in Hd. subst a. reflexivity.
  - subst a. reflexivity.
Qed.

Lemma splitext_loop_lower (p : string) (i d : Z) (n : nat) :
  splitext_loop (PyStr.lower p) i d n
  = (PyStr.lower (fst (splitext_loop p i d n)), PyStr.lower (snd (splitext_loop p i d n))).
Proof.
  revert i. induction n as [|n IH]; intros i; simpl; [reflexivity |].
  destruct (i <? d); [| reflexivity].
  rewrite at_lower_dot.
  destruct (negb (bool_decide (PyStr.at_ p i = Some "."%char))); [| apply IH].
  unfold PyStr.take, PyStr.drop. rewrite length_lower, !substring_lower. reflexivity.
Qed.

Lemma splitext_lower (p : string) :
  splitext (PyStr.lower p) = (PyStr.lower (fst (splitext p)), PyStr.lower (snd (splitext p))).
Proof.
  unfold splitext, PyStr.rfind. rewrite rfind_from_lower_slash, rfind_from_lower_dot.
  destruct (PyStr.rfind_from "/" p 0 (-1) <? PyStr.rfind_from "." p 0 (-1)); [| reflexivity].
  rewrite length_lower. apply splitext_loop_lower.
Qed.

Lemma lower_extension (p : string) :
  PyStr.lower (snd (splitext p)) = snd (splitext (PyStr.lower p)).
Proof. rewrite splitext_lower. reflexivity. Qed.

(** X23: the category and the language of a file do not depend on the case
    of its path: two paths with the same lower-cased form get the same
    category and the same language, whatever the line counts. *)
Theorem classify_ignores_case (path path' : string) (a r a' r' : Z) :
  PyStr.lower path = PyStr.lower path' ->
  contribution_type (classify path a r) = contribution_type (classify path' a' r') /\
  language (classify path a r) = language (classify path' a' r').
Proof.
  intros Hl. unfold classify. cbv zeta.
  rewrite !(lower_extension path), !(lower_extension path'), Hl.
  repeat match goal with
         | |- context [if ?b then _ else _] => destruct b
         end; split; reflexivity.
Qed.

(** ** Languages *)

Lemma language_map_nonempty (ext l : string) :
  dict_get LANGUAGE_MAP ext = Some l -> l <> EmptyString.
Proof.
  unfold LANGUAGE_MAP. simpl.
  repeat match goal with
         | |- context [if ?b then _ else _] => destruct b; [intros [= <-]; discriminate |]
         end.
  discriminate.
Qed.

Lemma truthy_language (ext : string) :
  truthy (dict_get LANGUAGE_MAP ext) = bool_decide (dict_get LANGUAGE_MAP ext <> None).
Proof.
  destruct (dict_get LANGUAGE_MAP ext) as [l|] eqn:Hl; simpl.
  - pose proof (language_map_nonempty ext l Hl). destruct l; [congruence | reflexivity].
  - reflexivity.
Qed.

(** X24: the language of a classification by category. DOCUMENTATION,
    SPECS_CONFIG and STYLING carry a fixed label whatever the extension;
    INFRASTRUCTURE carries the language of the extension, or
    [Infrastructure] when the extension is not mapped; TESTS and
    PRODUCTION_CODE carry the language of the extension. The language is
    never the empty string, and it is missing only for TESTS and OTHER. *)
Theorem classify_language (path : string) (a r : Z) :
  let fc := classify path a r in
  match contribution_type fc with
  | TESTS | PRODUCTION_CODE => language fc = extension_language path
  | DOCUMENTATION => language fc = Some "Documentation"
  | SPECS_CONFIG => language fc = Some "Configuration"
  | STYLING => language fc = Some "CSS/Styling"
  | INFRASTRUCTURE =>
      language fc = Some (default "Infrastructure" (extension_language path))
  | OTHER => language fc = None
  end /\
  language fc <> Some EmptyString /\
  (language fc = None ->
   extension_language path = None /\
   (contribution_type fc = TESTS \/ contribution_type fc = OTHER)).
Proof.
  cbv zeta. unfold extension_language, classify. cbv zeta.
  set (ext := PyStr.lower (snd (splitext path))).
  pose proof (language_map_nonempty ext) as Hne.
  pose proof (truthy_language ext) as Ht.
  unfold or_. rewrite Ht.
  destruct (dict_get LANGUAGE_MAP ext) as [l|] eqn:Hl.
  - specialize (Hne l eq_refl).
    rewrite bool_decide_true by discriminate.
    repeat match goal with
           | |- context [if ?b then _ else _] => destruct b
           end; cbn [contribution_type language default];
      (split; [reflexivity |]); (split; [congruence || discriminate |]);
      intros; discriminate.
  - rewrite bool_decide_false by congruence.
    repeat match goal with
           | |- context [if ?b then _ else _] => destruct b
           end; cbn [contribution_type language default];
      (split; [reflexivity |]); (split; [discriminate |]);
      intros; try discriminate; auto.
Qed.


End ClassifierCase.

Lemma classify_ignores_case_witness :
  contribution_type (FileClassifier.classify "SRC/App.PY" 1 2)
  = contribution_type (FileClassifier.classify "src/app.py" 3 4) /\
  language (FileClassifier.classify "SRC/App.PY" 1 2)
  = language (FileClassifier.classify "src/app.py" 3 4).
Proof.
  apply (classify_ignores_case "SRC/App.PY" "src/app.py" 1 2 3 4). vm_compute. reflexivity.
Defined.

(* ===================================================================== *)
(** * The helpers of analyze_repo on the file system *)
(* ===================================================================== *)

Section DescriptionFacts.

Import OnDisk.

Lemma count_le_length (c : ascii) (s : string) : PyStr.count c s <= Z.of_nat (String.length s).
Proof. induction s as [|a s IH]; simpl String.length; simpl PyStr.count; [lia |].
  destruct (Ascii.eqb a c); lia. Qed.

Lemma split_max_no_sep (c : ascii) (n : nat) (s : string) :
  PyStr.count c s <= Z.of_nat n ->
  Forall (fun p => PyStr.count c p = 0) (PyStr.split_max c n s).
Proof.
  revert s. induction n as [|n IH]; intros s Hn; simpl.
  - pose proof (count_nonneg c s). constructor; [lia | constructor].
  - pose proof (cut_count c s) as Hc.
    destruct (PyStr.cut c s) as [[l r]|] eqn:Hcut.
    + constructor; [exact (proj2 (cut_app c s l r Hcut)) |]. apply IH. lia.
    + constructor; [exact Hc | constructor].
Qed.

Lemma split_no_sep (c : ascii) (s : string) :
  Forall (fun p => PyStr.count c p = 0) (PyStr.split c s).
Proof. apply split_max_no_sep, count_le_length. Qed.

Lemma count_lstrip (c : ascii) (s : string) : PyStr.count c s = 0 -> PyStr.count c (PyStr.lstrip s) = 0.
Proof.
  induction s as [|a s IH]; intros Hs; [reflexivity |].
  pose proof (count_nonneg c s).
  change (PyStr.count c (String a s)) with ((if Ascii.eqb a c then 1 else 0) + PyStr.count c s) in Hs.
  simpl PyStr.lstrip. destruct (PyStr.isspace a).
  - apply IH. destruct (Ascii.eqb a c); lia.
  - exact Hs.
Qed.

Lemma count_rstrip (c : ascii) (s : string) : PyStr.count c s = 0 -> PyStr.count c (PyStr.rstrip s) = 0.
Proof.
  induction s as [|a s IH]; intros Hs; [reflexivity |].
  pose proof (count_nonneg c s).
  change (PyStr.count c (String a s)) with ((if Ascii.eqb a c then 1 else 0) + PyStr.count c s) in Hs.
  assert (Ha : Ascii.eqb a c = false) by (destruct (Ascii.eqb a c); [lia | reflexivity]).
  rewrite Ha in Hs. specialize (IH ltac:(lia)).
  simpl PyStr.rstrip. destruct (PyStr.rstrip s) as [|b r].
  - destruct (PyStr.isspace a); [reflexivity |]. simpl. rewrite Ha. reflexivity.
  - change (PyStr.count c (String a (String b r)))
      with ((if Ascii.eqb a c then 1 else 0) + PyStr.count c (String b r)).
    rewrite Ha, IH. reflexivity.
Qed.

Lemma lstrip_head (s : string) :
  PyStr.lstrip s = EmptyString \/
  exists a r, PyStr.lstrip s = String a r /\ PyStr.isspace a = false.
Proof.
  induction s as [|a s IH]; [left; reflexivity |].
  simpl. destruct (PyStr.isspace a) eqn:Ha; [exact IH |].
  right. exists a, s. split; [reflexivity | exact Ha].
Qed.

Lemma rstrip_head (a : ascii) (s : string) :
  PyStr.isspace a = false -> exists r, PyStr.rstrip (String a s) = String a r.
Proof.
  intros Ha. simpl. destruct (PyStr.rstrip s) as [|b r].
  - rewrite Ha. eexists. reflexivity.
  - eexists. reflexivity.
Qed.

Lemma strip_head (s : string) :
  PyStr.strip s = EmptyString \/
  exists a r, PyStr.strip s = String a r /\ PyStr.isspace a = false.
Proof.
  unfold PyStr.strip. destruct (lstrip_head s) as [-> | (a & r & -> & Ha)]; [left; reflexivity |].
  right. destruct (rstrip_head a r Ha) as [r' ->]. exists a, r'. split; [reflexivity | exact Ha].
Qed.

Lemma prefix_one (c a : ascii) (r : string) :
  String.prefix (String c EmptyString) (String a r) = if ascii_dec c a then true else false.
Proof.
  change (String.prefix (String c EmptyString) (String a r))
    with (match ascii_dec c a with left _ => String.prefix EmptyString r | right _ => false end).
  destruct (ascii_dec c a); [destruct r; reflexivity | reflexivity].
Qed.

Lemma accepted_taken (line : string) :
  PyStr.count PyStr.NL line = 0 ->
  PyStr.truthy (PyStr.strip line) && negb (String.prefix "#" (PyStr.strip line))
    && negb (String.prefix "!" (PyStr.strip line)) = true ->
  taken (PyStr.strip line).
Proof.
  intros Hnl Hacc. split; [apply count_rstrip, count_lstrip, Hnl |].
  destruct (strip_head line) as [He | (a & r & He & Ha)]; rewrite He in Hacc |- *;
    [discriminate |].
  exists a, r. split; [reflexivity |]. split; [exact Ha |].
  rewrite !prefix_one in Hacc.
  destruct (ascii_dec "#" a) as [<- | H1]; [discriminate |].
  destruct (ascii_dec "!" a) as [<- | H2]; [discriminate |].
  split; congruence.
Qed.

Lemma accepted_or_skipped (line : string) :
  PyStr.truthy (PyStr.strip line) && negb (String.prefix "#" (PyStr.strip line))
    && negb (String.prefix "!" (PyStr.strip line)) = false <-> skipped_line line.
Proof.
  unfold skipped_line. cbv zeta. destruct (PyStr.strip line) as [|a r].
  - split; [left; reflexivity | reflexivity].
  - rewrite !prefix_one. cbn [PyStr.truthy andb].
    destruct (ascii_dec "#" a) as [<- | H1].
    + split; [intros _; right; left; reflexivity | reflexivity].
    + destruct (ascii_dec "!" a) as [<- | H2].
      * split; [intros _; right; right; reflexivity | reflexivity].
      * split; [intros H; discriminate H | intros [H | [H | H]]; discriminate H].
Qed.

Lemma desc_lines_loop_taken (lines acc : list string) :
  Forall (fun line => PyStr.count PyStr.NL line = 0) lines ->
  Forall taken acc -> Forall taken (desc_lines_loop lines acc).
Proof.
  intros Hlines. revert acc. induction Hlines as [|line lines Hline _ IH]; intros acc Hacc; simpl;
    [exact Hacc |].
  destruct (PyStr.truthy (PyStr.strip line) && negb (String.prefix "#" (PyStr.strip line))
            && negb (String.prefix "!" (PyStr.strip line))) eqn:Hok; [| apply IH, Hacc].
  assert (Hacc' : Forall taken (acc ++ [PyStr.strip line])).
  { apply Forall_app. split; [exact Hacc |]. constructor; [| constructor].
    apply accepted_taken; assumption. }
  destruct (150 <? Z.of_nat (String.length (str_join " " (acc ++ [PyStr.strip line]))));
    [exact Hacc' | apply IH, Hacc'].
Qed.

Lemma desc_lines_loop_nil (lines acc : list string) :
  desc_lines_loop lines acc = [] <-> acc = [] /\ Forall skipped_line lines.
Proof.
  revert acc. induction lines as [|line lines IH]; intros acc; simpl.
  - split; [intros ->; split; [reflexivity | constructor] | intros [-> _]; reflexivity].
  - destruct (PyStr.truthy (PyStr.strip line) && negb (String.prefix "#" (PyStr.strip line))
              && negb (String.prefix "!" (PyStr.strip line))) eqn:Hok.
    + assert (Hno : ~ skipped_line line).
      { intros Hs. apply accepted_or_skipped in Hs. congruence. }
      split.
      * intros Hnil.
        destruct (150 <? Z.of_nat (String.length (str_join " " (acc ++ [PyStr.strip line])))).
        -- destruct acc; discriminate.
        -- apply IH in Hnil as [Hnil _]. destruct acc; discriminate.
      * intros [_ Hall]. inversion Hall; subst. contradiction.
    + apply accepted_or_skipped in Hok. rewrite IH. split.
      * intros [-> Hall]. split; [reflexivity | constructor; assumption].
      * intros [-> Hall]. inversion Hall; subst. split; [reflexivity | assumption].
Qed.

Lemma app_head (a : ascii) (r s : string) : String a r +:+ s = String a (r +:+ s).
Proof. reflexivity. Qed.

Lemma count_join_spaces (parts : list string) :
  Forall (fun p => PyStr.count PyStr.NL p = 0) parts ->
  PyStr.count PyStr.NL (str_join " " parts) = 0.
Proof.
  induction 1 as [|p parts Hp _ IH]; [reflexivity |].
  destruct parts as [|q parts]; [exact Hp |].
  change (str_join " " (p :: q :: parts)) with (p +:+ " " +:+ str_join " " (q :: parts)).
  rewrite !count_app, Hp, IH. reflexivity.
Qed.

Lemma substring_prefix_length (n : nat) (s : string) :
  (String.length (String.substring 0 n s) <= n)%nat.
Proof.
  revert s. induction n as [|n IH]; intros s; destruct s as [|a s]; simpl; try lia.
  specialize (IH s). lia.
Qed.

Lemma substring_prefix_count (c : ascii) (n : nat) (s : string) :
  PyStr.count c s = 0 -> PyStr.count c (String.substring 0 n s) = 0.
Proof.
  revert s. induction n as [|n IH]; intros s Hs; destruct s as [|a s]; simpl; try reflexivity.
  pose proof (count_nonneg c s).
  change (PyStr.count c (String a s)) with ((if Ascii.eqb a c then 1 else 0) + PyStr.count c s) in Hs.
  destruct (Ascii.eqb a c); [lia |]. rewrite IH by lia. reflexivity.
Qed.

Lemma readme_description_shape (content d : string) :
  readme_description content = Some d ->
  (String.length d <= 200)%nat /\ PyStr.count PyStr.NL d = 0 /\
  exists a r, d = String a r /\ PyStr.isspace a = false /\ a <> "#"%char /\ a <> "!"%char.
Proof.
  unfold readme_description.
  pose proof (desc_lines_loop_taken (PyStr.split PyStr.NL content) []
                (split_no_sep PyStr.NL content) (Forall_nil_2 _)) as Ht.
  destruct (desc_lines_loop (PyStr.split PyStr.NL content) []) as [|l1 rest]; [discriminate |].
  intros Heq.
  assert (Hd : d = PyStr.take 200 (str_join " " (l1 :: rest))) by congruence.
  subst d. clear Heq. unfold PyStr.take. change (Z.to_nat 200) with 200%nat.
  split; [apply substring_prefix_length |].
  split.
  - apply substring_prefix_count, count_join_spaces.
    eapply Forall_impl; [exact Ht | intros x [Hx _]; exact Hx].
  - inversion Ht as [|? ? (_ & a & r & -> & Ha & H1 & H2) _]; subst.
    assert (Hj : exists r', str_join " " (String a r :: rest) = String a r').
    { destruct rest as [|q rest]; [eexists; reflexivity |].
      change (str_join " " (String a r :: q :: rest))
        with (String a r +:+ " " +:+ str_join " " (q :: rest)).
      rewrite app_head. eexists. reflexivity. }
    destruct Hj as [r' ->]. exists a. eexists. split; [reflexivity | auto].
Qed.

Lemma readme_description_none (content : string) :
  readme_description content = None <-> Forall skipped_line (PyStr.split PyStr.NL content).
Proof.
  unfold readme_description.
  pose proof (desc_lines_loop_nil (PyStr.split PyStr.NL content) []) as Hnil.
  destruct (desc_lines_loop (PyStr.split PyStr.NL content) []) as [|l1 rest].
  - split; [intros _; apply Hnil; reflexivity | reflexivity].
  - split; [discriminate | intros Hall].
    destruct Hnil as [_ Hnil]. specialize (Hnil (conj eq_refl Hall)). discriminate.
Qed.

(** X26: the description of a repository is at most 200 characters long
    and has no line break; when it is not empty it starts with a character
    that is no white space, no [#] and no [!]. It is empty exactly when
    each of the four readme files is missing, cannot be read, or has only
    blank lines, headings and images in its first 500 characters. *)
Theorem repo_description_shape (fs : FileSystem) (repo_path : string) :
  let description := _get_repo_description fs repo_path in
  (String.length description <= 200)%nat /\
  PyStr.count PyStr.NL description = 0 /\
  (description <> EmptyString ->
   exists a r, description = String a r /\
               PyStr.isspace a = false /\ a <> "#"%char /\ a <> "!"%char) /\
  (description = EmptyString <-> Forall (no_description_in fs repo_path) readme_files).
Proof.
  cbv zeta. unfold _get_repo_description.
  induction readme_files as [|readme readmes IH]; simpl.
  - repeat split; try lia; try constructor. intros H. congruence.
  - destruct (fs_exists fs (path_join repo_path readme)) eqn:Hex.
    + destruct (fs_read fs (path_join repo_path readme) 500) as [content|] eqn:Hread.
      * destruct (readme_description content) as [d|] eqn:Hd.
        -- destruct (readme_description_shape content d Hd) as (H1 & H2 & a & r & -> & H3).
           split; [exact H1 |]. split; [exact H2 |].
           split; [intros _; exists a, r; split; [reflexivity | exact H3] |].
           split; [discriminate |]. intros Hall. apply Forall_cons_1 in Hall as [Hno _].
           destruct Hno as [Hno | [Hno | (content' & Hc & Hsk)]]; [congruence | congruence |].
           apply readme_description_none in Hsk. congruence.
        -- destruct IH as (I1 & I2 & I3 & I4). repeat (split; [assumption |]).
           rewrite I4. split.
           ++ intros Hall. constructor; [| exact Hall].
              right. right. exists content. split; [exact Hread |].
              apply readme_description_none, Hd.
           ++ intros Hall. inversion Hall; subst. assumption.
      * destruct IH as (I1 & I2 & I3 & I4). repeat (split; [assumption |]).
        rewrite I4. split.
        -- intros Hall. constructor; [right; left; exact Hread | exact Hall].
        -- intros Hall. inversion Hall; subst. assumption.
    + destruct IH as (I1 & I2 & I3 & I4). repeat (split; [assumption |]).
      rewrite I4. split.
      * intros Hall. constructor; [left; exact Hex | exact Hall].
      * intros Hall. inversion Hall; subst. assumption.
Qed.

End DescriptionFacts.

Section TechnologyFacts.

Import OnDisk.

Variable fs : FileSystem.
Variable repo_path : string.

Lemma detect_loop_some (indicators : list (string * list string)) (T0 T : gset string) :
  detect_loop fs repo_path indicators T0 = Some T ->
  forall t, t ∈ T <->
    t ∈ T0 \/ exists indicator techs,
                (indicator, techs) ∈ indicators /\
                indicator_found fs repo_path indicator = Some true /\ t ∈ techs.
Proof.
  unfold detect_loop. revert T0.
  induction indicators as [|[indicator techs] indicators IH]; intros T0; simpl.
  - intros [= <-] t. split; [auto | intros [H | (i & ts & Hin & _)]; [exact H |]].
    apply elem_of_nil in Hin. contradiction.
  - destruct (indicator_found fs repo_path indicator) as [[|]|] eqn:Hf; [| | discriminate].
    + intros Hsome t. rewrite (IH _ Hsome t), elem_of_union, elem_of_list_to_set. split.
      * intros [[H | H] | (i & ts & Hin & Hi & Ht)]; [auto | |].
        -- right. exists indicator, techs. split; [left | auto].
        -- right. exists i, ts. split; [right; exact Hin | auto].
      * intros [H | (i & ts & Hin & Hi & Ht)]; [auto |].
        apply elem_of_cons in Hin as [[= -> ->] | Hin]; [auto |].
        right. exists i, ts. auto.
    + intros Hsome t. rewrite (IH _ Hsome t). split.
      * intros [H | (i & ts & Hin & Hi & Ht)]; [auto |].
        right. exists i, ts. split; [right; exact Hin | auto].
      * intros [H | (i & ts & Hin & Hi & Ht)]; [auto |].
        apply elem_of_cons in Hin as [[= -> ->] | Hin]; [congruence |].
        right. exists i, ts. auto.
Qed.

Lemma detect_loop_none (indicators : list (string * list string)) (T0 : gset string) :
  detect_loop fs repo_path indicators T0 = None <->
  exists indicator techs,
    (indicator, techs) ∈ indicators /\ indicator_found fs repo_path indicator = None.
Proof.
  unfold detect_loop. revert T0.
  induction indicators as [|[indicator techs] indicators IH]; intros T0; simpl.
  - split; [discriminate | intros (i & ts & Hin & _)]. apply elem_of_nil in Hin. contradiction.
  - destruct (indicator_found fs repo_path indicator) as [[|]|] eqn:Hf.
    + rewrite IH. split.
      * intros (i & ts & Hin & Hi). exists i, ts. split; [right; exact Hin | exact Hi].
      * intros (i & ts & Hin & Hi). apply elem_of_cons in Hin as [[= -> ->] | Hin]; [congruence |].
        exists i, ts. auto.
    + rewrite IH. split.
      * intros (i & ts & Hin & Hi). exists i, ts. split; [right; exact Hin | exact Hi].
      * intros (i & ts & Hin & Hi). apply elem_of_cons in Hin as [[= -> ->] | Hin]; [congruence |].
        exists i, ts. auto.
    + split; [intros _ | reflexivity]. exists indicator, techs. split; [left | exact Hf].
Qed.

Lemma indicator_found_none (indicator : string) :
  indicator_found fs repo_path indicator = None ->
  forall items, fs_listdir fs repo_path <> Listing items.
Proof.
  unfold indicator_found. destruct (PyStr.contains "*" indicator).
  - destruct (fs_listdir fs repo_path); [discriminate | intros _ items; discriminate ..].
  - destruct (ends_with_slash indicator); discriminate.
Qed.

(** X27: the technologies of a repository come back in ascending order
    and without repetition; a technology is among them exactly when it is
    listed for an indicator that is found. The detection raises exactly
    when the repository folder cannot be listed. *)
Theorem detect_technologies_result :
  (forall technologies,
     _detect_technologies fs repo_path = Some technologies ->
     StronglySorted String.le technologies /\ NoDup technologies /\
     forall t, t ∈ technologies <->
       exists indicator techs,
         (indicator, techs) ∈ tech_indicators /\
         indicator_found fs repo_path indicator = Some true /\ t ∈ techs) /\
  (_detect_technologies fs repo_path = None <->
   forall items, fs_listdir fs repo_path <> Listing items).
Proof.
  unfold _detect_technologies. split.
  - intros technologies.
    destruct (detect_loop fs repo_path tech_indicators ∅) as [T|] eqn:Hloop; [| discriminate].
    intros [= <-]. unfold sorted. split; [| split].
    + apply (StronglySorted_merge_sort String.le).
    + rewrite merge_sort_Permutation. apply NoDup_elements.
    + intros t. rewrite merge_sort_Permutation, elem_of_elements.
      rewrite (detect_loop_some _ _ _ Hloop t). split; [| auto].
      intros [H | H]; [| exact H]. apply elem_of_empty in H. contradiction.
  - destruct (detect_loop fs repo_path tech_indicators ∅) as [T|] eqn:Hloop.
    + split; [discriminate |]. intros Hno. exfalso.
      assert (Hnone : detect_loop fs repo_path tech_indicators ∅ = None).
      { apply detect_loop_none. exists "*.csproj", ["C#"; ".NET"].
        split; [unfold tech_indicators; do 10 right; left |].
        unfold indicator_found. simpl PyStr.contains. cbv iota.
        destruct (fs_listdir fs repo_path) as [items| |]; [| reflexivity ..].
        exfalso. exact (Hno items eq_refl). }
      congruence.
    + split; [intros _ | reflexivity].
      apply detect_loop_none in Hloop as (i & ts & _ & Hi).
      exact (indicator_found_none i Hi).
Qed.

End TechnologyFacts.

(* ===================================================================== *)
(** * The language tables and the project duration of the exports *)
(* ===================================================================== *)

Section LanguageRows.

Lemma insert_by_count_perm (x : string * Z) (l : list (string * Z)) :
  insert_by_count x l ≡ₚ x :: l.
Proof.
  induction l as [|y l IH]; simpl; [reflexivity |].
  destruct (snd x <? snd y); [| reflexivity].
  rewrite IH. apply Permutation_swap.
Qed.

Lemma sorted_by_count_perm (items : list (string * Z)) : sorted_by_count items ≡ₚ items.
Proof.
  induction items as [|x items IH]; simpl; [reflexivity |].
  rewrite insert_by_count_perm, IH. reflexivity.
Qed.

Lemma insert_by_count_sorted (x : string * Z) (l : list (string * Z)) :
  StronglySorted (fun a b => snd b <= snd a) l ->
  StronglySorted (fun a b => snd b <= snd a) (insert_by_count x l).
Proof.
  induction 1 as [|y l Hl IH Hy]; simpl; [repeat constructor |].
  destruct (Z.ltb_spec (snd x) (snd y)) as [Hlt | Hge].
  - constructor; [exact IH |].
    rewrite Forall_forall. intros z Hz.
    rewrite insert_by_count_perm in Hz. apply elem_of_cons in Hz as [-> | Hz]; [lia |].
    rewrite Forall_forall in Hy. apply Hy, Hz.
  - constructor; [constructor; assumption |].
    constructor; [exact Hge |].
    eapply Forall_impl; [exact Hy | intros z Hz; simpl in Hz; lia].
Qed.

Lemma sorted_by_count_sorted (items : list (string * Z)) :
  StronglySorted (fun a b => snd b <= snd a) (sorted_by_count items).
Proof.
  induction items as [|x items IH]; simpl; [constructor | apply insert_by_count_sorted, IH].
Qed.

Lemma sum_counts_total (items : list (string * Z)) : sum_counts items = total snd items.
Proof. unfold sum_counts. rewrite fold_left_total. lia. Qed.

Lemma total_perm {A} (f : A -> Z) (l l' : list A) : l ≡ₚ l' -> total f l = total f l'.
Proof. induction 1; simpl; lia. Qed.

Lemma sum_counts_sorted (items : list (string * Z)) :
  sum_counts (sorted_by_count items) = total snd items.
Proof. rewrite sum_counts_total. apply total_perm, sorted_by_count_perm. Qed.

Lemma rows_ok (pct : Z -> Z -> outcome PyFloat.t) (T : Z) (l : list (string * Z))
    (acc : list (string * PyFloat.t)) :
  Forall (fun item => exists p, pct (snd item) T = Ok p) l ->
  exists rows,
    foldM (fun rows item => p ← pct (snd item) T; Ok (rows ++ [(fst item, p)])) l acc
    = Ok (acc ++ rows) /\
    Forall2 (fun item row => fst row = fst item /\ pct (snd item) T = Ok (snd row)) l rows.
Proof.
  intros Hall. revert acc. induction Hall as [|item l [p Hp] _ IH]; intros acc; simpl.
  - exists []. rewrite app_nil_r. split; [reflexivity | constructor].
  - rewrite Hp. cbn [mbind outcome_bind].
    destruct (IH (acc ++ [(fst item, p)])) as (rows & Hrows & Hall2).
    exists ((fst item, p) :: rows). rewrite Hrows, <- app_assoc. split; [reflexivity |].
    constructor; [split; [reflexivity | exact Hp] | exact Hall2].
Qed.

Lemma total_nonneg {A} (f : A -> Z) (l : list A) :
  Forall (fun a => 0 <= f a) l -> 0 <= total f l /\ Forall (fun a => f a <= total f l) l.
Proof.
  induction 1 as [|a l Ha _ [IH1 IH2]]; simpl; [split; [lia | constructor] |].
  split; [lia |]. constructor; [lia |].
  eapply Forall_impl; [exact IH2 | intros b Hb; simpl in Hb; lia].
Qed.

(** X28: the language tables of the console summary and of the portfolio
    divide each count by the total of the counts without testing the
    total: when the language counters are present but all zero, as after a
    commit that only adds an empty source file, both raise
    [ZeroDivisionError]. With a positive total and no negative counter,
    the table of the portfolio has one row for each of the first ten
    languages by descending count, with the rounded percentage of the
    count. *)
Theorem language_tables (items : list (string * Z)) :
  (items <> [] -> total snd items = 0 ->
   cli.top_languages items = Raise ZeroDivisionError /\
   PortfolioExporter.technical_skills items = Raise ZeroDivisionError) /\
  (Forall (fun item => 0 <= snd item) items -> 0 < total snd items ->
   StronglySorted (fun a b => snd b <= snd a) (sorted_by_count items) /\
   sorted_by_count items ≡ₚ items /\
   exists rows,
     PortfolioExporter.technical_skills items = Ok rows /\
     Forall2 (fun item row =>
                fst row = fst item /\ percentage (snd item) (total snd items) = Ok (snd row))
       (take 10 (sorted_by_count items)) rows).
Proof.
  split.
  - intros Hne Hzero. unfold cli.top_languages, PortfolioExporter.technical_skills, language_rows.
    destruct items as [|x items]; [congruence |].
    rewrite sum_counts_sorted, Hzero.
    pose proof (sorted_by_count_perm (x :: items)) as Hperm.
    destruct (sorted_by_count (x :: items)) as [|y l] eqn:Hs.
    + apply Permutation_nil_l in Hperm. discriminate.
    + split; reflexivity.
  - intros Hpos Htotal.
    split; [apply sorted_by_count_sorted |]. split; [apply sorted_by_count_perm |].
    unfold PortfolioExporter.technical_skills, language_rows.
    destruct items as [|x items]; [simpl in Htotal; lia |].
    rewrite sum_counts_sorted.
    destruct (rows_ok percentage (total snd (x :: items))
                (take 10 (sorted_by_count (x :: items))) []) as (rows & Hrows & Hall).
    + apply Forall_take. rewrite (sorted_by_count_perm (x :: items)).
      destruct (total_nonneg snd (x :: items) Hpos) as [_ Hle].
      rewrite Forall_forall in Hpos, Hle |- *. intros item Hin.
      destruct (percentage_err (snd item) (total snd (x :: items))) as (p & Hp & _);
        [split; [apply Hpos, Hin | apply Hle, Hin] | exact Htotal |].
      eexists. exact Hp.
    + exists rows. split; [exact Hrows | exact Hall].
Qed.

End LanguageRows.

Lemma dt_key_same_kind (a b : datetime) :
  same_kind a b -> dt_key a b = Ok (instant a, instant b).
Proof.
  unfold same_kind, dt_key, instant.
  destruct (tzinfo a) as [oa|], (tzinfo b) as [ob|]; simpl; intros [H1 H2];
    try reflexivity.
  - specialize (H2 eq_refl). discriminate.
  - specialize (H1 eq_refl). discriminate.
  - rewrite !Z.sub_0_r. reflexivity.
Qed.

Section ProjectDuration.

Variable W : World.

(** X29: for the statistics of an analyzed repository the duration line of
    the portfolio never raises. It is missing exactly when the repository
    has no commit; otherwise it gives a number of days from 0 to 30, or,
    from 31 days on, a number of months that is at least 1: the days
    divided by 30 and rounded down. *)
Theorem project_duration_of_analyzed (self self' : GitAnalyzer.t) (repo_path : string)
    (stats : RepoStats.t) :
  analyze_repo W self repo_path = (Ok (Some stats), self') ->
  exists line,
    PortfolioExporter.project_duration stats = Ok line /\
    (line = None <-> RepoStats.commits stats = []) /\
    (forall duration, line = Some (PortfolioExporter.Days duration) -> 0 <= duration <= 30) /\
    (forall months, line = Some (PortfolioExporter.Months months) ->
       1 <= months /\
       exists first last duration,
         RepoStats.first_commit_date stats = Some first /\
         RepoStats.last_commit_date stats = Some last /\
         PortfolioExporter.days_between first last = Ok duration /\
         30 < duration /\ months = duration / 30).
Proof.
  intros Hok. pose proof (analyze_repo_dates W _ _ _ _ Hok) as Hdates.
  pose proof (commit_dates_extremes _ _ _ Hdates) as Hext.
  unfold PortfolioExporter.project_duration.
  destruct (RepoStats.commits stats) as [|c commits] eqn:Hcommits.
  - destruct Hext as [-> ->]. exists None. split; [reflexivity |].
    split; [tauto |]. split; intros ? [=].
  - destruct Hext as (f & l & -> & -> & Hf & Hl & Hall).
    assert (Hkey : dt_key l f = Ok (instant l, instant f)).
    { apply dt_key_same_kind.
      destruct (same_kind_dec_list (map CommitInfo.date (c :: commits))) as [Hcmp | Hcmp];
        [| rewrite (proj2 (commit_dates_outcome (c :: commits)) Hcmp) in Hdates; discriminate].
      unfold comparable in Hcmp. cbn [map] in Hcmp. pose proof Hf as Hf'. pose proof Hl as Hl'.
      cbn [map] in Hf', Hl'.
      assert (Hsame : forall d, d ∈ CommitInfo.date c :: map CommitInfo.date commits ->
                                same_kind (CommitInfo.date c) d).
      { intros d Hd. apply elem_of_cons in Hd as [-> | Hd]; [apply same_kind_refl |].
        rewrite Forall_forall in Hcmp. apply Hcmp, Hd. }
      eapply same_kind_trans; [apply same_kind_sym, Hsame, Hl' | apply Hsame, Hf']. }
    assert (Hle : instant f <= instant l).
    { change (f ∈ map CommitInfo.date (c :: commits)) in Hf. rewrite Forall_forall in Hall.
      apply list_elem_of_fmap in Hf as (cf & -> & Hcf). apply (Hall cf Hcf). }
    unfold PortfolioExporter.days_between. rewrite Hkey. cbn [mbind outcome_bind fst snd].
    set (duration := (instant l - instant f) / DAY).
    assert (Hd0 : 0 <= duration) by (apply Z.div_pos; [lia | reflexivity]).
    destruct (Z.ltb_spec 30 duration) as [Hlt | Hge].
    + eexists. split; [reflexivity |]. split; [split; discriminate |].
      split; [intros ? [=] |]. intros months [= <-].
      split; [apply Z.div_le_lower_bound; lia |].
      exists f, l, duration. repeat split; try reflexivity; try assumption.
      unfold PortfolioExporter.days_between. rewrite Hkey. reflexivity.
    + eexists. split; [reflexivity |]. split; [split; discriminate |].
      split; [intros ? [= <-]; lia | intros ? [=]].
Qed.

End ProjectDuration.

(** The language counters after a commit that only adds an empty Python
    file: one counter, at zero. *)
Example empty_file_languages :
  (stats ← get_total_stats empty_file_analyzed;
   Ok (map_to_list (TotalStats.languages stats), TotalStats.total_commits stats))
  = Ok ([("Python", 0)], 1).
Proof. vm_compute. reflexivity. Qed.

Lemma language_tables_witness :
  cli.top_languages [("Python", 0)] = Raise ZeroDivisionError /\
  PortfolioExporter.technical_skills [("Python", 0)] = Raise ZeroDivisionError.
Proof. apply (language_tables [("Python", 0)]); [discriminate | reflexivity]. Defined.

Lemma project_duration_of_analyzed_witness :
  exists line, PortfolioExporter.project_duration demo_repo = Ok line /\
               line = Some (PortfolioExporter.Days 0).
Proof.
  destruct (project_duration_of_analyzed (demo_world (CompletedProcess 0 demo_log))
              demo_analyzer demo_analyzed "repo" demo_repo) as (line & Hline & _).
  - vm_compute. reflexivity.
  - exists line. split; [exact Hline |].
    assert (Hc : PortfolioExporter.project_duration demo_repo
                 = Ok (Some (PortfolioExporter.Days 0))) by (vm_compute; reflexivity).
    congruence.
Defined.

(* ===================================================================== *)
(** * The exit code of the command line *)
(* ===================================================================== *)

Section MainFacts.

Variable fs : FileSystem.
Variable abspath : string -> string.
Variable getcwd : string.
Variable world : nat -> World.
Variable report : GitAnalyzer.t -> bool.

Lemma analyze_each_spec (calls : list (World * string)) (analyzer analyzer' : GitAnalyzer.t) :
  analyzed analyzer ->
  cli.analyze_each analyzer calls = (Ok tt, analyzer') ->
  analyzed analyzer' /\
  (length (GitAnalyzer._repos analyzer') <= length (GitAnalyzer._repos analyzer) + length calls)%nat.
Proof.
  revert analyzer. induction calls as [|[W path] calls IH]; intros analyzer Han; simpl.
  - intros [= <-]. split; [exact Han | lia].
  - pose proof (analyzed_repo W analyzer path Han) as Hnext.
    destruct (analyze_repo_snd W analyzer path) as [_ Hrepos].
    destruct (analyze_repo W analyzer path) as [[r|e] analyzer1] eqn:Hres; [| discriminate].
    simpl in Hnext, Hrepos. intros Hrest.
    destruct (IH analyzer1 Hnext Hrest) as [Ha Hlen]. split; [exact Ha |].
    rewrite Hrepos, length_app in Hlen.
    assert (length (match r with Some stats => [stats] | None => [] end) <= 1)%nat
      by (destruct r; simpl; lia).
    lia.
Qed.

(** X30: [main] returns 0 or 1 when it returns. It returns 0 only when the
    analyses of the chosen paths left at least one repository in the
    analyzer, which then holds at most one repository per path. With [-r]
    the paths are the given ones made absolute, and neither [-s] nor the
    current directory is looked at; with [-s] alone and a path that is no
    directory, or under which no repository is found, it returns 1. *)
Theorem main_exit_code (opts : cli.Options) :
  (forall code, cli.main fs abspath getcwd world report opts = cli.Return code ->
                code = 0 \/ code = 1) /\
  (cli.main fs abspath getcwd world report opts = cli.Return 0 ->
   exists repo_paths analyzer,
     cli.repo_paths_of fs abspath getcwd opts = inr repo_paths /\
     cli.analyze_each (GitAnalyzer.mk (cli.email opts) (cli.author opts) [])
       (imap (fun i path => (world i, path)) repo_paths) = (Ok tt, analyzer) /\
     analyzed analyzer /\
     (0 < length (GitAnalyzer._repos analyzer) <= length repo_paths)%nat) /\
  (forall r rs, cli.repos opts = Some (r :: rs) ->
     cli.repo_paths_of fs abspath getcwd opts = inr (map abspath (r :: rs))) /\
  (forall scan_path,
     (cli.repos opts = None \/ cli.repos opts = Some []) ->
     cli.scan opts = Some scan_path -> scan_path <> EmptyString ->
     fs_isdir fs (abspath scan_path) = false \/
     find_git_repos fs (abspath scan_path) (cli.depth opts) = Some [] ->
     cli.main fs abspath getcwd world report opts = cli.Return 1).
Proof.
  split; [| split; [| split]].
  - intros code. unfold cli.main.
    destruct (cli.repo_paths_of fs abspath getcwd opts) as [e | repo_paths] eqn:Hpaths.
    + intros ->. unfold cli.repo_paths_of in Hpaths.
      destruct (cli.repos opts) as [[|r rs]|]; try discriminate;
        destruct (FileClassifier.truthy (cli.scan opts));
        repeat match type of Hpaths with
               | context [if ?b then _ else _] => destruct b
               | context [match ?x with _ => _ end] => destruct x
               end; try discriminate; injection Hpaths as [= <-]; auto.
    + destruct (cli.analyze_each _ _) as [[u|e] analyzer]; [| discriminate].
      destruct (GitAnalyzer._repos analyzer); [intros [= <-]; auto |].
      destruct (report analyzer); [intros [= <-]; auto | discriminate].
  - unfold cli.main.
    destruct (cli.repo_paths_of fs abspath getcwd opts) as [e | repo_paths] eqn:Hpaths.
    + intros ->. exfalso. unfold cli.repo_paths_of in Hpaths.
      destruct (cli.repos opts) as [[|r rs]|]; try discriminate;
        destruct (FileClassifier.truthy (cli.scan opts));
        repeat match type of Hpaths with
               | context [if ?b then _ else _] => destruct b
               | context [match ?x with _ => _ end] => destruct x
               end; discriminate.
    + destruct (cli.analyze_each _ _) as [[[]|e] analyzer] eqn:Heach; [| discriminate].
      destruct (GitAnalyzer._repos analyzer) as [|repo repos] eqn:Hrepos; [discriminate |].
      intros _. exists repo_paths, analyzer. split; [reflexivity |]. split; [exact Heach |].
      destruct (analyze_each_spec _ _ _ (analyzed_new _ _) Heach) as [Ha Hlen].
      split; [exact Ha |]. rewrite Hrepos in *. simpl in Hlen |- *.
      rewrite length_imap in Hlen. lia.
  - intros r rs Hr. unfold cli.repo_paths_of. rewrite Hr. reflexivity.
  - intros scan_path Hr Hs Hne Hcase. unfold cli.main, cli.repo_paths_of.
    assert (Ht : FileClassifier.truthy (cli.scan opts) = true)
      by (rewrite Hs; destruct scan_path; [congruence | reflexivity]).
    rewrite Hs in *. change (default "" (Some scan_path)) with scan_path.
    destruct Hr as [-> | ->]; rewrite Ht;
      (destruct Hcase as [Hdir | Hfind];
       [rewrite Hdir; reflexivity
       | destruct (fs_isdir fs (abspath scan_path)); [rewrite Hfind |]; reflexivity]).
Qed.

End MainFacts.

(* ===================================================================== *)
(** * The further statements at the demo repository and the demo tree *)
(* ===================================================================== *)

Lemma first_last_commit_dates_witness :
  exists f l,
    RepoStats.first_commit_date demo_repo = Some f /\
    RepoStats.last_commit_date demo_repo = Some l /\
    Forall (fun c => instant f <= instant (CommitInfo.date c) <= instant l)
      (RepoStats.commits demo_repo).
Proof.
  pose proof (first_last_commit_dates (demo_world (CompletedProcess 0 demo_log))
                demo_analyzer demo_analyzed "repo" demo_repo) as H.
  cbv [demo_repo RepoStats.commits] in H.
  destruct H as (f & l & Hf & Hl & _ & _ & Hall); [vm_compute; reflexivity |].
  exists f, l. split; [exact Hf |]. split; [exact Hl | exact Hall].
Defined.

Lemma analyze_repo_outcomes_witness :
  exists stats,
    analyze_repo (demo_world (CompletedProcess 0 demo_log)) demo_analyzer "repo"
    = (Ok (Some stats), GitAnalyzer.mk None None ([] ++ [stats])) /\
    RepoStats.path stats = "repo" /\
    RepoStats.technologies stats = [].
Proof.
  destruct (analyze_repo_outcomes (demo_world (CompletedProcess 0 demo_log))
              demo_analyzer "repo") as [_ Hlisted]; [reflexivity |].
  destruct (Hlisted [] eq_refl) as (_ & _ & Hrun).
  destruct (Hrun demo_log eq_refl) as (_ & Hok & _).
  destruct Hok as (stats & Hs & _ & Hpath & _ & Htech & _).
  - intros Hhit. apply parse_log_raises in Hhit. vm_compute in Hhit. discriminate Hhit.
  - vm_compute. repeat constructor; intros; congruence.
  - exists stats. split; [exact Hs |]. split; [exact Hpath | exact Htech].
Defined.

(** A count of 4300 digits is converted, one of 4301 digits raises; a folder
    that cannot be listed raises before the log command runs. *)
Example analyze_repo_raises :
  (exists stats,
     fst (analyze_repo (demo_world (CompletedProcess 0 (long_count_log 4300)))
            demo_analyzer "repo") = Ok (Some stats) /\
     RepoStats.total_commits stats = 1) /\
  analyze_repo (demo_world (CompletedProcess 0 (long_count_log 4301))) demo_analyzer "repo"
  = (Raise ValueError, demo_analyzer) /\
  analyze_repo (unlistable_world (CompletedProcess 0 demo_log)) demo_analyzer "repo"
  = (Raise OSError, demo_analyzer).
Proof.
  split; [| split; vm_compute; reflexivity].
  eexists. split; [vm_compute; reflexivity | reflexivity].
Qed.

Lemma analyze_repo_twice_witness :
  exists self'',
    analyze_repo (demo_world (CompletedProcess 0 demo_log)) demo_analyzed "repo"
    = (Ok (Some demo_repo), self'') /\
    GitAnalyzer._repos self'' = GitAnalyzer._repos demo_analyzer ++ [demo_repo; demo_repo].
Proof.
  apply (analyze_repo_twice (demo_world (CompletedProcess 0 demo_log))
           demo_analyzer demo_analyzed "repo" demo_repo).
  vm_compute. reflexivity.
Defined.

Lemma analyze_multiple_repos_results_witness :
  [demo_repo]
  = omap (analysis_of demo_analyzer)
      [(demo_world (CompletedProcess 0 demo_log), "repo");
       (demo_world (CompletedProcess 0 demo_log), "elsewhere")] /\
  GitAnalyzer._repos demo_analyzed = GitAnalyzer._repos demo_analyzer ++ [demo_repo].
Proof.
  apply (analyze_multiple_repos_results
           [(demo_world (CompletedProcess 0 demo_log), "repo");
            (demo_world (CompletedProcess 0 demo_log), "elsewhere")]
           demo_analyzer demo_analyzed [demo_repo]).
  vm_compute. reflexivity.
Defined.

Lemma find_git_repos_finds_witness :
  "ws/b/c" ∈ ["ws/a"; "ws/b/c"] <-> found demo_fs (Z.to_nat (3 + 1)) "ws" "ws/b/c".
Proof.
  apply (find_git_repos_finds demo_fs "ws" 3 ["ws/a"; "ws/b/c"]). vm_compute. reflexivity.
Defined.

Lemma find_git_repos_stops_at_root_witness :
  find_git_repos demo_fs "ws/a" 3 = Some ["ws/a"].
Proof.
  apply (find_git_repos_stops_at_root demo_fs "ws/a" 3); [lia | reflexivity].
Defined.

Lemma merged_counts_are_sums_witness :
  exists stats,
    get_total_stats demo_analyzed = Ok stats /\
    counter (TotalStats.languages stats) "Python"
    = total (fun repo => counter (RepoStats.languages repo) "Python")
        (GitAnalyzer._repos demo_analyzed).
Proof.
  destruct (get_total_stats demo_analyzed) as [stats|e] eqn:Hs;
    [| vm_compute in Hs; discriminate].
  exists stats. split; [reflexivity |].
  apply (merged_counts_are_sums demo_analyzed stats Hs).
Defined.

Lemma totals_trace_to_classifications_witness :
  exists stats,
    get_total_stats demo_analyzed = Ok stats /\
    TotalStats.total_files_changed stats
    = Z.of_nat (length (classifications_of (commits_of demo_analyzed))).
Proof.
  pose proof (analyzed_repo (demo_world (CompletedProcess 0 demo_log))
                demo_analyzer "repo" (analyzed_new None None)) as Hdemo.
  vm_compute in Hdemo.
  destruct (get_total_stats demo_analyzed) as [stats|e] eqn:Hs;
    [| vm_compute in Hs; discriminate].
  exists stats. split; [reflexivity |].
  apply (totals_trace_to_classifications demo_analyzed stats Hdemo Hs).
Defined.

Lemma repos_active_counts_names_witness :
  exists summary (names : gset string),
    get_activity_summary (fun _ fmt => fmt) midnight demo_analyzed demo_now "day" None None
    = Ok summary /\
    ActivitySummary.repos_active summary = Z.of_nat (size names).
Proof.
  destruct (repos_active_counts_names (fun _ fmt => fmt) midnight demo_analyzed
              demo_now "day" None None (midnight demo_now) demo_now "Today")
    as (summary & names & Hs & Hn & _); [reflexivity | discriminate | discriminate |].
  exists summary, names. split; [exact Hs | exact Hn].
Defined.

Lemma summary_breakdowns_witness :
  exists summary,
    get_activity_summary (fun _ fmt => fmt) midnight demo_analyzed demo_now "day" None None
    = Ok summary /\
    counter (ActivitySummary.contribution_breakdown summary) TESTS
    = lines_by_category TESTS
        (List.filter (in_period (midnight demo_now) demo_now) (commits_of demo_analyzed)).
Proof.
  destruct (summary_breakdowns (fun _ fmt => fmt) midnight demo_analyzed
              demo_now "day" None None (midnight demo_now) demo_now "Today")
    as (summary & Hs & Hc & _); [reflexivity | discriminate | discriminate |].
  exists summary. split; [exact Hs | exact (Hc TESTS)].
Defined.

Lemma reversed_custom_period_is_empty_witness :
  get_activity_summary (fun _ fmt => fmt) midnight demo_analyzed demo_now "custom"
    (Some demo_now) (Some noon_2024_01_01)
  = Ok (ActivitySummary.mk demo_now noon_2024_01_01
          ("%Y-%m-%d" +:+ " to " +:+ "%Y-%m-%d") 0 0 0 0 0 ∅ ∅).
Proof.
  apply (reversed_custom_period_is_empty (fun _ fmt => fmt) midnight demo_analyzed
           demo_now demo_now noon_2024_01_01); [discriminate | discriminate |].
  vm_compute. reflexivity.
Defined.

Lemma daily_activity_buckets_witness :
  (exists summaries,
     get_daily_activity (fun _ fmt => fmt) demo_analyzed demo_now 7 = Ok summaries /\
     length summaries = 7%nat) /\
  get_daily_activity (fun _ fmt => fmt) demo_analyzed demo_now 800000 = Raise OverflowError.
Proof.
  split.
  - destruct (daily_activity_buckets (fun _ fmt => fmt) demo_analyzed demo_now 7)
      as (Hok & _ & Hlen); [discriminate | reflexivity |].
    eexists. split; [apply Hok; vm_compute; discriminate |].
    rewrite length_map. exact Hlen.
  - apply (daily_activity_buckets (fun _ fmt => fmt) demo_analyzed demo_now 800000);
      [discriminate | reflexivity | reflexivity].
Defined.

Lemma weekly_activity_buckets_witness :
  (exists summaries,
     get_weekly_activity (fun _ fmt => fmt) demo_analyzed demo_now 4 = Ok summaries /\
     length summaries = 4%nat) /\
  get_weekly_activity (fun _ fmt => fmt) demo_analyzed demo_now 120000 = Raise OverflowError /\
  (forall i, weekday (week_start demo_now i) = 0 /\ wall (week_start demo_now i) mod DAY = 0).
Proof.
  destruct (weekly_activity_buckets (fun _ fmt => fmt) demo_analyzed demo_now 4)
    as (Hok & _ & _ & Hlen & Hmonday); [discriminate | reflexivity |].
  split; [| split; [| exact Hmonday]].
  - eexists. split; [apply Hok; [vm_compute; discriminate | right; reflexivity] |].
    rewrite length_map. exact Hlen.
  - apply (weekly_activity_buckets (fun _ fmt => fmt) demo_analyzed demo_now 120000);
      [discriminate | reflexivity | reflexivity].
Defined.

Lemma daily_buckets_tile_time_witness :
  exists i,
    (forall j, between (day_start demo_now j)
                 (with_period_tz noon_2024_01_01 (tzinfo demo_now)) (day_end demo_now j)
               = Ok (bool_decide (j = i))) /\
    (0 <= i <-> instant (with_period_tz noon_2024_01_01 (tzinfo demo_now))
                <= instant (day_end demo_now 0)).
Proof.
  apply (daily_buckets_tile_time demo_now
           (CommitInfo.mk "a1" "Ann" "ann@example.org" noon_2024_01_01 "add app" 0 0 0 [])).
  discriminate.
Defined.

Lemma weekly_buckets_tile_whole_seconds_witness :
  exists i,
    forall j, between (week_start demo_now j)
                (with_period_tz noon_2024_01_01 (tzinfo demo_now)) (week_end demo_now j)
              = Ok (bool_decide (j = i)).
Proof.
  apply (weekly_buckets_tile_whole_seconds demo_now
           (CommitInfo.mk "a1" "Ann" "ann@example.org" noon_2024_01_01 "add app" 0 0 0 []));
    [discriminate | reflexivity | reflexivity].
Defined.

(** The readme without a line to take is passed over, and the description
    comes from the next one. *)
Example demo_description :
  OnDisk._get_repo_description demo_fs "ws/a" = "A small tool. It counts lines.".
Proof. vm_compute. reflexivity. Qed.

(** A name that only holds [.csproj] counts for the indicator with a star. *)
Example demo_technologies :
  OnDisk._detect_technologies demo_fs "ws/a" = Some [".NET"; "C#"; "Kubernetes"; "Python"].
Proof. vm_compute. reflexivity. Qed.

(** With [-r] on a path that is no repository [main] returns 1; on the demo
    repository it returns 0. *)
Example demo_main :
  cli.main demo_fs (fun p => p) "ws" (fun _ => demo_world (CompletedProcess 0 demo_log))
    (fun _ => true) (cli.mkOptions (Some ["elsewhere"]) None 3 None None) = cli.Return 1 /\
  cli.main demo_fs (fun p => p) "ws" (fun _ => demo_world (CompletedProcess 0 demo_log))
    (fun _ => true) (cli.mkOptions (Some ["repo"]) None 3 None None) = cli.Return 0.
Proof. split; vm_compute; reflexivity. Qed.
